(** * imgaug.augmentables.normalization: a shallow embedding

    The module maps caller input of many shapes (arrays, coordinate tuples,
    rich objects, nested sequences of these) to per-image containers and
    back.  This file embeds its functions as Rocq functions over a small
    universe of Python values and proves properties of them.

    Conventions of the embedding.
    - A Python call that can raise returns an [outcome]: [Ret v], [Raise e]
      or [OutOfFuel]; the last one stands for a recursion that did not end
      within the given number of nested calls.
    - Numbers are exact integers.  A float array holds integer-valued
      floats; a cast to a float dtype rounds to the significand of that
      dtype, a cast to an integer dtype wraps around.
    - Lists and tuples are written inline as finite terms.  A container
      that can be reached from itself cannot be written that way: it lives
      in a read-only store of objects and is named by its address
      ([VRef]).  Object identity (Python's [is]) is equality of
      addresses; a container written inline is a fresh object. *)

From Stdlib Require Import ZArith String Ascii Bool Arith Lia.
From Stdlib Require Import DecimalString DecimalNat.
From Stdlib Require Import List.
Import ListNotations.
Set Warnings "-register-all".
Open Scope string_scope.
Open Scope list_scope.
Open Scope Z_scope.
Open Scope nat_scope.

(** ** Outcomes of a call *)

Inductive exn :=
| AssertionError (msg : string)
| ValueError (msg : string)
| TypeError
| AttributeError
| IndexError.

Inductive outcome (A : Type) :=
| Ret (a : A)
| Raise (e : exn)
| OutOfFuel.
Arguments Ret {A} a.
Arguments Raise {A} e.
Arguments OutOfFuel {A}.

Definition bind {A B} (m : outcome A) (k : A -> outcome B) : outcome B :=
  match m with
  | Ret a => k a
  | Raise e => Raise e
  | OutOfFuel => OutOfFuel
  end.

Notation "x <- m ;; k" := (bind m (fun x => k))
  (at level 61, m at next level, right associativity).
Notation "m ;;; k" := (bind m (fun _ => k))
  (at level 61, right associativity).

(** [assert cond] and [assert cond, msg]. *)
Definition py_assert (cond : bool) (msg : string) : outcome unit :=
  if cond then Ret tt else Raise (AssertionError msg).

Fixpoint mapM {A B} (f : A -> outcome B) (l : list A) : outcome (list B) :=
  match l with
  | [] => Ret []
  | x :: l' => y <- f x ;; ys <- mapM f l' ;; Ret (y :: ys)
  end.

(** ** Strings *)

(** ["%d" % n] *)
Definition fmt_d (n : nat) : string := NilZero.string_of_uint (Nat.to_uint n).

(** [sep.join(l)] *)
Definition join (sep : string) (l : list string) : string := String.concat sep l.

(** [s.lstrip(c)] for a one-character [c]. *)
Fixpoint lstrip (c : ascii) (s : string) : string :=
  match s with
  | String c' s' => if Ascii.eqb c' c then lstrip c s' else s
  | EmptyString => s
  end.

(** [x in l] on strings. *)
Definition str_in (x : string) (l : list string) : bool :=
  existsb (String.eqb x) l.

(** [needle in s] *)
Fixpoint contains (needle s : string) : bool :=
  if String.prefix needle s then true
  else match s with
       | EmptyString => false
       | String _ s' => contains needle s'
       end.

(** ** numpy arrays *)

(** [dtype.kind] is a one-character string, [dtype.itemsize] a number of
    bytes. *)
Record dtype := mk_dtype { kind : string; itemsize : nat }.

Definition float16 := mk_dtype "f" 2.
Definition float32 := mk_dtype "f" 4.
Definition float64 := mk_dtype "f" 8.
Definition int8 := mk_dtype "i" 1.
Definition int16 := mk_dtype "i" 2.
Definition int32 := mk_dtype "i" 4.
Definition int64 := mk_dtype "i" 8.
Definition uint8 := mk_dtype "u" 1.
Definition uint16 := mk_dtype "u" 2.
Definition bool_ := mk_dtype "b" 1.

Definition dtype_eqb (d1 d2 : dtype) : bool :=
  String.eqb (kind d1) (kind d2) && Nat.eqb (itemsize d1) (itemsize d2).

(** An array: element type, extent along each axis, elements in row-major
    order. *)
Record ndarray := mk_array { dtype_of : dtype; shape : list nat; data : list Z }.

Definition ndim (a : ndarray) : nat := length (shape a).

Definition size_of (sh : list nat) : nat := fold_right Nat.mul 1 sh.

(** ** Python values *)

Inductive numkind := PyInt | PyFloat | NpScalar (dt : dtype).

Inductive value :=
| VNone
| VBool (b : bool)
| VNum (k : numkind) (z : Z)
| VStr (s : string)
| VArr (a : ndarray)
| VList (items : list value)
| VTuple (items : list value)
| VRef (addr : nat)
| VObj (cls : string) (fields : list value).

(** A stored container: [true] for a tuple, [false] for a list, and its
    elements. *)
Definition store := list (bool * list value).

(** Python's [x is y].  Two references are identical when they name the
    same stored object; [None], [True] and [False] are singletons; a
    value written inline is a fresh object. *)
Definition is_ (x y : value) : bool :=
  match x, y with
  | VRef a, VRef b => Nat.eqb a b
  | VNone, VNone => true
  | VBool a, VBool b => Bool.eqb a b
  | _, _ => false
  end.

(** ** Helpers of [imgaug.imgaug] *)

Section WithStore.

Variable h : store.

(** The elements of a list or tuple, inline or stored. *)
Definition seq_items (v : value) : option (list value) :=
  match v with
  | VList l | VTuple l => Some l
  | VRef a => option_map snd (nth_error h a)
  | _ => None
  end.

(** [isinstance(v, tuple)] *)
Definition is_tuple (v : value) : bool :=
  match v with
  | VTuple _ => true
  | VRef a => match nth_error h a with Some (t, _) => t | None => false end
  | _ => false
  end.

(** [isinstance(v, list)] *)
Definition is_list (v : value) : bool :=
  match v with
  | VList _ => true
  | VRef a => match nth_error h a with Some (t, _) => negb t | None => false end
  | _ => false
  end.

(** Modelled from the spec: [ia.is_np_array], [ia.is_string],
    [ia.is_iterable] and [ia.is_single_number] of [imgaug.imgaug], which is
    not under src/.  The spec speaks of a raw numeric array, of a
    string-like value, of a sequence-like value and of a plain number. *)
Definition is_np_array (v : value) : bool :=
  match v with VArr _ => true | _ => false end.

(** Modelled from the spec: [ia.is_string], a string-like value. *)
Definition is_string (v : value) : bool :=
  match v with VStr _ => true | _ => false end.

(** Modelled from the spec: [ia.is_iterable], a sequence-like value; a
    string and an array are iterable too. *)
Definition is_iterable (v : value) : bool :=
  match v with
  | VList _ | VTuple _ | VStr _ | VArr _ => true
  | VRef a => match nth_error h a with Some _ => true | None => false end
  | _ => false
  end.

(** Modelled from the spec: [ia.is_single_number], a plain number. *)
Definition is_single_number (v : value) : bool :=
  match v with VNum _ _ => true | _ => false end.

(** [v is None] *)
Definition is_none (v : value) : bool :=
  match v with VNone => true | _ => false end.

(** [v.__class__.__name__] *)
Definition kind_map : list (string * string) :=
  [("f", "float"); ("u", "uint"); ("i", "int"); ("b", "bool")].

Fixpoint lookup (k : string) (m : list (string * string)) : option string :=
  match m with
  | [] => None
  | (k', v) :: m' => if String.eqb k k' then Some v else lookup k m'
  end.

Definition kind_name (k : string) : string :=
  match lookup k kind_map with Some n => n | None => k end.

Definition class_name (v : value) : string :=
  match v with
  | VNone => "NoneType"
  | VBool _ => "bool"
  | VNum PyInt _ => "int"
  | VNum PyFloat _ => "float"
  | VNum (NpScalar dt) _ => (kind_name (kind dt) ++ fmt_d (8 * itemsize dt))%string
  | VStr _ => "str"
  | VArr _ => "ndarray"
  | VList _ => "list"
  | VTuple _ => "tuple"
  | VRef _ => if is_tuple v then "tuple" else "list"
  | VObj c _ => c
  end.

(** ** find_first_nonempty *)

Definition found := (value * bool * list value)%type.

(** The [for attr_i in attr] loop of [find_first_nonempty]; [rec] is the
    recursive call on one element, [deepest] the triple
    [(nonempty_deepest, success_deepest, parents_deepest)]. *)
Fixpoint first_nonempty_loop (rec : value -> outcome found)
         (l : list value) (deepest : found) : outcome found :=
  match l with
  | [] => Ret deepest
  | attr_i :: l' =>
      r <- rec attr_i ;;
      let '(nonempty, success, parents_found) := r in
      if success then Ret (nonempty, success, parents_found)
      else if length (snd deepest) <? length parents_found
           then first_nonempty_loop rec l' (nonempty, success, parents_found)
           else first_nonempty_loop rec l' deepest
  end.

Fixpoint find_first_nonempty (fuel : nat) (attr : value) (parents : list value)
  : outcome found :=
  match fuel with
  | O => OutOfFuel
  | S fuel' =>
      if is_none attr || is_np_array attr then Ret (attr, true, parents)
      else if is_iterable attr && negb (is_string attr) then
        match seq_items attr with
        | None => Raise TypeError
        | Some [] => Ret (VNone, false, parents)
        | Some (first :: rest) =>
            if is_ first attr then Ret (attr, true, parents)
            else first_nonempty_loop
                   (fun attr_i => find_first_nonempty fuel' attr_i (parents ++ [attr]))
                   (first :: rest) (VNone, false, parents)
        end
      else Ret (attr, true, parents)
  end.

(** ** The classifier *)

Definition last_parent (parents : list value) : value := last parents VNone.

Definition _nonempty_info_to_type_str (nonempty : value) (success : bool)
           (parents : list value) : outcome string :=
  py_assert (length parents <=? 4) "" ;;;
  let parent_iters :=
    if 0 <? length parents
    then (join "-" (repeat "iterable" (length parents)) ++ "-")%string
    else "" in
  if negb success then Ret (parent_iters ++ "iterable[empty]")%string
  else
    let is_parent_tuple :=
      (1 <=? length parents) && is_tuple (last_parent parents) in
    let tuple_items :=
      match seq_items (last_parent parents) with Some l => l | None => [] end in
    let is_only_numbers_in_tuple :=
      (0 <? length tuple_items) && forallb is_single_number tuple_items in
    if is_parent_tuple && is_only_numbers_in_tuple then
      let parent_iters := join "-" (repeat "iterable" (length parents - 1)) in
      let tpl_name :=
        ("tuple[number,size=" ++ fmt_d (length tuple_items) ++ "]")%string in
      Ret (lstrip "-" (join "-" [parent_iters; tpl_name]))
    else
      match nonempty with
      | VNone => Ret "None"
      | VArr a =>
          Ret (parent_iters ++ "array[" ++ kind_name (kind (dtype_of a)) ++ "]")%string
      | _ => Ret (parent_iters ++ class_name nonempty)%string
      end.

Definition estimate_normalization_type (fuel : nat) (inputs : value)
  : outcome string :=
  r <- find_first_nonempty fuel inputs [] ;;
  let '(nonempty, success, parents) := r in
  _nonempty_info_to_type_str nonempty success parents.

Definition _assert_is_of_norm_type (type_str : string)
           (valid_type_strs : list string) (arg_name : string) : outcome unit :=
  py_assert (str_in type_str valid_type_strs)
    ("Got an unknown datatype for argument '" ++ arg_name
     ++ "'. Expected datatypes were: " ++ join ", " valid_type_strs
     ++ ". Got: " ++ type_str ++ ".")%string.

Definition heatmaps_valid_type_strs : list string :=
  [ "None"; "array[float]"; "HeatmapsOnImage"; "iterable[empty]";
    "iterable-array[float]"; "iterable-HeatmapsOnImage" ].

Definition estimate_heatmaps_norm_type (fuel : nat) (heatmaps : value)
  : outcome string :=
  type_str <- estimate_normalization_type fuel heatmaps ;;
  _assert_is_of_norm_type type_str heatmaps_valid_type_strs "heatmaps" ;;;
  Ret type_str.

Definition segmaps_valid_type_strs : list string :=
  [ "None"; "array[int]"; "array[uint]"; "array[bool]";
    "SegmentationMapOnImage"; "iterable[empty]";
    "iterable-array[int]"; "iterable-array[uint]"; "iterable-array[bool]";
    "iterable-SegmentationMapOnImage" ].

Definition estimate_segmaps_norm_type (fuel : nat) (segmentation_maps : value)
  : outcome string :=
  type_str <- estimate_normalization_type fuel segmentation_maps ;;
  _assert_is_of_norm_type type_str segmaps_valid_type_strs "segmentation_maps" ;;;
  Ret type_str.

Definition keypoints_valid_type_strs : list string :=
  [ "None"; "array[float]"; "array[int]"; "array[uint]";
    "tuple[number,size=2]"; "Keypoint"; "KeypointsOnImage";
    "iterable[empty]";
    "iterable-array[float]"; "iterable-array[int]"; "iterable-array[uint]";
    "iterable-tuple[number,size=2]"; "iterable-Keypoint";
    "iterable-KeypointsOnImage"; "iterable-iterable[empty]";
    "iterable-iterable-tuple[number,size=2]"; "iterable-iterable-Keypoint" ].

Definition estimate_keypoints_norm_type (fuel : nat) (keypoints : value)
  : outcome string :=
  type_str <- estimate_normalization_type fuel keypoints ;;
  _assert_is_of_norm_type type_str keypoints_valid_type_strs "keypoints" ;;;
  Ret type_str.

Definition bounding_boxes_valid_type_strs : list string :=
  [ "None"; "array[float]"; "array[int]"; "array[uint]";
    "tuple[number,size=4]"; "BoundingBox"; "BoundingBoxesOnImage";
    "iterable[empty]";
    "iterable-array[float]"; "iterable-array[int]"; "iterable-array[uint]";
    "iterable-tuple[number,size=4]"; "iterable-BoundingBox";
    "iterable-BoundingBoxesOnImage"; "iterable-iterable[empty]";
    "iterable-iterable-tuple[number,size=4]"; "iterable-iterable-BoundingBox" ].

Definition estimate_bounding_boxes_norm_type (fuel : nat) (bounding_boxes : value)
  : outcome string :=
  type_str <- estimate_normalization_type fuel bounding_boxes ;;
  _assert_is_of_norm_type type_str bounding_boxes_valid_type_strs "bounding_boxes" ;;;
  Ret type_str.

Definition polygons_valid_type_strs : list string :=
  [ "None"; "array[float]"; "array[int]"; "array[uint]";
    "Polygon"; "PolygonsOnImage"; "iterable[empty]";
    "iterable-array[float]"; "iterable-array[int]"; "iterable-array[uint]";
    "iterable-tuple[number,size=2]"; "iterable-Keypoint"; "iterable-Polygon";
    "iterable-PolygonsOnImage"; "iterable-iterable[empty]";
    "iterable-iterable-array[float]"; "iterable-iterable-array[int]";
    "iterable-iterable-array[uint]";
    "iterable-iterable-tuple[number,size=2]"; "iterable-iterable-Keypoint";
    "iterable-iterable-Polygon"; "iterable-iterable-iterable[empty]";
    "iterable-iterable-iterable-tuple[number,size=2]";
    "iterable-iterable-iterable-Keypoint" ].

Definition estimate_polygons_norm_type (fuel : nat) (polygons : value)
  : outcome string :=
  type_str <- estimate_normalization_type fuel polygons ;;
  _assert_is_of_norm_type type_str polygons_valid_type_strs "polygons" ;;;
  Ret type_str.

End WithStore.

(** ** numpy operations *)

(** Round a positive integer to [p] significant bits, ties to even: the
    value a float with a [p]-bit significand holds for it (overflow to
    infinity is outside the model). *)
Definition round_sig (p : Z) (z : Z) : Z :=
  let a := Z.abs z in
  if (a <? 2 ^ p)%Z then z
  else
    let e := (Z.log2 a - (p - 1))%Z in
    let q := (a / 2 ^ e)%Z in
    let r := (a mod 2 ^ e)%Z in
    let half := (2 ^ (e - 1))%Z in
    let q' := if (r <? half)%Z then q
              else if (half <? r)%Z then (q + 1)%Z
              else if Z.even q then q else (q + 1)%Z in
    (Z.sgn z * q' * 2 ^ e)%Z.

Definition significand_bits (itemsize : nat) : Z :=
  match itemsize with
  | 2 => 11%Z
  | 4 => 24%Z
  | 8 => 53%Z
  | _ => 64%Z
  end.

(** A direct cast of one element to [dt] (C semantics of [astype]): no
    clamping, unsigned and signed integers wrap around. *)
Definition cast (dt : dtype) (z : Z) : Z :=
  let bits := Z.of_nat (8 * itemsize dt) in
  if String.eqb (kind dt) "u" then (z mod 2 ^ bits)%Z
  else if String.eqb (kind dt) "i"
       then ((z + 2 ^ (bits - 1)) mod 2 ^ bits - 2 ^ (bits - 1))%Z
  else if String.eqb (kind dt) "b" then (if (z =? 0)%Z then 0%Z else 1%Z)
  else if String.eqb (kind dt) "f" then round_sig (significand_bits (itemsize dt)) z
  else z.

(** [a.astype(dt)] *)
Definition astype (dt : dtype) (a : ndarray) : ndarray :=
  mk_array dt (shape a) (map (cast dt) (data a)).

(** Split [l] into [n] consecutive blocks of [sz] elements. *)
Fixpoint chunks {A} (n sz : nat) (l : list A) : list (list A) :=
  match n with
  | O => []
  | S n' => firstn sz l :: chunks n' sz (skipn sz l)
  end.

(** [list(a)]: the sub-arrays along the first axis; the elements of a 1-D
    array are numpy scalars. *)
Definition subarrays (a : ndarray) : outcome (list value) :=
  match shape a with
  | [] => Raise TypeError
  | [n] => Ret (map (fun z => VNum (NpScalar (dtype_of a)) z) (firstn n (data a)))
  | n :: sh =>
      Ret (map (fun d => VArr (mk_array (dtype_of a) sh d))
               (chunks n (size_of sh) (data a)))
  end.

(** [a[..., i, ...]] with the integer index [i] on axis [axis] and full
    slices elsewhere. *)
Definition select_axis (axis i : nat) (a : ndarray) : outcome ndarray :=
  match nth_error (shape a) axis with
  | None => Raise IndexError
  | Some n =>
      if i <? n then
        let pre := firstn axis (shape a) in
        let post := skipn (S axis) (shape a) in
        let inner := size_of post in
        Ret (mk_array (dtype_of a) (pre ++ post)
               (concat (map (fun blk => firstn inner (skipn (i * inner) blk))
                            (chunks (size_of pre) (n * inner) (data a)))))
      else Raise IndexError
  end.

(** [np.max(a)] *)
Definition np_max (a : ndarray) : outcome Z :=
  match data a with
  | [] => Raise (ValueError "zero-size array to reduction operation maximum which has no identity")
  | z :: l => Ret (fold_left Z.max l z)
  end.

(** [np.array(l)] for a list of arrays of one shape and one dtype: a block
    with a new first axis. *)
Definition np_stack (l : list ndarray) : ndarray :=
  match l with
  | [] => mk_array float64 [0] []
  | a :: _ => mk_array (dtype_of a) (length l :: shape a) (concat (map data l))
  end.

(** [a.shape] as a tuple of ints. *)
Definition shape_tuple (sh : list nat) : value :=
  VTuple (map (fun n => VNum PyInt (Z.of_nat n)) sh).

Fixpoint all_eqb {A} (eqb : A -> A -> bool) (x : A) (l : list A) : bool :=
  match l with
  | [] => true
  | y :: l' => eqb x y && all_eqb eqb x l'
  end.

Definition shape_eqb (s1 s2 : list nat) : bool :=
  Nat.eqb (length s1) (length s2) && forallb (fun p => Nat.eqb (fst p) (snd p)) (combine s1 s2).

(** [len(set(shapes)) == 1] *)
Definition one_shape (shapes : list (list nat)) : bool :=
  match shapes with
  | [] => false
  | s :: l => all_eqb shape_eqb s l
  end.

(** ** Python operations on values *)

Section WithStore2.

Variable h : store.

(** [len(v)] *)
Definition py_len (v : value) : outcome nat :=
  match v with
  | VArr a => match shape a with [] => Raise TypeError | n :: _ => Ret n end
  | VStr s => Ret (String.length s)
  | _ => match seq_items h v with Some l => Ret (length l) | None => Raise TypeError end
  end.

(** [list(v)]: the elements [for x in v] visits. *)
Definition py_iter (v : value) : outcome (list value) :=
  match v with
  | VArr a => subarrays a
  | VStr s => Ret (map (fun c => VStr (String c EmptyString)) (list_ascii_of_string s))
  | _ => match seq_items h v with Some l => Ret l | None => Raise TypeError end
  end.

(** [v[i]] *)
Definition py_getitem (v : value) (i : nat) : outcome value :=
  l <- py_iter v ;;
  match nth_error l i with Some x => Ret x | None => Raise IndexError end.

(** [x1, ..., xn = v] *)
Definition py_unpack (n : nat) (v : value) : outcome (list value) :=
  l <- py_iter v ;;
  if Nat.eqb (length l) n then Ret l else Raise (ValueError "").

(** [v.ndim], [v.shape], [v.dtype] *)
Definition get_array (v : value) : outcome ndarray :=
  match v with VArr a => Ret a | _ => Raise AttributeError end.

Definition py_ndim (v : value) : outcome nat := a <- get_array v ;; Ret (ndim a).

(** [v.shape[i]] *)
Definition py_shape_at (v : value) (i : nat) : outcome nat :=
  a <- get_array v ;;
  match nth_error (shape a) i with Some n => Ret n | None => Raise IndexError end.

(** [v[:]] *)
Definition py_copy (v : value) : outcome value :=
  match v with
  | VArr _ | VStr _ => Ret v
  | _ => match seq_items h v with
         | Some l => Ret (if is_tuple h v then VTuple l else VList l)
         | None => Raise TypeError
         end
  end.

End WithStore2.

(** ** Shapes and images *)

Section Normalization.

Variable h : store.

Definition _preprocess_shapes (shapes : value) : outcome (option (list value)) :=
  if is_none shapes then Ret None
  else if is_np_array shapes then
    nd <- py_ndim shapes ;;
    py_assert (Nat.eqb nd 3 || Nat.eqb nd 4) "" ;;;
    images <- py_iter h shapes ;;
    result <- mapM (fun image => a <- get_array image ;; Ret (shape_tuple (shape a))) images ;;
    Ret (Some result)
  else
    py_assert (is_list h shapes) "" ;;;
    l <- py_iter h shapes ;;
    result <- mapM (fun shape_i =>
                      if is_tuple h shape_i then Ret shape_i
                      else py_assert (is_np_array shape_i) "" ;;;
                           a <- get_array shape_i ;; Ret (shape_tuple (shape a))) l ;;
    Ret (Some result).

Definition _assert_exactly_n_shapes (shapes : option (list value)) (n : nat)
           (from_ntype to_ntype : string) : outcome unit :=
  match shapes with
  | None =>
      Raise (ValueError
        ("Tried to convert data of form '" ++ from_ntype ++ "' to '" ++ to_ntype
         ++ "'. This required " ++ fmt_d n ++ " "
         ++ "corresponding image shapes, but argument 'shapes' was set to "
         ++ "None. This can happen e.g. if no images were provided in a "
         ++ "Batch, as these would usually be used to automatically derive "
         ++ "image shapes.")%string)
  | Some l =>
      if negb (Nat.eqb (length l) n) then
        Raise (ValueError
          ("Tried to convert data of form '" ++ from_ntype ++ "' to '" ++ to_ntype
           ++ "'. This required "
           ++ "exactly " ++ fmt_d n ++ " corresponding image shapes, but instead "
           ++ fmt_d (length l) ++ " were "
           ++ "provided. This can happen e.g. if more images were provided "
           ++ "than corresponding augmentables, e.g. 10 images but only 5 "
           ++ "segmentation maps. It can also happen if there was a "
           ++ "misunderstanding about how an augmentable input would be "
           ++ "parsed. E.g. if a list of N (x,y)-tuples was provided as "
           ++ "keypoints and the expectation was that this would be parsed "
           ++ "as one keypoint per image for N images, but instead it was "
           ++ "parsed as N keypoints on 1 image (i.e. 'shapes' would have to "
           ++ "contain 1 shape, but N would be provided). To avoid this, it "
           ++ "is recommended to provide imgaug standard classes, e.g. "
           ++ "KeypointsOnImage for keypoints instead of lists of "
           ++ "tuples.")%string)
      else Ret tt
  end.

(** [a[np.newaxis, ..., np.newaxis]] and [a[..., np.newaxis]] *)
Definition add_outer_axes (a : ndarray) : ndarray :=
  mk_array (dtype_of a) (1 :: shape a ++ [1]) (data a).

Definition add_last_axis (a : ndarray) : ndarray :=
  mk_array (dtype_of a) (shape a ++ [1]) (data a).

(** [str(type(v))] *)
Definition type_repr (v : value) : string :=
  ("<class '" ++ class_name h v ++ "'>")%string.

Definition normalize_images (images : value) : outcome value :=
  if is_none images then Ret VNone
  else if is_np_array images then
    a <- get_array images ;;
    if Nat.eqb (ndim a) 2 then Ret (VArr (add_outer_axes a))
    else if Nat.eqb (ndim a) 3 then Ret (VArr (add_last_axis a))
    else Ret images
  else if is_iterable h images then
    l <- py_iter h images ;;
    result <- mapM (fun image =>
                      nd <- py_ndim image ;;
                      if Nat.eqb nd 2 then
                        a <- get_array image ;; Ret (VArr (add_last_axis a))
                      else
                        py_assert (Nat.eqb nd 3) "" ;;; Ret image) l ;;
    Ret (VList result)
  else
    Raise (ValueError
      ("Expected argument 'images' to be any of the following: "
       ++ "None or array or iterable of array. Got type: "
       ++ type_repr images ++ ".")%string).

(** [a[..., 0]] *)
Definition select_last0 (a : ndarray) : outcome ndarray :=
  match ndim a with
  | O => Raise IndexError
  | S k => select_axis k 0 a
  end.

Definition invert_normalize_images (images images_old : value) : outcome value :=
  if is_none images_old then
    py_assert (is_none images) "" ;;; Ret VNone
  else if is_np_array images_old then
    nd_old <- py_ndim images_old ;;
    if Nat.eqb nd_old 2 then
      s0 <- py_shape_at images 0 ;;
      py_assert (Nat.eqb s0 1) "" ;;;
      s3 <- py_shape_at images 3 ;;
      py_assert (Nat.eqb s3 1) "" ;;;
      a <- get_array images ;;
      a0 <- select_axis 0 0 a ;;
      r <- select_last0 a0 ;;
      Ret (VArr r)
    else if Nat.eqb nd_old 3 then
      s3 <- py_shape_at images 3 ;;
      py_assert (Nat.eqb s3 1) "" ;;;
      a <- get_array images ;;
      r <- select_last0 a ;;
      Ret (VArr r)
    else Ret images
  else if is_iterable h images_old then
    l <- py_iter h images ;;
    l_old <- py_iter h images_old ;;
    result <- mapM (fun p =>
                      let '(image, image_old) := p in
                      nd_old <- py_ndim image_old ;;
                      if Nat.eqb nd_old 2 then
                        s2 <- py_shape_at image 2 ;;
                        py_assert (Nat.eqb s2 1) "" ;;;
                        a <- get_array image ;;
                        r <- select_axis 2 0 a ;;
                        Ret (VArr r)
                      else
                        nd <- py_ndim image ;;
                        py_assert (Nat.eqb nd 3) "" ;;;
                        py_assert (Nat.eqb nd_old 3) "" ;;;
                        Ret image) (combine l l_old) ;;
    Ret (VList result)
  else
    Raise (ValueError
      ("Expected argument 'images_old' to be any of the following: "
       ++ "None or array or iterable of array. Got type: "
       ++ type_repr images_old ++ ".")%string).

(** ** The on-image classes *)

(** Modelled from the spec: the classes [HeatmapsOnImage],
    [SegmentationMapOnImage], [Keypoint], [KeypointsOnImage], [BoundingBox],
    [BoundingBoxesOnImage], [Polygon] and [PolygonsOnImage], which are not
    under src/.  Each is a constructor taking the raw payload and the shape
    descriptor, an accessor returning the payload as a numeric array and,
    for keypoints, boxes and polygons, accessors returning the leaf
    elements in order.  The array payloads are kept in an internal dtype
    ([float32], and [int32] for segmentation maps). *)
Definition class_fields (cls : string) : list string :=
  if String.eqb cls "HeatmapsOnImage" then ["arr_0to1"; "shape"]
  else if String.eqb cls "SegmentationMapOnImage" then ["arr"; "shape"; "nb_classes"]
  else if String.eqb cls "Keypoint" then ["x"; "y"]
  else if String.eqb cls "KeypointsOnImage" then ["keypoints"; "shape"]
  else if String.eqb cls "BoundingBox" then ["x1"; "y1"; "x2"; "y2"]
  else if String.eqb cls "BoundingBoxesOnImage" then ["bounding_boxes"; "shape"]
  else if String.eqb cls "Polygon" then ["exterior"]
  else if String.eqb cls "PolygonsOnImage" then ["polygons"; "shape"]
  else [].

Fixpoint index_of (name : string) (l : list string) : option nat :=
  match l with
  | [] => None
  | x :: l' => if String.eqb name x then Some 0
               else option_map S (index_of name l')
  end.

(** [o.name] *)
Definition getattr (o : value) (name : string) : outcome value :=
  match o with
  | VObj cls fields =>
      match index_of name (class_fields cls) with
      | Some i => match nth_error fields i with
                  | Some v => Ret v
                  | None => Raise AttributeError
                  end
      | None => Raise AttributeError
      end
  | _ => Raise AttributeError
  end.

(** [float(v)] of a plain number. *)
Definition num_of (v : value) : outcome Z :=
  match v with
  | VNum _ z => Ret z
  | VBool b => Ret (if b then 1%Z else 0%Z)
  | _ => Raise TypeError
  end.

(** Modelled from the spec: [HeatmapsOnImage(arr, shape=shape)] keeps the
    array as [float32] under [arr_0to1]. *)
Definition HeatmapsOnImage (arr shape : value) : outcome value :=
  a <- get_array arr ;;
  Ret (VObj "HeatmapsOnImage" [VArr (astype float32 a); shape]).

(** Modelled from the spec: [SegmentationMapOnImage(arr, shape=shape,
    nb_classes=nb_classes)] keeps the array as [int32] under [arr]. *)
Definition SegmentationMapOnImage (arr shape nb_classes : value) : outcome value :=
  a <- get_array arr ;;
  Ret (VObj "SegmentationMapOnImage" [VArr (astype int32 a); shape; nb_classes]).

(** Modelled from the spec: [segmap.get_arr_int()], the payload array. *)
Definition get_arr_int (o : value) : outcome value := getattr o "arr".

(** Modelled from the spec: [Keypoint(x=x, y=y)]. *)
Definition Keypoint (x y : value) : value := VObj "Keypoint" [x; y].

(** Modelled from the spec: [KeypointsOnImage(keypoints, shape=shape)]. *)
Definition KeypointsOnImage (keypoints shape : value) : value :=
  VObj "KeypointsOnImage" [keypoints; shape].

(** Modelled from the spec: [BoundingBox(x1=x1, y1=y1, x2=x2, y2=y2)]. *)
Definition BoundingBox (x1 y1 x2 y2 : value) : value :=
  VObj "BoundingBox" [x1; y1; x2; y2].

(** Modelled from the spec: [BoundingBoxesOnImage(bounding_boxes,
    shape=shape)]. *)
Definition BoundingBoxesOnImage (bounding_boxes shape : value) : value :=
  VObj "BoundingBoxesOnImage" [bounding_boxes; shape].

(** Modelled from the spec: [PolygonsOnImage(polygons, shape=shape)]. *)
Definition PolygonsOnImage (polygons shape : value) : value :=
  VObj "PolygonsOnImage" [polygons; shape].

(** The rows of a 2-D array, each as its list of scalars. *)
Definition array_rows (arr : value) : outcome (list (list value)) :=
  rows <- py_iter h arr ;;
  mapM (fun row => py_iter h row) rows.

(** Modelled from the spec: [KeypointsOnImage.from_coords_array(arr,
    shape)], one keypoint per row of the array. *)
Definition from_coords_array (arr shape : value) : outcome value :=
  rows <- array_rows arr ;;
  kps <- mapM (fun row => match row with
                          | x :: y :: _ => Ret (Keypoint x y)
                          | _ => Raise IndexError
                          end) rows ;;
  Ret (KeypointsOnImage (VList kps) shape).

(** Modelled from the spec: [BoundingBoxesOnImage.from_xyxy_array(arr,
    shape)], one box per row of the array. *)
Definition from_xyxy_array (arr shape : value) : outcome value :=
  rows <- array_rows arr ;;
  bbs <- mapM (fun row => match row with
                          | x1 :: y1 :: x2 :: y2 :: _ => Ret (BoundingBox x1 y1 x2 y2)
                          | _ => Raise IndexError
                          end) rows ;;
  Ret (BoundingBoxesOnImage (VList bbs) shape).

(** A [float32] array of shape (len(rows), width) from rows of numbers. *)
Definition float32_rows (width : nat) (rows : list (list value)) : outcome value :=
  cells <- mapM (fun row =>
                   py_assert (Nat.eqb (length row) width) "" ;;;
                   mapM num_of row) rows ;;
  Ret (VArr (mk_array float32 [length rows; width]
               (map (cast float32) (concat cells)))).

(** Modelled from the spec: [kpsoi.get_coords_array()], the keypoints in
    order as a [float32] array of shape (N, 2). *)
Definition get_coords_array (o : value) : outcome value :=
  kps <- getattr o "keypoints" ;;
  l <- py_iter h kps ;;
  rows <- mapM (fun kp => x <- getattr kp "x" ;; y <- getattr kp "y" ;; Ret [x; y]) l ;;
  float32_rows 2 rows.

(** Modelled from the spec: [bbsoi.to_xyxy_array()], the boxes in order as
    a [float32] array of shape (N, 4). *)
Definition to_xyxy_array (o : value) : outcome value :=
  bbs <- getattr o "bounding_boxes" ;;
  l <- py_iter h bbs ;;
  rows <- mapM (fun bb => x1 <- getattr bb "x1" ;; y1 <- getattr bb "y1" ;;
                          x2 <- getattr bb "x2" ;; y2 <- getattr bb "y2" ;;
                          Ret [x1; y1; x2; y2]) l ;;
  float32_rows 4 rows.

(** [np.array(v, dtype=np.float32)] for a sequence of rows of numbers (an
    empty sequence gives an array of shape (0,)); other literals are
    outside the model and raise. *)
Definition np_array_float32 (v : value) : outcome value :=
  l <- py_iter h v ;;
  match l with
  | [] => Ret (VArr (mk_array float32 [0] []))
  | first :: _ =>
      rows <- mapM (fun row => py_iter h row) l ;;
      w <- py_len h first ;;
      float32_rows w rows
  end.

(** Modelled from the spec: [Polygon(exterior)]; the exterior ring is kept as a [float32] array of
    shape (points, 2); it is given as such an array, as a list of
    keypoints or as a list of coordinate pairs. *)
Definition Polygon (exterior : value) : outcome value :=
  if is_list h exterior then
    l <- py_iter h exterior ;;
    match l with
    | [] => Ret (VObj "Polygon" [VArr (mk_array float32 [0; 2] [])])
    | VObj cls _ :: _ =>
        rows <- mapM (fun p => x <- getattr p "x" ;; y <- getattr p "y" ;; Ret [x; y]) l ;;
        ext <- float32_rows 2 rows ;;
        Ret (VObj "Polygon" [ext])
    | _ =>
        rows <- mapM (fun p => x <- py_getitem h p 0 ;; y <- py_getitem h p 1 ;; Ret [x; y]) l ;;
        ext <- float32_rows 2 rows ;;
        Ret (VObj "Polygon" [ext])
    end
  else
    py_assert (is_np_array exterior) "" ;;;
    a <- get_array exterior ;;
    py_assert (Nat.eqb (ndim a) 2) "" ;;;
    s1 <- py_shape_at exterior 1 ;;
    py_assert (Nat.eqb s1 2) "" ;;;
    Ret (VObj "Polygon" [VArr (astype float32 a)]).

(** Modelled from the spec: [iadt.restore_dtypes_] of [imgaug.dtypes],
    which is not under src/: numeric values are cast to the target dtype
    by a direct cast, not a clamped one. *)
Definition restore_dtypes_ (a : ndarray) (input_dtype : dtype) : ndarray :=
  astype input_dtype a.

(** ** restore_dtype_and_merge *)

Fixpoint restore_dtype_and_merge (fuel : nat) (arr : value) (input_dtype : dtype)
  : outcome value :=
  match fuel with
  | O => OutOfFuel
  | S fuel' =>
      arr <- (if is_list h arr then
                l <- py_iter h arr ;;
                arr <- mapM (fun arr_i => restore_dtype_and_merge fuel' arr_i input_dtype) l ;;
                arrays <- mapM get_array arr ;;
                if one_shape (map shape arrays)
                then Ret (VArr (np_stack arrays))
                else Ret (VList arr)
              else Ret arr) ;;
      match arr with
      | VArr a => Ret (VArr (restore_dtypes_ a input_dtype))
      | _ => Ret arr
      end
  end.

(** ** Forward normalizers *)

(** [zip(inputs, shapes)] *)
Definition zip_shapes (inputs : value) (shapes : option (list value))
  : outcome (list (value * value)) :=
  l <- py_iter h inputs ;;
  match shapes with
  | Some s => Ret (combine l s)
  | None => Raise TypeError
  end.

(** [shapes[0]] *)
Definition first_shape (shapes : option (list value)) : outcome value :=
  match shapes with
  | Some (s :: _) => Ret s
  | Some [] => Raise IndexError
  | None => Raise TypeError
  end.

(** [all([attr_i.ndim == n for attr_i in inputs])] *)
Definition all_ndim (n : nat) (inputs : value) : outcome bool :=
  l <- py_iter h inputs ;;
  nds <- mapM py_ndim l ;;
  Ret (forallb (Nat.eqb n) nds).

(** [all([attr_i.shape[i] == n for attr_i in inputs])] *)
Definition all_shape_at (i n : nat) (inputs : value) : outcome bool :=
  l <- py_iter h inputs ;;
  ss <- mapM (fun attr_i => py_shape_at attr_i i) l ;;
  Ret (forallb (Nat.eqb n) ss).

Definition normalize_heatmaps (fuel : nat) (inputs shapes : value) : outcome value :=
  shapes <- _preprocess_shapes shapes ;;
  ntype <- estimate_heatmaps_norm_type h fuel inputs ;;
  let _assert_exactly_n_shapes_partial n :=
    _assert_exactly_n_shapes shapes n ntype "List[HeatmapsOnImage]" in
  if String.eqb ntype "None" then Ret VNone
  else if String.eqb ntype "array[float]" then
    n <- py_len h inputs ;;
    _assert_exactly_n_shapes_partial n ;;;
    nd <- py_ndim inputs ;;
    py_assert (Nat.eqb nd 4) "" ;;;
    ps <- zip_shapes inputs shapes ;;
    r <- mapM (fun p => HeatmapsOnImage (fst p) (snd p)) ps ;;
    Ret (VList r)
  else if String.eqb ntype "HeatmapsOnImage" then Ret (VList [inputs])
  else if String.eqb ntype "iterable[empty]" then Ret VNone
  else if String.eqb ntype "iterable-array[float]" then
    n <- py_len h inputs ;;
    _assert_exactly_n_shapes_partial n ;;;
    ok <- all_ndim 3 inputs ;;
    py_assert ok "" ;;;
    ps <- zip_shapes inputs shapes ;;
    r <- mapM (fun p => HeatmapsOnImage (fst p) (snd p)) ps ;;
    Ret (VList r)
  else
    py_assert (String.eqb ntype "iterable-HeatmapsOnImage") "" ;;;
    Ret inputs.

(** [nb_classes=1+np.max(attr_i)] *)
Definition nb_classes_of (attr_i : value) : outcome value :=
  a <- get_array attr_i ;;
  m <- np_max a ;;
  Ret (VNum (NpScalar (dtype_of a)) (1 + m)%Z).

Definition segmaps_of (ntype bool_ntype : string) (ps : list (value * value))
  : outcome value :=
  if String.eqb ntype bool_ntype then
    r <- mapM (fun p => SegmentationMapOnImage (fst p) (snd p) VNone) ps ;;
    Ret (VList r)
  else
    r <- mapM (fun p => nb <- nb_classes_of (fst p) ;;
                        SegmentationMapOnImage (fst p) (snd p) nb) ps ;;
    Ret (VList r).

Definition normalize_segmentation_maps (fuel : nat) (inputs shapes : value)
  : outcome value :=
  shapes <- _preprocess_shapes shapes ;;
  ntype <- estimate_segmaps_norm_type h fuel inputs ;;
  let _assert_exactly_n_shapes_partial n :=
    _assert_exactly_n_shapes shapes n ntype "List[SegmentationMapOnImage]" in
  if String.eqb ntype "None" then Ret VNone
  else if str_in ntype ["array[int]"; "array[uint]"; "array[bool]"] then
    n <- py_len h inputs ;;
    _assert_exactly_n_shapes_partial n ;;;
    nd <- py_ndim inputs ;;
    py_assert (Nat.eqb nd 3) "" ;;;
    ps <- zip_shapes inputs shapes ;;
    segmaps_of ntype "array[bool]" ps
  else if String.eqb ntype "SegmentationMapOnImage" then Ret (VList [inputs])
  else if String.eqb ntype "iterable[empty]" then Ret VNone
  else if str_in ntype ["iterable-array[int]"; "iterable-array[uint]";
                        "iterable-array[bool]"] then
    n <- py_len h inputs ;;
    _assert_exactly_n_shapes_partial n ;;;
    ok <- all_ndim 2 inputs ;;
    py_assert ok "" ;;;
    ps <- zip_shapes inputs shapes ;;
    segmaps_of ntype "iterable-array[bool]" ps
  else
    py_assert (String.eqb ntype "iterable-SegmentationMapOnImage") "" ;;;
    Ret inputs.


Definition normalize_keypoints (fuel : nat) (inputs shapes : value) : outcome value :=
  shapes <- _preprocess_shapes shapes ;;
  ntype <- estimate_keypoints_norm_type h fuel inputs ;;
  let _assert_exactly_n_shapes_partial n :=
    _assert_exactly_n_shapes shapes n ntype "List[KeypointsOnImage]" in
  if String.eqb ntype "None" then Ret inputs
  else if str_in ntype ["array[float]"; "array[int]"; "array[uint]"] then
    n <- py_len h inputs ;;
    _assert_exactly_n_shapes_partial n ;;;
    nd <- py_ndim inputs ;;
    py_assert (Nat.eqb nd 3) "" ;;;
    s2 <- py_shape_at inputs 2 ;;
    py_assert (Nat.eqb s2 2) "" ;;;
    ps <- zip_shapes inputs shapes ;;
    r <- mapM (fun p => from_coords_array (fst p) (snd p)) ps ;;
    Ret (VList r)
  else if String.eqb ntype "tuple[number,size=2]" then
    _assert_exactly_n_shapes_partial 1 ;;;
    x <- py_getitem h inputs 0 ;;
    y <- py_getitem h inputs 1 ;;
    shape <- first_shape shapes ;;
    Ret (VList [KeypointsOnImage (VList [Keypoint x y]) shape])
  else if String.eqb ntype "Keypoint" then
    _assert_exactly_n_shapes_partial 1 ;;;
    shape <- first_shape shapes ;;
    Ret (VList [KeypointsOnImage (VList [inputs]) shape])
  else if String.eqb ntype "KeypointsOnImage" then Ret (VList [inputs])
  else if String.eqb ntype "iterable[empty]" then Ret VNone
  else if str_in ntype ["iterable-array[float]"; "iterable-array[int]";
                        "iterable-array[uint]"] then
    n <- py_len h inputs ;;
    _assert_exactly_n_shapes_partial n ;;;
    ok <- all_ndim 2 inputs ;;
    py_assert ok "" ;;;
    ok <- all_shape_at 1 2 inputs ;;
    py_assert ok "" ;;;
    ps <- zip_shapes inputs shapes ;;
    r <- mapM (fun p => from_coords_array (fst p) (snd p)) ps ;;
    Ret (VList r)
  else if String.eqb ntype "iterable-tuple[number,size=2]" then
    _assert_exactly_n_shapes_partial 1 ;;;
    l <- py_iter h inputs ;;
    kps <- mapM (fun p => xy <- py_unpack h 2 p ;;
                          Ret (Keypoint (nth 0 xy VNone) (nth 1 xy VNone))) l ;;
    shape <- first_shape shapes ;;
    Ret (VList [KeypointsOnImage (VList kps) shape])
  else if String.eqb ntype "iterable-Keypoint" then
    _assert_exactly_n_shapes_partial 1 ;;;
    shape <- first_shape shapes ;;
    Ret (VList [KeypointsOnImage inputs shape])
  else if String.eqb ntype "iterable-KeypointsOnImage" then Ret inputs
  else if String.eqb ntype "iterable-iterable[empty]" then Ret VNone
  else if String.eqb ntype "iterable-iterable-tuple[number,size=2]" then
    n <- py_len h inputs ;;
    _assert_exactly_n_shapes_partial n ;;;
    ps <- zip_shapes inputs shapes ;;
    r <- mapM (fun p => arr <- np_array_float32 (fst p) ;;
                        from_coords_array arr (snd p)) ps ;;
    Ret (VList r)
  else
    py_assert (String.eqb ntype "iterable-iterable-Keypoint") "" ;;;
    n <- py_len h inputs ;;
    _assert_exactly_n_shapes_partial n ;;;
    ps <- zip_shapes inputs shapes ;;
    Ret (VList (map (fun p => KeypointsOnImage (fst p) (snd p)) ps)).

(** [assert shapes is not None] *)
Definition assert_shapes_given (shapes : option (list value)) : outcome (list value) :=
  match shapes with
  | Some l => Ret l
  | None => Raise (AssertionError "")
  end.

(** [assert shapes is not None; assert len(shapes) == 1] *)
Definition assert_one_shape (shapes : option (list value)) : outcome value :=
  l <- assert_shapes_given shapes ;;
  py_assert (Nat.eqb (length l) 1) "" ;;;
  first_shape shapes.

Definition normalize_bounding_boxes (fuel : nat) (inputs shapes : value)
  : outcome value :=
  shapes <- _preprocess_shapes shapes ;;
  ntype <- estimate_bounding_boxes_norm_type h fuel inputs ;;
  if String.eqb ntype "None" then Ret VNone
  else if str_in ntype ["array[float]"; "array[int]"; "array[uint]"] then
    sl <- assert_shapes_given shapes ;;
    nd <- py_ndim inputs ;;
    py_assert (Nat.eqb nd 3) "" ;;;
    s2 <- py_shape_at inputs 2 ;;
    py_assert (Nat.eqb s2 4) "" ;;;
    n <- py_len h inputs ;;
    py_assert (Nat.eqb n (length sl)) "" ;;;
    ps <- zip_shapes inputs shapes ;;
    r <- mapM (fun p => from_xyxy_array (fst p) (snd p)) ps ;;
    Ret (VList r)
  else if String.eqb ntype "tuple[number,size=4]" then
    shape <- assert_one_shape shapes ;;
    x1 <- py_getitem h inputs 0 ;;
    y1 <- py_getitem h inputs 1 ;;
    x2 <- py_getitem h inputs 2 ;;
    y2 <- py_getitem h inputs 3 ;;
    Ret (VList [BoundingBoxesOnImage (VList [BoundingBox x1 y1 x2 y2]) shape])
  else if String.eqb ntype "BoundingBox" then
    shape <- assert_one_shape shapes ;;
    Ret (VList [BoundingBoxesOnImage (VList [inputs]) shape])
  else if String.eqb ntype "BoundingBoxesOnImage" then Ret (VList [inputs])
  else if String.eqb ntype "iterable[empty]" then Ret VNone
  else if str_in ntype ["iterable-array[float]"; "iterable-array[int]";
                        "iterable-array[uint]"] then
    sl <- assert_shapes_given shapes ;;
    ok <- all_ndim 2 inputs ;;
    py_assert ok "" ;;;
    ok <- all_shape_at 1 4 inputs ;;
    py_assert ok "" ;;;
    n <- py_len h inputs ;;
    py_assert (Nat.eqb n (length sl)) "" ;;;
    ps <- zip_shapes inputs shapes ;;
    r <- mapM (fun p => from_xyxy_array (fst p) (snd p)) ps ;;
    Ret (VList r)
  else if String.eqb ntype "iterable-tuple[number,size=4]" then
    shape <- assert_one_shape shapes ;;
    l <- py_iter h inputs ;;
    bbs <- mapM (fun p => c <- py_unpack h 4 p ;;
                          Ret (BoundingBox (nth 0 c VNone) (nth 1 c VNone)
                                           (nth 2 c VNone) (nth 3 c VNone))) l ;;
    Ret (VList [BoundingBoxesOnImage (VList bbs) shape])
  else if String.eqb ntype "iterable-BoundingBox" then
    shape <- assert_one_shape shapes ;;
    Ret (VList [BoundingBoxesOnImage inputs shape])
  else if String.eqb ntype "iterable-BoundingBoxesOnImage" then Ret inputs
  else if String.eqb ntype "iterable-iterable[empty]" then Ret VNone
  else if String.eqb ntype "iterable-iterable-tuple[number,size=4]" then
    sl <- assert_shapes_given shapes ;;
    n <- py_len h inputs ;;
    py_assert (Nat.eqb n (length sl)) "" ;;;
    ps <- zip_shapes inputs shapes ;;
    r <- mapM (fun p => arr <- np_array_float32 (fst p) ;;
                        from_xyxy_array arr (snd p)) ps ;;
    Ret (VList r)
  else
    py_assert (String.eqb ntype "iterable-iterable-BoundingBox") "" ;;;
    sl <- assert_shapes_given shapes ;;
    n <- py_len h inputs ;;
    py_assert (Nat.eqb n (length sl)) "" ;;;
    ps <- zip_shapes inputs shapes ;;
    Ret (VList (map (fun p => BoundingBoxesOnImage (fst p) (snd p)) ps)).


(** [v.shape[-1]] *)
Definition py_shape_last (v : value) : outcome nat :=
  a <- get_array v ;;
  match rev (shape a) with n :: _ => Ret n | [] => Raise IndexError end.

(** [PolygonsOnImage([Polygon(poly_points) for poly_points in attr_i],
    shape=shape)] *)
Definition polygons_on_image (attr_i shape : value) : outcome value :=
  l <- py_iter h attr_i ;;
  polys <- mapM Polygon l ;;
  Ret (PolygonsOnImage (VList polys) shape).

Definition normalize_polygons (fuel : nat) (inputs shapes : value) : outcome value :=
  shapes <- _preprocess_shapes shapes ;;
  ntype <- estimate_polygons_norm_type h fuel inputs ;;
  if String.eqb ntype "None" then Ret VNone
  else if str_in ntype ["array[float]"; "array[int]"; "array[uint]"] then
    sl <- assert_shapes_given shapes ;;
    nd <- py_ndim inputs ;;
    py_assert (Nat.eqb nd 4) "" ;;;
    s <- py_shape_last inputs ;;
    py_assert (Nat.eqb s 2) "" ;;;
    n <- py_len h inputs ;;
    py_assert (Nat.eqb n (length sl)) "" ;;;
    ps <- zip_shapes inputs shapes ;;
    r <- mapM (fun p => polygons_on_image (fst p) (snd p)) ps ;;
    Ret (VList r)
  else if String.eqb ntype "Polygon" then
    shape <- assert_one_shape shapes ;;
    Ret (VList [PolygonsOnImage (VList [inputs]) shape])
  else if String.eqb ntype "PolygonsOnImage" then Ret (VList [inputs])
  else if String.eqb ntype "iterable[empty]" then Ret VNone
  else if str_in ntype ["iterable-array[float]"; "iterable-array[int]";
                        "iterable-array[uint]"] then
    sl <- assert_shapes_given shapes ;;
    ok <- all_ndim 3 inputs ;;
    py_assert ok "" ;;;
    l <- py_iter h inputs ;;
    ss <- mapM py_shape_last l ;;
    py_assert (forallb (Nat.eqb 2) ss) "" ;;;
    n <- py_len h inputs ;;
    py_assert (Nat.eqb n (length sl)) "" ;;;
    ps <- zip_shapes inputs shapes ;;
    r <- mapM (fun p => polygons_on_image (fst p) (snd p)) ps ;;
    Ret (VList r)
  else if String.eqb ntype "iterable-tuple[number,size=2]" then
    shape <- assert_one_shape shapes ;;
    poly <- Polygon inputs ;;
    Ret (VList [PolygonsOnImage (VList [poly]) shape])
  else if String.eqb ntype "iterable-Keypoint" then
    shape <- assert_one_shape shapes ;;
    poly <- Polygon inputs ;;
    Ret (VList [PolygonsOnImage (VList [poly]) shape])
  else if String.eqb ntype "iterable-Polygon" then
    shape <- assert_one_shape shapes ;;
    Ret (VList [PolygonsOnImage inputs shape])
  else if String.eqb ntype "iterable-PolygonsOnImage" then Ret inputs
  else if String.eqb ntype "iterable-iterable[empty]" then Ret VNone
  else if str_in ntype ["iterable-iterable-array[float]";
                        "iterable-iterable-array[int]";
                        "iterable-iterable-array[uint]"] then
    sl <- assert_shapes_given shapes ;;
    n <- py_len h inputs ;;
    py_assert (Nat.eqb n (length sl)) "" ;;;
    l <- py_iter h inputs ;;
    oks <- mapM (fun attr_i =>
                   pts <- py_iter h attr_i ;;
                   mapM (fun poly_points =>
                           nd <- py_ndim poly_points ;;
                           if Nat.eqb nd 2
                           then s <- py_shape_last poly_points ;; Ret (Nat.eqb s 2)
                           else Ret false) pts) l ;;
    py_assert (forallb (fun b : bool => b) (concat oks)) "" ;;;
    ps <- zip_shapes inputs shapes ;;
    r <- mapM (fun p => polygons_on_image (fst p) (snd p)) ps ;;
    Ret (VList r)
  else if String.eqb ntype "iterable-iterable-tuple[number,size=2]" then
    shape <- assert_one_shape shapes ;;
    l <- py_iter h inputs ;;
    polys <- mapM Polygon l ;;
    Ret (VList [PolygonsOnImage (VList polys) shape])
  else if String.eqb ntype "iterable-iterable-Keypoint" then
    shape <- assert_one_shape shapes ;;
    l <- py_iter h inputs ;;
    polys <- mapM Polygon l ;;
    Ret (VList [PolygonsOnImage (VList polys) shape])
  else if String.eqb ntype "iterable-iterable-Polygon" then
    sl <- assert_shapes_given shapes ;;
    n <- py_len h inputs ;;
    py_assert (Nat.eqb n (length sl)) "" ;;;
    ps <- zip_shapes inputs shapes ;;
    Ret (VList (map (fun p => PolygonsOnImage (fst p) (snd p)) ps))
  else if String.eqb ntype "iterable-iterable-iterable[empty]" then Ret VNone
  else
    py_assert (str_in ntype ["iterable-iterable-iterable-tuple[number,size=2]";
                             "iterable-iterable-iterable-Keypoint"]) "" ;;;
    sl <- assert_shapes_given shapes ;;
    n <- py_len h inputs ;;
    py_assert (Nat.eqb n (length sl)) "" ;;;
    ps <- zip_shapes inputs shapes ;;
    r <- mapM (fun p => polygons_on_image (fst p) (snd p)) ps ;;
    Ret (VList r).


(** ** Inverse normalizers *)

(** [nonempty, _, _ = find_first_nonempty(old); nonempty.dtype] *)
Definition first_dtype (fuel : nat) (old : value) : outcome dtype :=
  r <- find_first_nonempty h fuel old [] ;;
  a <- get_array (fst (fst r)) ;;
  Ret (dtype_of a).

(** [old.dtype] *)
Definition py_dtype (old : value) : outcome dtype :=
  a <- get_array old ;; Ret (dtype_of a).

(** [assert len(l) == 1] *)
Definition assert_len_1 (l : value) : outcome unit :=
  n <- py_len h l ;; py_assert (Nat.eqb n 1) "".

Definition invert_normalize_heatmaps (fuel : nat) (heatmaps heatmaps_old : value)
  : outcome value :=
  ntype <- estimate_heatmaps_norm_type h fuel heatmaps_old ;;
  if String.eqb ntype "None" then
    py_assert (is_none heatmaps) "" ;;; Ret heatmaps
  else if String.eqb ntype "array[float]" then
    n <- py_len h heatmaps ;;
    s0 <- py_shape_at heatmaps_old 0 ;;
    py_assert (Nat.eqb n s0) "" ;;;
    input_dtype <- py_dtype heatmaps_old ;;
    l <- py_iter h heatmaps ;;
    arrs <- mapM (fun hm_i => getattr hm_i "arr_0to1") l ;;
    restore_dtype_and_merge fuel (VList arrs) input_dtype
  else if String.eqb ntype "HeatmapsOnImage" then
    assert_len_1 heatmaps ;;;
    py_getitem h heatmaps 0
  else if String.eqb ntype "iterable[empty]" then
    py_assert (is_none heatmaps) "" ;;; Ret (VList [])
  else if String.eqb ntype "iterable-array[float]" then
    input_dtype <- first_dtype fuel heatmaps_old ;;
    l <- py_iter h heatmaps ;;
    r <- mapM (fun hm_i => a <- getattr hm_i "arr_0to1" ;;
                           restore_dtype_and_merge fuel a input_dtype) l ;;
    Ret (VList r)
  else
    py_assert (String.eqb ntype "iterable-HeatmapsOnImage") "" ;;;
    Ret heatmaps.

Definition invert_normalize_segmentation_maps (fuel : nat)
           (segmentation_maps segmentation_maps_old : value) : outcome value :=
  ntype <- estimate_segmaps_norm_type h fuel segmentation_maps_old ;;
  if String.eqb ntype "None" then
    py_assert (is_none segmentation_maps) "" ;;; Ret segmentation_maps
  else if str_in ntype ["array[int]"; "array[uint]"; "array[bool]"] then
    n <- py_len h segmentation_maps ;;
    s0 <- py_shape_at segmentation_maps_old 0 ;;
    py_assert (Nat.eqb n s0) "" ;;;
    input_dtype <- py_dtype segmentation_maps_old ;;
    l <- py_iter h segmentation_maps ;;
    arrs <- mapM get_arr_int l ;;
    restore_dtype_and_merge fuel (VList arrs) input_dtype
  else if String.eqb ntype "SegmentationMapOnImage" then
    assert_len_1 segmentation_maps ;;;
    py_getitem h segmentation_maps 0
  else if String.eqb ntype "iterable[empty]" then
    py_assert (is_none segmentation_maps) "" ;;; Ret (VList [])
  else if str_in ntype ["iterable-array[int]"; "iterable-array[uint]";
                        "iterable-array[bool]"] then
    input_dtype <- first_dtype fuel segmentation_maps_old ;;
    l <- py_iter h segmentation_maps ;;
    r <- mapM (fun segmap_i => a <- get_arr_int segmap_i ;;
                               restore_dtype_and_merge fuel a input_dtype) l ;;
    Ret (VList r)
  else
    py_assert (String.eqb ntype "iterable-SegmentationMapOnImage") "" ;;;
    Ret segmentation_maps.

(** [[(kp.x, kp.y) for kp in kpsoi.keypoints]] *)
Definition keypoint_tuples (kpsoi : value) : outcome value :=
  kps <- getattr kpsoi "keypoints" ;;
  l <- py_iter h kps ;;
  r <- mapM (fun kp => x <- getattr kp "x" ;; y <- getattr kp "y" ;;
                       Ret (VTuple [x; y])) l ;;
  Ret (VList r).

(** [assert len(keypoints[0].keypoints) == 1] and the like *)
Definition assert_one_element (l : value) (field : string) : outcome value :=
  first <- py_getitem h l 0 ;;
  elems <- getattr first field ;;
  assert_len_1 elems ;;;
  py_getitem h elems 0.

Definition invert_normalize_keypoints (fuel : nat) (keypoints keypoints_old : value)
  : outcome value :=
  ntype <- estimate_keypoints_norm_type h fuel keypoints_old ;;
  if String.eqb ntype "None" then
    py_assert (is_none keypoints) "" ;;; Ret keypoints
  else if str_in ntype ["array[float]"; "array[int]"; "array[uint]"] then
    assert_len_1 keypoints ;;;
    input_dtype <- py_dtype keypoints_old ;;
    l <- py_iter h keypoints ;;
    arrs <- mapM get_coords_array l ;;
    restore_dtype_and_merge fuel (VList arrs) input_dtype
  else if String.eqb ntype "tuple[number,size=2]" then
    assert_len_1 keypoints ;;;
    kp <- assert_one_element keypoints "keypoints" ;;
    x <- getattr kp "x" ;;
    y <- getattr kp "y" ;;
    Ret (VTuple [x; y])
  else if String.eqb ntype "Keypoint" then
    assert_len_1 keypoints ;;;
    assert_one_element keypoints "keypoints"
  else if String.eqb ntype "KeypointsOnImage" then
    assert_len_1 keypoints ;;;
    py_getitem h keypoints 0
  else if String.eqb ntype "iterable[empty]" then
    py_assert (is_none keypoints) "" ;;; Ret (VList [])
  else if str_in ntype ["iterable-array[float]"; "iterable-array[int]";
                        "iterable-array[uint]"] then
    input_dtype <- first_dtype fuel keypoints_old ;;
    l <- py_iter h keypoints ;;
    r <- mapM (fun kps_i => a <- get_coords_array kps_i ;;
                            restore_dtype_and_merge fuel a input_dtype) l ;;
    Ret (VList r)
  else if String.eqb ntype "iterable-tuple[number,size=2]" then
    assert_len_1 keypoints ;;;
    first <- py_getitem h keypoints 0 ;;
    keypoint_tuples first
  else if String.eqb ntype "iterable-Keypoint" then
    assert_len_1 keypoints ;;;
    first <- py_getitem h keypoints 0 ;;
    getattr first "keypoints"
  else if String.eqb ntype "iterable-KeypointsOnImage" then Ret keypoints
  else if String.eqb ntype "iterable-iterable[empty]" then
    py_assert (is_none keypoints) "" ;;; py_copy h keypoints_old
  else if String.eqb ntype "iterable-iterable-tuple[number,size=2]" then
    l <- py_iter h keypoints ;;
    r <- mapM keypoint_tuples l ;;
    Ret (VList r)
  else
    py_assert (String.eqb ntype "iterable-iterable-Keypoint") "" ;;;
    l <- py_iter h keypoints ;;
    r <- mapM (fun kpsoi => kps <- getattr kpsoi "keypoints" ;;
                            l <- py_iter h kps ;; Ret (VList l)) l ;;
    Ret (VList r).


(** [[(bb.x1, bb.y1, bb.x2, bb.y2) for bb in bbsoi.bounding_boxes]] *)
Definition bounding_box_tuples (bbsoi : value) : outcome value :=
  bbs <- getattr bbsoi "bounding_boxes" ;;
  l <- py_iter h bbs ;;
  r <- mapM (fun bb => x1 <- getattr bb "x1" ;; y1 <- getattr bb "y1" ;;
                       x2 <- getattr bb "x2" ;; y2 <- getattr bb "y2" ;;
                       Ret (VTuple [x1; y1; x2; y2])) l ;;
  Ret (VList r).

Definition invert_normalize_bounding_boxes (fuel : nat)
           (bounding_boxes bounding_boxes_old : value) : outcome value :=
  ntype <- estimate_normalization_type h fuel bounding_boxes_old ;;
  if String.eqb ntype "None" then
    py_assert (is_none bounding_boxes) "" ;;; Ret bounding_boxes
  else if str_in ntype ["array[float]"; "array[int]"; "array[uint]"] then
    assert_len_1 bounding_boxes ;;;
    input_dtype <- py_dtype bounding_boxes_old ;;
    l <- py_iter h bounding_boxes ;;
    arrs <- mapM to_xyxy_array l ;;
    restore_dtype_and_merge fuel (VList arrs) input_dtype
  else if String.eqb ntype "tuple[number,size=4]" then
    assert_len_1 bounding_boxes ;;;
    bb <- assert_one_element bounding_boxes "bounding_boxes" ;;
    x1 <- getattr bb "x1" ;;
    y1 <- getattr bb "y1" ;;
    x2 <- getattr bb "x2" ;;
    y2 <- getattr bb "y2" ;;
    Ret (VTuple [x1; y1; x2; y2])
  else if String.eqb ntype "BoundingBox" then
    assert_len_1 bounding_boxes ;;;
    assert_one_element bounding_boxes "bounding_boxes"
  else if String.eqb ntype "BoundingBoxesOnImage" then
    assert_len_1 bounding_boxes ;;;
    py_getitem h bounding_boxes 0
  else if String.eqb ntype "iterable[empty]" then
    py_assert (is_none bounding_boxes) "" ;;; Ret (VList [])
  else if str_in ntype ["iterable-array[float]"; "iterable-array[int]";
                        "iterable-array[uint]"] then
    input_dtype <- first_dtype fuel bounding_boxes_old ;;
    l <- py_iter h bounding_boxes ;;
    r <- mapM (fun bbsoi => a <- to_xyxy_array bbsoi ;;
                            restore_dtype_and_merge fuel a input_dtype) l ;;
    Ret (VList r)
  else if String.eqb ntype "iterable-tuple[number,size=4]" then
    assert_len_1 bounding_boxes ;;;
    first <- py_getitem h bounding_boxes 0 ;;
    bounding_box_tuples first
  else if String.eqb ntype "iterable-BoundingBox" then
    assert_len_1 bounding_boxes ;;;
    first <- py_getitem h bounding_boxes 0 ;;
    getattr first "bounding_boxes"
  else if String.eqb ntype "iterable-BoundingBoxesOnImage" then Ret bounding_boxes
  else if String.eqb ntype "iterable-iterable[empty]" then
    py_assert (is_none bounding_boxes) "" ;;; py_copy h bounding_boxes_old
  else if String.eqb ntype "iterable-iterable-tuple[number,size=4]" then
    l <- py_iter h bounding_boxes ;;
    r <- mapM bounding_box_tuples l ;;
    Ret (VList r)
  else
    py_assert (String.eqb ntype "iterable-iterable-BoundingBox") "" ;;;
    l <- py_iter h bounding_boxes ;;
    r <- mapM (fun bbsoi => bbs <- getattr bbsoi "bounding_boxes" ;;
                            l <- py_iter h bbs ;; Ret (VList l)) l ;;
    Ret (VList r).

(** [[poly.exterior for poly in psoi.polygons]] *)
Definition exteriors (psoi : value) : outcome value :=
  polys <- getattr psoi "polygons" ;;
  l <- py_iter h polys ;;
  r <- mapM (fun poly => getattr poly "exterior") l ;;
  Ret (VList r).

(** [[(point[0], point[1]) for point in polygon.exterior]] *)
Definition exterior_tuples (polygon : value) : outcome value :=
  ext <- getattr polygon "exterior" ;;
  l <- py_iter h ext ;;
  r <- mapM (fun point => x <- py_getitem h point 0 ;; y <- py_getitem h point 1 ;;
                          Ret (VTuple [x; y])) l ;;
  Ret (VList r).

(** [[Keypoint(x=point[0], y=point[1]) for point in polygon.exterior]] *)
Definition exterior_keypoints (polygon : value) : outcome value :=
  ext <- getattr polygon "exterior" ;;
  l <- py_iter h ext ;;
  r <- mapM (fun point => x <- py_getitem h point 0 ;; y <- py_getitem h point 1 ;;
                          Ret (Keypoint x y)) l ;;
  Ret (VList r).

(** [[f(polygon) for polygon in psoi.polygons]] *)
Definition map_polygons (f : value -> outcome value) (psoi : value) : outcome value :=
  polys <- getattr psoi "polygons" ;;
  l <- py_iter h polys ;;
  r <- mapM f l ;;
  Ret (VList r).

Definition invert_normalize_polygons (fuel : nat) (polygons polygons_old : value)
  : outcome value :=
  ntype <- estimate_polygons_norm_type h fuel polygons_old ;;
  if String.eqb ntype "None" then
    py_assert (is_none polygons) "" ;;; Ret polygons
  else if str_in ntype ["array[float]"; "array[int]"; "array[uint]"] then
    input_dtype <- py_dtype polygons_old ;;
    l <- py_iter h polygons ;;
    r <- mapM exteriors l ;;
    restore_dtype_and_merge fuel (VList r) input_dtype
  else if String.eqb ntype "Polygon" then
    assert_len_1 polygons ;;;
    assert_one_element polygons "polygons"
  else if String.eqb ntype "PolygonsOnImage" then
    assert_len_1 polygons ;;;
    py_getitem h polygons 0
  else if String.eqb ntype "iterable[empty]" then
    py_assert (is_none polygons) "" ;;; Ret (VList [])
  else if str_in ntype ["iterable-array[float]"; "iterable-array[int]";
                        "iterable-array[uint]"] then
    input_dtype <- first_dtype fuel polygons_old ;;
    l <- py_iter h polygons ;;
    r <- mapM (fun psoi => e <- exteriors psoi ;;
                           restore_dtype_and_merge fuel e input_dtype) l ;;
    Ret (VList r)
  else if String.eqb ntype "iterable-tuple[number,size=2]" then
    assert_len_1 polygons ;;;
    poly <- assert_one_element polygons "polygons" ;;
    exterior_tuples poly
  else if String.eqb ntype "iterable-Keypoint" then
    assert_len_1 polygons ;;;
    poly <- assert_one_element polygons "polygons" ;;
    exterior_keypoints poly
  else if String.eqb ntype "iterable-Polygon" then
    assert_len_1 polygons ;;;
    first <- py_getitem h polygons 0 ;;
    polys <- getattr first "polygons" ;;
    n <- py_len h polys ;;
    n_old <- py_len h polygons_old ;;
    py_assert (Nat.eqb n n_old) "" ;;;
    Ret polys
  else if String.eqb ntype "iterable-PolygonsOnImage" then Ret polygons
  else if String.eqb ntype "iterable-iterable[empty]" then
    py_assert (is_none polygons) "" ;;; py_copy h polygons_old
  else if str_in ntype ["iterable-iterable-array[float]";
                        "iterable-iterable-array[int]";
                        "iterable-iterable-array[uint]"] then
    input_dtype <- first_dtype fuel polygons_old ;;
    l <- py_iter h polygons ;;
    r <- mapM (map_polygons (fun poly => e <- getattr poly "exterior" ;;
                                         restore_dtype_and_merge fuel e input_dtype)) l ;;
    Ret (VList r)
  else if String.eqb ntype "iterable-iterable-tuple[number,size=2]" then
    assert_len_1 polygons ;;;
    first <- py_getitem h polygons 0 ;;
    map_polygons exterior_tuples first
  else if String.eqb ntype "iterable-iterable-Keypoint" then
    assert_len_1 polygons ;;;
    first <- py_getitem h polygons 0 ;;
    map_polygons exterior_keypoints first
  else if String.eqb ntype "iterable-iterable-Polygon" then
    l <- py_iter h polygons ;;
    r <- mapM (fun psoi => getattr psoi "polygons") l ;;
    Ret (VList r)
  else if String.eqb ntype "iterable-iterable-iterable[empty]" then
    py_copy h polygons_old
  else if String.eqb ntype "iterable-iterable-iterable-tuple[number,size=2]" then
    l <- py_iter h polygons ;;
    r <- mapM (map_polygons exterior_tuples) l ;;
    Ret (VList r)
  else
    py_assert (String.eqb ntype "iterable-iterable-iterable-Keypoint") "" ;;;
    l <- py_iter h polygons ;;
    r <- mapM (map_polygons exterior_keypoints) l ;;
    Ret (VList r).

End Normalization.

(** ** Inputs of finite nesting *)

(** [nesting_le h n v]: descending from [v] into elements, as
    [find_first_nonempty] does, ends within [n] nested calls.  A sequence
    whose first element is the sequence itself counts as a leaf. *)
Fixpoint nesting_le (h : store) (n : nat) (v : value) : bool :=
  match n with
  | O => false
  | S n' =>
      if is_none v || is_np_array v then true
      else if is_iterable h v && negb (is_string v) then
        match seq_items h v with
        | None => false
        | Some [] => true
        | Some (first :: rest) =>
            is_ first v || forallb (nesting_le h n') (first :: rest)
        end
      else true
  end.

(** The nesting depth of lists and tuples written inline. *)
Fixpoint depth (v : value) : nat :=
  match v with
  | VList l | VTuple l => S (fold_right (fun x acc => Nat.max (depth x) acc) 0 l)
  | _ => 0
  end.

(** No reference to the store among the nested elements of [v]. *)
Fixpoint no_ref (v : value) : bool :=
  match v with
  | VRef _ => false
  | VList l | VTuple l => forallb no_ref l
  | VObj _ l => forallb no_ref l
  | _ => true
  end.

(** ** Well-formed arrays and sample values *)

(** An array holds as many elements as its shape says. *)
Definition array_ok (a : ndarray) : Prop := length (data a) = size_of (shape a).

(** The shape [normalize_images] gives an array of shape [sh]. *)
Definition batch_shape (sh : list nat) : list nat :=
  match length sh with
  | 2 => 1 :: sh ++ [1]
  | 3 => sh ++ [1]
  | _ => sh
  end.

(** The shape [normalize_images] gives a member of shape [sh] of a list of
    images. *)
Definition image_shape_in_list (sh : list nat) : list nat :=
  match length sh with
  | 2 => sh ++ [1]
  | _ => sh
  end.

Definition image_shape : value :=
  VTuple [VNum PyInt 10%Z; VNum PyInt 10%Z; VNum PyInt 3%Z].

Definition keypoints_batch : value :=
  VArr (mk_array int32 [2; 1; 2] [1; 2; 3; 4]%Z).

Definition heatmaps_batch : value :=
  VArr (mk_array float32 [2; 1; 2; 1] [0; 1; 1; 0]%Z).

Definition bounding_boxes_batch : value :=
  VArr (mk_array int32 [2; 1; 4] [1; 2; 3; 4; 5; 6; 7; 8]%Z).

(** ** Results of the finder *)

(** The found flag and the length of the ancestor chain of a result. *)
Definition success_of (r : found) : bool := snd (fst r).
Definition chain_length (r : found) : nat := length (snd r).

(** [a = [[], a]]: a list whose second element is the list itself. *)
Definition store_self_second : store := [(false, [VList []; VRef 0])].

(** [a = [b]; b = [a]]: two lists that hold each other. *)
Definition store_mutual : store := [(false, [VRef 1]); (false, [VRef 0])].

(** [a = [a]]: a list whose first element is the list itself. *)
Definition store_self_first : store := [(false, [VRef 0])].

(** A sequence that is neither a string nor an array. *)
Definition is_sequence (h : store) (v : value) : bool :=
  negb (is_none v || is_np_array v) && (is_iterable h v && negb (is_string v)).


(** ** Round trips: equality of values and representative inputs *)





(** A plain number, a coordinate pair [(x, y)], a box [(x1, y1, x2, y2)]
    and a [Keypoint(x, y)] of plain numbers. *)
Definition num := (numkind * Z)%type.

Definition VN (n : num) : value := VNum (fst n) (snd n).

Definition tuple2 (p : num * num) : value := VTuple [VN (fst p); VN (snd p)].


Definition keypoint2 (p : num * num) : value := Keypoint (VN (fst p)) (VN (snd p)).




(** The shapes argument: a list of shape tuples. *)
Definition shape_list (ds : list (list value)) : value := VList (map VTuple ds).






(** The container [normalize_segmentation_maps] builds for one array. *)
Definition segmap_of (with_classes : bool) (b : ndarray) (s : value) : value :=
  VObj "SegmentationMapOnImage"
    [VArr (astype int32 b); s;
     if with_classes
     then match data b with
          | [] => VNone
          | z :: l => VNum (NpScalar (dtype_of b)) (1 + fold_left Z.max l z)%Z
          end
     else VNone].


Definition numeric_kind (a : ndarray) : Prop :=
  kind (dtype_of a) = "f" \/ kind (dtype_of a) = "i" \/ kind (dtype_of a) = "u".



(** The keypoint and the box made from one row of a coordinate array. *)
Definition keypoint_of_row (dt : dtype) (row : list Z) : value :=
  Keypoint (VNum (NpScalar dt) (nth 0 row 0%Z)) (VNum (NpScalar dt) (nth 1 row 0%Z)).

Definition box_of_row (dt : dtype) (row : list Z) : value :=
  BoundingBox (VNum (NpScalar dt) (nth 0 row 0%Z)) (VNum (NpScalar dt) (nth 1 row 0%Z))
              (VNum (NpScalar dt) (nth 2 row 0%Z)) (VNum (NpScalar dt) (nth 3 row 0%Z)).











(** ** The five domains *)

Inductive domain := Heatmaps | SegmentationMaps | Keypoints | BoundingBoxes | Polygons.

Definition normalize (d : domain) (h : store) (fuel : nat) (inputs shapes : value)
  : outcome value :=
  match d with
  | Heatmaps => normalize_heatmaps h fuel inputs shapes
  | SegmentationMaps => normalize_segmentation_maps h fuel inputs shapes
  | Keypoints => normalize_keypoints h fuel inputs shapes
  | BoundingBoxes => normalize_bounding_boxes h fuel inputs shapes
  | Polygons => normalize_polygons h fuel inputs shapes
  end.

Definition invert_normalize (d : domain) (h : store) (fuel : nat)
           (canonical inputs_old : value) : outcome value :=
  match d with
  | Heatmaps => invert_normalize_heatmaps h fuel canonical inputs_old
  | SegmentationMaps => invert_normalize_segmentation_maps h fuel canonical inputs_old
  | Keypoints => invert_normalize_keypoints h fuel canonical inputs_old
  | BoundingBoxes => invert_normalize_bounding_boxes h fuel canonical inputs_old
  | Polygons => invert_normalize_polygons h fuel canonical inputs_old
  end.




(** ** Nested lists *)

(** [[[...[v]...]]]: [v] inside [n] one-element lists. *)
Fixpoint nest (n : nat) (v : value) : value :=
  match n with
  | O => v
  | S n' => VList [nest n' v]
  end.

(** The class of the per-image container of each kind of augmentable. *)
Definition container_class (d : domain) : string :=
  match d with
  | Heatmaps => "HeatmapsOnImage"
  | SegmentationMaps => "SegmentationMapOnImage"
  | Keypoints => "KeypointsOnImage"
  | BoundingBoxes => "BoundingBoxesOnImage"
  | Polygons => "PolygonsOnImage"
  end.


(** * Properties *)

Lemma value_ind' (P : value -> Prop) :
  P VNone ->
  (forall b, P (VBool b)) ->
  (forall k z, P (VNum k z)) ->
  (forall s, P (VStr s)) ->
  (forall a, P (VArr a)) ->
  (forall l, Forall P l -> P (VList l)) ->
  (forall l, Forall P l -> P (VTuple l)) ->
  (forall a, P (VRef a)) ->
  (forall c l, Forall P l -> P (VObj c l)) ->
  forall v, P v.
Proof.
  intros HN HB HZ HS HA HL HT HR HO.
  fix IH 1. intros v. destruct v.
  - exact HN.
  - apply HB.
  - apply HZ.
  - apply HS.
  - apply HA.
  - apply HL. induction items; constructor; [apply IH | assumption].
  - apply HT. induction items; constructor; [apply IH | assumption].
  - apply HR.
  - apply HO. induction fields; constructor; [apply IH | assumption].
Qed.


(** ** The classifier on arrays and on empty nesting *)

Lemma find_first_nonempty_array h fuel a parents :
  find_first_nonempty h (S fuel) (VArr a) parents = Ret (VArr a, true, parents).
Proof. reflexivity. Qed.

Lemma array_tag_not_empty k : ("array[" ++ k ++ "]")%string <> "iterable[empty]".
Proof. discriminate. Qed.

(** C10: whatever its number of elements, an array is returned as the leaf
    with found = true and the ancestor chain it was given, so its tag is
    "array[<kind>]", with the kind taken from its dtype, never
    "iterable[empty]". *)
Theorem empty_array_is_classified_as_array :
  forall h fuel a parents,
    find_first_nonempty h (S fuel) (VArr a) parents = Ret (VArr a, true, parents)
    /\ estimate_normalization_type h (S fuel) (VArr a)
       = Ret ("array[" ++ kind_name (kind (dtype_of a)) ++ "]")%string
    /\ estimate_normalization_type h (S fuel) (VArr a) <> Ret "iterable[empty]".
Proof.
  intros h fuel a parents. split; [reflexivity|]. split; [reflexivity|].
  cbn. intros H. inversion H.
Qed.

Lemma estimate_empty_list h fuel :
  estimate_normalization_type h (S fuel) (VList []) = Ret "iterable[empty]".
Proof. reflexivity. Qed.

Lemma estimate_nested_empty h fuel :
  estimate_normalization_type h (S (S fuel)) (VList [VList []; VList []])
  = Ret "iterable-iterable[empty]".
Proof. reflexivity. Qed.

Lemma normalize_heatmaps_nested_empty h fuel :
  normalize_heatmaps h (S (S fuel)) (VList [VList []; VList []]) VNone
  = Raise (AssertionError
      ("Got an unknown datatype for argument 'heatmaps'. "
       ++ "Expected datatypes were: None, array[float], HeatmapsOnImage, "
       ++ "iterable[empty], iterable-array[float], iterable-HeatmapsOnImage. "
       ++ "Got: iterable-iterable[empty].")).
Proof. reflexivity. Qed.

(** C2, as stated, fails: with every amount of fuel
    [normalize_heatmaps([[], []], shapes=None)] does not return [None]. *)
Lemma normalize_heatmaps_nested_empty_not_none :
  ~ exists fuel, normalize_heatmaps [] fuel (VList [VList []; VList []]) VNone = Ret VNone.
Proof.
  intros [fuel H]. destruct fuel as [|[|fuel]]; discriminate H.
Qed.

(** C2, amended: [normalize_heatmaps([], shapes=None)] returns [None];
    [[], []] is classified as "iterable-iterable[empty]", a tag the
    heatmaps whitelist does not hold, so [normalize_heatmaps([[], []],
    shapes=None)] fails the whitelist assertion with the unknown-datatype
    message. *)
Theorem normalize_heatmaps_empty_inputs :
  forall h fuel,
    normalize_heatmaps h (S fuel) (VList []) VNone = Ret VNone
    /\ estimate_normalization_type h (S (S fuel)) (VList [VList []; VList []])
       = Ret "iterable-iterable[empty]"
    /\ str_in "iterable-iterable[empty]" heatmaps_valid_type_strs = false
    /\ normalize_heatmaps h (S (S fuel)) (VList [VList []; VList []]) VNone
       = Raise (AssertionError
           ("Got an unknown datatype for argument 'heatmaps'. "
            ++ "Expected datatypes were: None, array[float], HeatmapsOnImage, "
            ++ "iterable[empty], iterable-array[float], iterable-HeatmapsOnImage. "
            ++ "Got: iterable-iterable[empty].")).
Proof.
  intros h fuel. repeat split; reflexivity.
Qed.

(** ** Shape-count enforcement *)

Lemma numeric_kind_cases k :
  str_in k ["f"; "i"; "u"] = true -> k = "f" \/ k = "i" \/ k = "u".
Proof.
  unfold str_in. cbn [existsb]. intros H.
  destruct (String.eqb_spec k "f"); [auto|].
  destruct (String.eqb_spec k "i"); [auto|].
  destruct (String.eqb_spec k "u"); [auto|].
  discriminate H.
Qed.

(** C4: for a numeric array of shape (3, 5, 2), [normalize_keypoints] with
    a list of two shape descriptors raises the shape-count [ValueError],
    whose message reports the required count 3 and the actual count 2;
    with [shapes=None] it raises the [ValueError] that reports the count 3
    and that [shapes] was set to [None]. *)
Theorem normalize_keypoints_shape_count_mismatch :
  forall h fuel a d1 d2,
    shape a = [3; 5; 2] ->
    str_in (kind (dtype_of a)) ["f"; "i"; "u"] = true ->
    (exists msg,
        normalize_keypoints h (S fuel) (VArr a) (VList [VTuple d1; VTuple d2])
        = Raise (ValueError msg)
        /\ contains ("This required exactly 3 corresponding image shapes, "
                     ++ "but instead 2 were provided") msg = true
        /\ contains "to 'List[KeypointsOnImage]'" msg = true)
    /\ (exists msg,
        normalize_keypoints h (S fuel) (VArr a) VNone = Raise (ValueError msg)
        /\ contains ("This required 3 corresponding image shapes, "
                     ++ "but argument 'shapes' was set to None") msg = true).
Proof.
  intros h fuel [[k sz] sh d] d1 d2 Hsh Hk. cbn in Hsh, Hk. subst sh.
  destruct (numeric_kind_cases k Hk) as [-> | [-> | ->]];
    (split; eexists; (split; [reflexivity|]); try split; vm_compute; reflexivity).
Qed.

Lemma normalize_keypoints_shape_count_mismatch_witness :
  (exists msg,
      normalize_keypoints [] 1 (VArr (mk_array float32 [3; 5; 2] []))
        (VList [VTuple [VNum PyInt 8%Z; VNum PyInt 8%Z];
                VTuple [VNum PyInt 8%Z; VNum PyInt 8%Z]])
      = Raise (ValueError msg)
      /\ contains ("This required exactly 3 corresponding image shapes, "
                   ++ "but instead 2 were provided") msg = true
      /\ contains "to 'List[KeypointsOnImage]'" msg = true)
  /\ (exists msg,
      normalize_keypoints [] 1 (VArr (mk_array float32 [3; 5; 2] [])) VNone
      = Raise (ValueError msg)
      /\ contains ("This required 3 corresponding image shapes, "
                   ++ "but argument 'shapes' was set to None") msg = true).
Proof.
  apply (normalize_keypoints_shape_count_mismatch [] 0
           (mk_array float32 [3; 5; 2] [])); reflexivity.
Defined.

(** ** The length the inverse array branch asserts *)

(** C3 at a batch of two images: [normalize_keypoints] turns an array of
    shape (2, 1, 2) into two containers, and [invert_normalize_keypoints]
    then fails its [assert len(keypoints) == 1]; bounding boxes behave the
    same way, while the heatmaps inverse accepts the two containers its
    forward pass produced. *)
Theorem invert_array_branch_rejects_batch :
  (exists c,
      normalize_keypoints [] 5 keypoints_batch (VList [image_shape; image_shape])
      = Ret (VList c)
      /\ length c = 2
      /\ invert_normalize_keypoints [] 5 (VList c) keypoints_batch
         = Raise (AssertionError ""))
  /\ (exists c,
      normalize_bounding_boxes [] 5 bounding_boxes_batch
        (VList [image_shape; image_shape]) = Ret (VList c)
      /\ length c = 2
      /\ invert_normalize_bounding_boxes [] 5 (VList c) bounding_boxes_batch
         = Raise (AssertionError ""))
  /\ (exists c,
      normalize_heatmaps [] 5 heatmaps_batch (VList [image_shape; image_shape])
      = Ret (VList c)
      /\ length c = 2
      /\ invert_normalize_heatmaps [] 5 (VList c) heatmaps_batch
         = Ret heatmaps_batch).
Proof.
  repeat split; eexists; (split; [vm_compute; reflexivity|]);
    split; vm_compute; reflexivity.
Qed.

(** ** Images *)

Lemma chunks_firstn_idem {A} n sz (l : list A) :
  map (firstn sz) (chunks n sz l) = chunks n sz l.
Proof.
  revert l. induction n as [|n IH]; intros l; cbn; [reflexivity|].
  rewrite IH. f_equal. rewrite firstn_firstn. f_equal. lia.
Qed.

Lemma concat_chunks {A} n sz (l : list A) :
  length l = n * sz -> concat (chunks n sz l) = l.
Proof.
  revert l. induction n as [|n IH]; intros l Hl; cbn.
  - destruct l; [reflexivity | discriminate Hl].
  - rewrite IH.
    + apply firstn_skipn.
    + rewrite length_skipn. cbn in Hl. lia.
Qed.

Lemma size_of_app sh1 sh2 : size_of (sh1 ++ sh2) = size_of sh1 * size_of sh2.
Proof.
  unfold size_of. induction sh1 as [|n sh1 IH]; cbn [app fold_right].
  - rewrite Nat.mul_1_l. reflexivity.
  - rewrite IH. apply Nat.mul_assoc.
Qed.

(** Dropping a last axis of extent 1 keeps the elements. *)
Lemma select_last0_unit dt sh d :
  length d = size_of sh ->
  select_last0 (mk_array dt (sh ++ [1]) d) = Ret (mk_array dt sh d).
Proof.
  intros Hd. unfold select_last0, ndim. cbn [shape].
  rewrite length_app. cbn [length]. replace (length sh + 1) with (S (length sh)) by lia.
  unfold select_axis. cbn [shape dtype_of data].
  rewrite nth_error_app2 by lia. rewrite Nat.sub_diag. cbn [nth_error].
  cbn [Nat.ltb Nat.leb].
  rewrite firstn_app, firstn_all, Nat.sub_diag. cbn [firstn]. rewrite app_nil_r.
  replace (skipn (S (length sh)) (sh ++ [1])) with (@nil nat).
  2:{ symmetry. apply skipn_all2. rewrite length_app. cbn. lia. }
  rewrite app_nil_r. change (size_of []) with 1.
  rewrite Nat.mul_0_l, Nat.mul_1_l.
  change (fun blk : list Z => firstn 1 (skipn 0 blk)) with (@firstn Z 1).
  rewrite chunks_firstn_idem. rewrite concat_chunks; [reflexivity|].
  lia.
Qed.

(** Taking the only entry of a first axis of extent 1 keeps the elements. *)
Lemma select_first0_unit dt sh d :
  length d = size_of sh ->
  select_axis 0 0 (mk_array dt (1 :: sh) d) = Ret (mk_array dt sh d).
Proof.
  intros Hd. unfold select_axis. cbn [shape dtype_of data nth_error firstn skipn].
  cbn [Nat.ltb Nat.leb app]. change (size_of []) with 1.
  rewrite Nat.mul_0_l, Nat.mul_1_l. cbn [skipn chunks map concat].
  rewrite firstn_firstn, Nat.min_id, app_nil_r.
  rewrite firstn_all2 by lia. reflexivity.
Qed.

Lemma mapM_ret {A B} (f : A -> outcome B) (g : A -> B) (l : list A) :
  (forall x, In x l -> f x = Ret (g x)) -> mapM f l = Ret (map g l).
Proof.
  induction l as [|x l IH]; intros H; cbn; [reflexivity|].
  rewrite (H x) by (left; reflexivity). cbn.
  rewrite IH by (intros y Hy; apply H; right; exact Hy). reflexivity.
Qed.

Lemma mapM_map {A B C} (f : B -> outcome C) (g : A -> B) (l : list A) :
  mapM f (map g l) = mapM (fun x => f (g x)) l.
Proof.
  induction l as [|x l IH]; cbn; [reflexivity|]. rewrite IH. reflexivity.
Qed.

Lemma combine_map_same {A B C} (f : A -> B) (g : A -> C) (l : list A) :
  combine (map f l) (map g l) = map (fun x => (f x, g x)) l.
Proof.
  induction l as [|x l IH]; cbn; [reflexivity|]. rewrite IH. reflexivity.
Qed.

Lemma normalize_images_array h a :
  normalize_images h (VArr a)
  = Ret (VArr (mk_array (dtype_of a) (batch_shape (shape a)) (data a))).
Proof.
  destruct a as [dt sh d]. unfold normalize_images, batch_shape, ndim.
  cbn [is_none is_np_array get_array bind shape dtype_of data].
  destruct sh as [|x [|y [|z [|w sh]]]]; reflexivity.
Qed.

Lemma invert_normalize_images_array h a :
  array_ok a ->
  invert_normalize_images h
    (VArr (mk_array (dtype_of a) (batch_shape (shape a)) (data a))) (VArr a)
  = Ret (VArr a).
Proof.
  destruct a as [dt sh d]. unfold array_ok. cbn [shape data dtype_of]. intros Hd.
  unfold invert_normalize_images, batch_shape.
  cbn [is_none is_np_array py_ndim get_array bind ndim shape].
  destruct sh as [|x [|y [|z [|w sh]]]]; try reflexivity.
  - cbn [length Nat.eqb app py_shape_at get_array bind shape nth_error py_assert].
    rewrite select_first0_unit.
    2:{ rewrite Hd. unfold size_of. cbn. lia. }
    cbn [bind]. change [x; y; 1] with ([x; y] ++ [1]).
    rewrite select_last0_unit by exact Hd. reflexivity.
  - cbn [length Nat.eqb app py_shape_at get_array bind shape nth_error py_assert].
    change [x; y; z; 1] with ([x; y; z] ++ [1]).
    rewrite select_last0_unit by exact Hd. reflexivity.
Qed.

Lemma normalize_images_list h l :
  Forall (fun b => array_ok b /\ (ndim b = 2 \/ ndim b = 3)) l ->
  normalize_images h (VList (map VArr l))
  = Ret (VList (map (fun b => VArr (mk_array (dtype_of b)
                                      (image_shape_in_list (shape b)) (data b))) l)).
Proof.
  intros Hl. unfold normalize_images.
  cbn [is_none is_np_array is_iterable py_iter seq_items bind].
  rewrite mapM_map.
  erewrite mapM_ret; [reflexivity|].
  intros [dt sh d] Hin. rewrite Forall_forall in Hl.
  destruct (Hl _ Hin) as [_ Hnd]. unfold ndim in Hnd. cbn [shape] in Hnd.
  unfold image_shape_in_list. cbn [py_ndim get_array bind shape dtype_of data].
  unfold ndim. cbn [shape].
  destruct Hnd as [Hnd | Hnd]; rewrite Hnd; reflexivity.
Qed.

Lemma invert_normalize_images_list h l :
  Forall (fun b => array_ok b /\ (ndim b = 2 \/ ndim b = 3)) l ->
  invert_normalize_images h
    (VList (map (fun b => VArr (mk_array (dtype_of b)
                                  (image_shape_in_list (shape b)) (data b))) l))
    (VList (map VArr l))
  = Ret (VList (map VArr l)).
Proof.
  intros Hl. unfold invert_normalize_images.
  cbn [is_none is_np_array is_iterable py_iter seq_items bind].
  rewrite combine_map_same.
  rewrite mapM_map.
  erewrite mapM_ret with (g := VArr); [reflexivity|].
  intros [dt sh d] Hin. rewrite Forall_forall in Hl.
  destruct (Hl _ Hin) as [Hok Hnd]. unfold ndim in Hnd. unfold array_ok in Hok.
  cbn [shape data] in Hnd, Hok.
  unfold image_shape_in_list. cbn [py_ndim get_array bind shape dtype_of data].
  unfold ndim. cbn [shape].
  destruct Hnd as [Hnd | Hnd]; rewrite Hnd; cbn [Nat.eqb].
  - destruct sh as [|x [|y [|z sh]]]; try discriminate Hnd.
    cbn [py_shape_at get_array bind shape app nth_error Nat.eqb py_assert].
    change [x; y; 1] with ([x; y] ++ [1]).
    pose proof (select_last0_unit dt [x; y] d Hok) as E.
    unfold select_last0, ndim in E. cbn [shape length app] in E.
    cbn [app]. rewrite E. reflexivity.
  - cbn [py_assert bind]. rewrite Hnd. reflexivity.
Qed.

(** C5, as stated, fails: a 2-D array does not only get a trailing
    single-channel axis, it gets a leading batch axis too. *)
Lemma normalize_images_2d_adds_batch_axis :
  exists r,
    normalize_images [] (VArr (mk_array uint8 [2; 2] [1; 2; 3; 4]%Z)) = Ret (VArr r)
    /\ shape r = [1; 2; 2; 1]
    /\ shape r <> [2; 2] ++ [1].
Proof.
  eexists. split; [reflexivity|]. split; [reflexivity|]. discriminate.
Qed.

(** C5, amended: [normalize_images] adds a trailing single-channel axis to
    a 3-D array and to every 2-D member of a list of images; to a 2-D
    array it adds a leading batch axis of extent 1 as well as the trailing
    one; arrays of other ranks and 3-D members are returned as they are.
    Dtype and elements are kept, and [invert_normalize_images] removes
    exactly the axes that were added. *)
Theorem normalize_images_axes :
  forall h a l,
    array_ok a ->
    Forall (fun b => array_ok b /\ (ndim b = 2 \/ ndim b = 3)) l ->
    normalize_images h VNone = Ret VNone
    /\ invert_normalize_images h VNone VNone = Ret VNone
    /\ normalize_images h (VArr a)
       = Ret (VArr (mk_array (dtype_of a) (batch_shape (shape a)) (data a)))
    /\ invert_normalize_images h
         (VArr (mk_array (dtype_of a) (batch_shape (shape a)) (data a))) (VArr a)
       = Ret (VArr a)
    /\ normalize_images h (VList (map VArr l))
       = Ret (VList (map (fun b => VArr (mk_array (dtype_of b)
                                           (image_shape_in_list (shape b)) (data b))) l))
    /\ invert_normalize_images h
         (VList (map (fun b => VArr (mk_array (dtype_of b)
                                       (image_shape_in_list (shape b)) (data b))) l))
         (VList (map VArr l))
       = Ret (VList (map VArr l)).
Proof.
  intros h a l Ha Hl.
  split; [reflexivity|]. split; [reflexivity|].
  split; [apply normalize_images_array|].
  split; [apply invert_normalize_images_array; exact Ha|].
  split; [apply normalize_images_list; exact Hl|].
  apply invert_normalize_images_list; exact Hl.
Qed.

(** ** The finder: fuel, termination, choice among children *)

Lemma first_nonempty_loop_mono (rec rec' : value -> outcome found) l d r :
  (forall x rx, In x l -> rec x = rx -> rx <> OutOfFuel -> rec' x = rx) ->
  first_nonempty_loop rec l d = r -> r <> OutOfFuel ->
  first_nonempty_loop rec' l d = r.
Proof.
  revert d. induction l as [|x l IH]; intros d Hrec Hr Hne;
    cbn [first_nonempty_loop] in *; [exact Hr|].
  destruct (rec x) as [[[v s] ps]| e |] eqn:Ex.
  - rewrite (Hrec x _ (or_introl eq_refl) Ex) by discriminate.
    cbn [bind] in *.
    destruct s; [exact Hr|].
    destruct (length (snd d) <? length ps);
      apply IH; auto; intros; eapply Hrec; eauto; right; assumption.
  - rewrite (Hrec x _ (or_introl eq_refl) Ex) by discriminate. exact Hr.
  - cbn [bind] in Hr. subst r. exfalso. apply Hne. reflexivity.
Qed.

Lemma find_first_nonempty_S h fuel attr parents r :
  find_first_nonempty h fuel attr parents = r -> r <> OutOfFuel ->
  find_first_nonempty h (S fuel) attr parents = r.
Proof.
  revert attr parents r. induction fuel as [|fuel IH]; intros attr parents r Hr Hne.
  - cbn in Hr. congruence.
  - change (find_first_nonempty h (S (S fuel)) attr parents)
      with (if is_none attr || is_np_array attr then Ret (attr, true, parents)
            else if is_iterable h attr && negb (is_string attr) then
              match seq_items h attr with
              | None => Raise TypeError
              | Some [] => Ret (VNone, false, parents)
              | Some (first :: rest) =>
                  if is_ first attr then Ret (attr, true, parents)
                  else first_nonempty_loop
                         (fun attr_i => find_first_nonempty h (S fuel) attr_i (parents ++ [attr]))
                         (first :: rest) (VNone, false, parents)
              end
            else Ret (attr, true, parents)).
    cbn [find_first_nonempty] in Hr.
    destruct (is_none attr || is_np_array attr); [exact Hr|].
    destruct (is_iterable h attr && negb (is_string attr)); [|exact Hr].
    destruct (seq_items h attr) as [[|first rest]|]; try exact Hr.
    destruct (is_ first attr); [exact Hr|].
    eapply first_nonempty_loop_mono; [|exact Hr|exact Hne].
    intros x rx _ Hx Hnx. apply IH; assumption.
Qed.

Lemma find_first_nonempty_mono h fuel fuel' attr parents r :
  find_first_nonempty h fuel attr parents = r -> r <> OutOfFuel ->
  fuel <= fuel' ->
  find_first_nonempty h fuel' attr parents = r.
Proof.
  intros Hr Hne Hle. induction Hle; [exact Hr|].
  apply find_first_nonempty_S; assumption.
Qed.

Lemma first_nonempty_loop_returns (rec : value -> outcome found) l d :
  Forall (fun x => exists rx, rec x = Ret rx) l ->
  exists r, first_nonempty_loop rec l d = Ret r.
Proof.
  intros H. revert d. induction H as [|x l [[[v s] ps] Hx] Hl IH]; intros d;
    cbn [first_nonempty_loop].
  - eexists; reflexivity.
  - rewrite Hx. cbn [bind]. destruct s; [eexists; reflexivity|].
    destruct (length (snd d) <? length ps); apply IH.
Qed.

Lemma find_first_nonempty_returns h n attr parents :
  nesting_le h n attr = true ->
  exists r, find_first_nonempty h n attr parents = Ret r.
Proof.
  revert attr parents. induction n as [|n IH]; intros attr parents H;
    [discriminate H|].
  cbn [nesting_le] in H. cbn [find_first_nonempty].
  destruct (is_none attr || is_np_array attr); [eexists; reflexivity|].
  destruct (is_iterable h attr && negb (is_string attr)); [|eexists; reflexivity].
  destruct (seq_items h attr) as [[|first rest]|]; try discriminate H;
    [eexists; reflexivity|].
  destruct (is_ first attr); [eexists; reflexivity|].
  cbn [orb] in H. apply first_nonempty_loop_returns.
  rewrite forallb_forall in H. apply Forall_forall. intros x Hx.
  apply IH. apply H. exact Hx.
Qed.

(** The children's results, when all of them fail: the loop returns the
    first of the deepest among the start triple and the results. *)
Lemma first_nonempty_loop_deepest (rec : value -> outcome found) l rs d :
  Forall2 (fun x rx => rec x = Ret rx) l rs ->
  Forall (fun rx => success_of rx = false) rs ->
  exists b pre post,
    first_nonempty_loop rec l d = Ret b
    /\ d :: rs = pre ++ b :: post
    /\ Forall (fun r => chain_length r < chain_length b) pre
    /\ Forall (fun r => chain_length r <= chain_length b) post.
Proof.
  intros H. revert d. induction H as [|x [[v s] ps] l rs Hx Hl IH]; intros d Hf.
  - exists d, [], []. cbn. auto.
  - inversion Hf as [|? ? Hs Hf']; subst. unfold success_of in Hs. cbn in Hs. subst s.
    cbn [first_nonempty_loop]. rewrite Hx. cbn [bind].
    destruct (length (snd d) <? length ps) eqn:E.
    + apply Nat.ltb_lt in E.
      destruct (IH (v, false, ps) Hf') as (b & pre & post & Hb & Hsplit & Hpre & Hpost).
      exists b, (d :: pre), post. split; [exact Hb|].
      split; [cbn; rewrite Hsplit; reflexivity|]. split; [|exact Hpost].
      constructor; [|exact Hpre].
      destruct pre as [|p pre]; cbn in Hsplit; inversion Hsplit; subst.
      * unfold chain_length. cbn. exact E.
      * inversion Hpre; subst. unfold chain_length in *. cbn in *. lia.
    + apply Nat.ltb_ge in E.
      destruct (IH d Hf') as (b & pre & post & Hb & Hsplit & Hpre & Hpost).
      destruct pre as [|p pre]; cbn in Hsplit; inversion Hsplit; subst.
      * exists b, [], ((v, false, ps) :: post). split; [exact Hb|].
        split; [reflexivity|]. split; [constructor|].
        constructor; [unfold chain_length; cbn; exact E | exact Hpost].
      * exists b, (p :: (v, false, ps) :: pre), post. split; [exact Hb|].
        split; [reflexivity|]. split; [|exact Hpost].
        inversion Hpre; subst. constructor; [assumption|].
        constructor; [|assumption]. unfold chain_length in *. cbn in *. lia.
Qed.

(** The loop returns the first child result that reports success. *)
Lemma first_nonempty_loop_first_success (rec : value -> outcome found) l rs d
      pre r post :
  Forall2 (fun x rx => rec x = Ret rx) l rs ->
  rs = pre ++ r :: post ->
  Forall (fun rx => success_of rx = false) pre ->
  success_of r = true ->
  first_nonempty_loop rec l d = Ret r.
Proof.
  intros H. revert d pre. induction H as [|x [[v s] ps] l rs Hx Hl IH];
    intros d pre Hsplit Hpre Hr.
  - destruct pre; discriminate Hsplit.
  - cbn [first_nonempty_loop]. rewrite Hx. cbn [bind].
    destruct pre as [|p pre]; cbn in Hsplit; inversion Hsplit; subst.
    + unfold success_of in Hr. cbn in Hr. subst s. reflexivity.
    + inversion Hpre as [|? ? Hp Hpre']; subst. unfold success_of in Hp. cbn in Hp.
      subst s. destruct (length (snd d) <? length ps); eapply IH; eauto.
Qed.

Lemma nesting_le_mono h n m v :
  nesting_le h n v = true -> n <= m -> nesting_le h m v = true.
Proof.
  revert m v. induction n as [|n IH]; intros m v H Hle; [discriminate H|].
  destruct m as [|m]; [lia|]. cbn [nesting_le] in *.
  destruct (is_none v || is_np_array v); [reflexivity|].
  destruct (is_iterable h v && negb (is_string v)); [|reflexivity].
  destruct (seq_items h v) as [[|first rest]|]; try exact H.
  destruct (is_ first v); [reflexivity|]. cbn [orb] in *.
  rewrite forallb_forall in *. intros x Hx. apply IH; [apply H; exact Hx | lia].
Qed.

Lemma depth_le_max l x :
  In x l -> depth x <= fold_right (fun y acc => Nat.max (depth y) acc) 0 l.
Proof.
  induction l as [|y l IH]; intros Hx; [destruct Hx|].
  cbn [fold_right]. destruct Hx as [-> | Hx]; [lia|]. specialize (IH Hx). lia.
Qed.

Lemma is_not_inline_list first l : is_ first (VList l) = false.
Proof. destruct first; reflexivity. Qed.

Lemma is_not_inline_tuple first l : is_ first (VTuple l) = false.
Proof. destruct first; reflexivity. Qed.

Lemma nesting_le_S h n v :
  nesting_le h (S n) v
  = if is_none v || is_np_array v then true
    else if is_iterable h v && negb (is_string v) then
      match seq_items h v with
      | None => false
      | Some [] => true
      | Some (first :: rest) => is_ first v || forallb (nesting_le h n) (first :: rest)
      end
    else true.
Proof. reflexivity. Qed.

(** A value written without references to the store has finite nesting. *)
Lemma no_ref_nesting_le h v :
  no_ref v = true -> nesting_le h (S (depth v)) v = true.
Proof.
  induction v as [| b | k z | s | a | l IH | l IH | a | c l IH] using value_ind';
    intros Hv; try reflexivity; try discriminate Hv.
  - cbn [depth]. rewrite nesting_le_S.
    cbn [is_none is_np_array orb is_iterable is_string negb andb seq_items].
    destruct l as [|first rest]; [reflexivity|].
    rewrite is_not_inline_list. cbn [orb no_ref] in *.
    rewrite forallb_forall in *. intros x Hx.
    rewrite Forall_forall in IH.
    eapply nesting_le_mono; [apply IH; [exact Hx | apply Hv; exact Hx]|].
    apply le_n_S. apply depth_le_max. exact Hx.
  - cbn [depth]. rewrite nesting_le_S.
    cbn [is_none is_np_array orb is_iterable is_string negb andb seq_items].
    destruct l as [|first rest]; [reflexivity|].
    rewrite is_not_inline_tuple. cbn [orb no_ref] in *.
    rewrite forallb_forall in *. intros x Hx.
    rewrite Forall_forall in IH.
    eapply nesting_le_mono; [apply IH; [exact Hx | apply Hv; exact Hx]|].
    apply le_n_S. apply depth_le_max. exact Hx.
Qed.

Lemma find_first_nonempty_eq h fuel attr parents :
  find_first_nonempty h (S fuel) attr parents
  = if is_none attr || is_np_array attr then Ret (attr, true, parents)
    else if is_iterable h attr && negb (is_string attr) then
      match seq_items h attr with
      | None => Raise TypeError
      | Some [] => Ret (VNone, false, parents)
      | Some (first :: rest) =>
          if is_ first attr then Ret (attr, true, parents)
          else first_nonempty_loop
                 (fun attr_i => find_first_nonempty h fuel attr_i (parents ++ [attr]))
                 (first :: rest) (VNone, false, parents)
      end
    else Ret (attr, true, parents).
Proof. reflexivity. Qed.

Lemma find_first_nonempty_self_second_out_of_fuel fuel parents :
  find_first_nonempty store_self_second fuel (VRef 0) parents = OutOfFuel.
Proof.
  revert parents. induction fuel as [|fuel IH]; intros parents; [reflexivity|].
  rewrite find_first_nonempty_eq.
  cbn [store_self_second is_none is_np_array orb is_iterable
       is_string negb andb nth_error seq_items option_map snd is_
       first_nonempty_loop].
  destruct fuel as [|fuel]; [reflexivity|].
  rewrite (find_first_nonempty_eq _ fuel (VList [])).
  cbn [is_none is_np_array orb is_iterable is_string negb andb seq_items bind].
  rewrite !IH.
  destruct (length parents <? length (parents ++ [VRef 0])); reflexivity.
Qed.

(** C6, as stated, fails: on the list [a = [[], a]] the finder never
    returns, whatever the number of nested calls it is allowed (Python
    ends the recursion with a RecursionError). *)
Lemma find_first_nonempty_self_second_never_returns :
  ~ exists fuel r, find_first_nonempty store_self_second fuel (VRef 0) [] = Ret r.
Proof.
  intros (fuel & r & H).
  rewrite find_first_nonempty_self_second_out_of_fuel in H. discriminate H.
Qed.

Lemma find_first_nonempty_mutual_out_of_fuel fuel a parents :
  a < 2 -> find_first_nonempty store_mutual fuel (VRef a) parents = OutOfFuel.
Proof.
  revert a parents. induction fuel as [|fuel IH]; intros a parents Ha; [reflexivity|].
  rewrite find_first_nonempty_eq.
  destruct a as [|[|a]]; [| |lia];
    cbn [store_mutual is_none is_np_array orb is_iterable
         is_string negb andb nth_error seq_items option_map snd is_ Nat.eqb
         first_nonempty_loop];
    rewrite IH by lia; reflexivity.
Qed.

(** C7, as stated, fails: on the lists [a = [b]], [b = [a]] no element is
    identical to its own container, and the finder never returns. *)
Lemma find_first_nonempty_mutual_never_returns :
  ~ exists fuel r, find_first_nonempty store_mutual fuel (VRef 0) [] = Ret r.
Proof.
  intros (fuel & r & H).
  rewrite find_first_nonempty_mutual_out_of_fuel in H by lia. discriminate H.
Qed.

Lemma Forall_exists_Forall2 {A B} (R : A -> B -> Prop) (l : list A) :
  Forall (fun x => exists y, R x y) l -> exists l', Forall2 R l l'.
Proof.
  induction 1 as [|x l [y Hy] _ [l' IH]].
  - exists []. constructor.
  - exists (y :: l'). constructor; assumption.
Qed.

Lemma nesting_le_children h n attr first rest :
  nesting_le h (S n) attr = true ->
  is_sequence h attr = true ->
  seq_items h attr = Some (first :: rest) ->
  is_ first attr = false ->
  forallb (nesting_le h n) (first :: rest) = true.
Proof.
  intros H Hs Hi Hf. rewrite nesting_le_S in H. unfold is_sequence in Hs.
  apply andb_prop in Hs. destruct Hs as [Hs1 Hs2].
  apply negb_true_iff in Hs1. rewrite Hs1, Hs2, Hi, Hf in H. exact H.
Qed.

(** C6, amended: on an input of finite nesting [find_first_nonempty]
    returns a result and does not raise.  On an empty sequence the result
    is found = false with the ancestor chain it was given.  On a
    non-empty sequence (whose first element is not the sequence itself)
    every element has a result; the finder returns the first of them that
    reports found = true, and if none does, the first of the deepest
    among its own chain and the failed results. *)
Theorem find_first_nonempty_finite_nesting :
  forall h n fuel attr parents,
    nesting_le h n attr = true ->
    n <= fuel ->
    exists r,
      find_first_nonempty h fuel attr parents = Ret r
      /\ (is_sequence h attr = true -> seq_items h attr = Some [] ->
          r = (VNone, false, parents))
      /\ (forall first rest,
             is_sequence h attr = true ->
             seq_items h attr = Some (first :: rest) ->
             is_ first attr = false ->
             exists rs,
               Forall2 (fun x rx =>
                          find_first_nonempty h (pred fuel) x (parents ++ [attr]) = Ret rx)
                       (first :: rest) rs
               /\ (forall pre rx post,
                      rs = pre ++ rx :: post ->
                      Forall (fun q => success_of q = false) pre ->
                      success_of rx = true ->
                      r = rx)
               /\ (Forall (fun q => success_of q = false) rs ->
                   exists pre post,
                     (VNone, false, parents) :: rs = pre ++ r :: post
                     /\ Forall (fun q => chain_length q < chain_length r) pre
                     /\ Forall (fun q => chain_length q <= chain_length r) post)).
Proof.
  intros h n fuel attr parents Hn Hle.
  destruct (find_first_nonempty_returns h n attr parents Hn) as [r Hr].
  assert (Hr' : find_first_nonempty h fuel attr parents = Ret r)
    by (eapply find_first_nonempty_mono; [exact Hr | discriminate | exact Hle]).
  exists r. split; [exact Hr'|].
  destruct n as [|n]; [discriminate Hn|].
  destruct fuel as [|fuel]; [lia|].
  rewrite find_first_nonempty_eq in Hr'. split.
  - intros Hs Hi. unfold is_sequence in Hs. apply andb_prop in Hs.
    destruct Hs as [Hs1 Hs2]. apply negb_true_iff in Hs1.
    rewrite Hs1, Hs2, Hi in Hr'. inversion Hr'. reflexivity.
  - intros first rest Hs Hi Hf.
    pose proof (nesting_le_children h n attr first rest Hn Hs Hi Hf) as Hc.
    unfold is_sequence in Hs. apply andb_prop in Hs.
    destruct Hs as [Hs1 Hs2]. apply negb_true_iff in Hs1.
    rewrite Hs1, Hs2, Hi, Hf in Hr'.
    assert (Hall : Forall (fun x => exists rx,
                find_first_nonempty h fuel x (parents ++ [attr]) = Ret rx)
              (first :: rest)).
    { apply Forall_forall. intros x Hx. rewrite forallb_forall in Hc.
      destruct (find_first_nonempty_returns h n x (parents ++ [attr]) (Hc x Hx))
        as [rx Hrx].
      exists rx. eapply find_first_nonempty_mono; [exact Hrx | discriminate | lia]. }
    destruct (Forall_exists_Forall2 _ _ Hall) as [rs Hrs].
    exists rs. cbn [pred]. split; [exact Hrs|]. split.
    + intros pre rx post Hsplit Hpre Hrx.
      rewrite (first_nonempty_loop_first_success _ _ _ _ _ _ _ Hrs Hsplit Hpre Hrx)
        in Hr'.
      inversion Hr'. reflexivity.
    + intros Hfail.
      destruct (first_nonempty_loop_deepest _ _ _ (VNone, false, parents) Hrs Hfail)
        as (b & pre & post & Hb & Hsplit & Hpre & Hpost).
      rewrite Hb in Hr'. inversion Hr'; subst b.
      exists pre, post. auto.
Qed.

Lemma find_first_nonempty_finite_nesting_witness :
  nesting_le [] 3 (VList [VList []; VList [VList []]]) = true
  /\ 3 <= 3
  /\ exists r,
      find_first_nonempty [] 3 (VList [VList []; VList [VList []]]) [] = Ret r.
Proof.
  split; [reflexivity|]. split; [lia|].
  destruct (find_first_nonempty_finite_nesting [] 3 3
              (VList [VList []; VList [VList []]]) [] eq_refl (le_n 3))
    as (r & Hr & _).
  exists r. exact Hr.
Defined.

(** C7, amended: [find_first_nonempty] terminates on every input of
    finite nesting, which every value written without self-containing
    containers is; a sequence whose first element is the sequence itself
    is returned as its own leaf with found = true, without recursing into
    it. *)
Theorem find_first_nonempty_terminates :
  forall h n fuel attr parents,
    nesting_le h n attr = true ->
    n <= fuel ->
    (exists r, find_first_nonempty h fuel attr parents = Ret r)
    /\ (forall first rest,
           is_sequence h attr = true ->
           seq_items h attr = Some (first :: rest) ->
           is_ first attr = true ->
           find_first_nonempty h fuel attr parents = Ret (attr, true, parents))
    /\ (forall v, no_ref v = true ->
                  exists r, find_first_nonempty h (S (depth v)) v parents = Ret r).
Proof.
  intros h n fuel attr parents Hn Hle. split; [|split].
  - destruct (find_first_nonempty_returns h n attr parents Hn) as [r Hr].
    exists r. eapply find_first_nonempty_mono; [exact Hr | discriminate | exact Hle].
  - intros first rest Hs Hi Hf.
    destruct n as [|n]; [discriminate Hn|]. destruct fuel as [|fuel]; [lia|].
    rewrite find_first_nonempty_eq. unfold is_sequence in Hs.
    apply andb_prop in Hs. destruct Hs as [Hs1 Hs2]. apply negb_true_iff in Hs1.
    rewrite Hs1, Hs2, Hi, Hf. reflexivity.
  - intros v Hv. apply find_first_nonempty_returns.
    apply no_ref_nesting_le. exact Hv.
Qed.

Lemma find_first_nonempty_terminates_witness :
  nesting_le store_self_first 1 (VRef 0) = true
  /\ 1 <= 1
  /\ find_first_nonempty store_self_first 1 (VRef 0) [] = Ret (VRef 0, true, []).
Proof.
  split; [reflexivity|]. split; [lia|].
  destruct (find_first_nonempty_terminates store_self_first 1 1 (VRef 0) []
              eq_refl (le_n 1)) as (_ & H & _).
  apply (H (VRef 0) []); reflexivity.
Defined.

(** ** Classification does not depend on the call *)





(** ** restore_dtype_and_merge *)

Lemma shape_eqb_eq s1 s2 : shape_eqb s1 s2 = true <-> s1 = s2.
Proof.
  unfold shape_eqb. split.
  - revert s2. induction s1 as [|x s1 IH]; intros [|y s2] H; cbn in H;
      try reflexivity; try discriminate H.
    apply andb_prop in H. destruct H as [Hl H].
    apply andb_prop in H. destruct H as [Hxy H].
    apply Nat.eqb_eq in Hxy. subst y. f_equal. apply IH.
    rewrite Hl. exact H.
  - intros <-. induction s1 as [|x s1 IH]; [reflexivity|].
    cbn. apply andb_prop in IH. destruct IH as [Hl H].
    rewrite Hl, Nat.eqb_refl, H. reflexivity.
Qed.

Lemma one_shape_iff shapes :
  one_shape shapes = true
  <-> shapes <> [] /\ forall s, In s shapes -> s = hd [] shapes.
Proof.
  destruct shapes as [|s0 l]; cbn [one_shape hd].
  - split; [discriminate | intros [H _]; congruence].
  - split.
    + intros H. split; [discriminate|]. intros s [<- | Hs]; [reflexivity|].
      induction l as [|y l IH]; [destruct Hs|]. cbn in H.
      apply andb_prop in H. destruct H as [Hy H]. apply shape_eqb_eq in Hy.
      destruct Hs as [<- | Hs]; [symmetry; exact Hy | apply IH; assumption].
    + intros [_ H]. induction l as [|y l IH]; [reflexivity|]. cbn.
      rewrite (H y) by (right; left; reflexivity).
      rewrite (proj2 (shape_eqb_eq s0 s0) eq_refl). cbn. apply IH.
      intros s Hs. apply H. destruct Hs as [<- | Hs]; [left; reflexivity|].
      right; right; exact Hs.
Qed.

Lemma restore_dtype_and_merge_eq h fuel arr input_dtype :
  restore_dtype_and_merge h (S fuel) arr input_dtype
  = (arr <- (if is_list h arr then
               l <- py_iter h arr ;;
               arr <- mapM (fun arr_i => restore_dtype_and_merge h fuel arr_i input_dtype) l ;;
               arrays <- mapM get_array arr ;;
               if one_shape (map shape arrays)
               then Ret (VArr (np_stack arrays))
               else Ret (VList arr)
             else Ret arr) ;;
     match arr with
     | VArr a => Ret (VArr (restore_dtypes_ a input_dtype))
     | _ => Ret arr
     end).
Proof. reflexivity. Qed.

Lemma mapM_Forall2 {A B} (f : A -> outcome B) l rs :
  Forall2 (fun x r => f x = Ret r) l rs -> mapM f l = Ret rs.
Proof.
  induction 1 as [|x r l rs Hx _ IH]; cbn; [reflexivity|].
  rewrite Hx. cbn. rewrite IH. reflexivity.
Qed.

Lemma mapM_get_array l : mapM get_array (map VArr l) = Ret l.
Proof.
  induction l as [|a l IH]; cbn; [reflexivity|]. rewrite IH. reflexivity.
Qed.

Lemma Forall2_map_r {A B C} (R : A -> C -> Prop) (g : B -> C) l rs :
  Forall2 (fun x r => R x (g r)) l rs -> Forall2 R l (map g rs).
Proof. induction 1; cbn; constructor; assumption. Qed.

Lemma one_shape_arrays rs :
  one_shape (map shape rs) = true
  <-> rs <> [] /\ forall r, In r rs -> shape r = shape (hd (mk_array float64 [] []) rs).
Proof.
  rewrite one_shape_iff. destruct rs as [|r0 rs]; cbn [map hd].
  - split; intros [H _]; congruence.
  - split; intros [_ H]; (split; [discriminate|]).
    + intros r Hr. apply H. apply (in_map shape) in Hr. exact Hr.
    + intros s Hs. apply (in_map_iff shape (r0 :: rs) s) in Hs.
      destruct Hs as (r & <- & Hr). apply H. exact Hr.
Qed.

(** C8, as stated, fails at the empty list: all of its (no) members have
    one shape, and it is returned as a list, not stacked into an array. *)
Lemma restore_dtype_and_merge_empty_list :
  (forall a b : ndarray, In a [] -> In b [] -> shape a = shape b)
  /\ restore_dtype_and_merge [] 2 (VList (map VArr [])) uint8 = Ret (VList [])
  /\ is_np_array (VList []) = false.
Proof.
  split; [intros a b []|]. split; reflexivity.
Qed.

(** C8, amended: [restore_dtype_and_merge] first restores the members of
    a list, nested lists included, then stacks the restored arrays into
    one block array if and only if the list is non-empty and all member
    shapes are identical, and otherwise returns the list of restored
    arrays; an array leaf, and the stacked block, is cast to the target
    dtype by a direct cast, which wraps around instead of clamping. *)
Theorem restore_dtype_and_merge_stacks :
  forall h fuel vs rs dt,
    Forall2 (fun v r => restore_dtype_and_merge h fuel v dt = Ret (VArr r)) vs rs ->
    restore_dtype_and_merge h (S fuel) (VList vs) dt
    = Ret (if one_shape (map shape rs)
           then VArr (mk_array dt
                        (length rs :: shape (hd (mk_array float64 [] []) rs))
                        (map (cast dt) (concat (map data rs))))
           else VList (map VArr rs))
    /\ (one_shape (map shape rs) = true
        <-> rs <> []
            /\ forall r, In r rs -> shape r = shape (hd (mk_array float64 [] []) rs))
    /\ (forall a, restore_dtype_and_merge h (S fuel) (VArr a) dt
                  = Ret (VArr (mk_array dt (shape a) (map (cast dt) (data a)))))
    /\ cast uint8 (-1) = 255%Z
    /\ cast uint8 300 = 44%Z
    /\ cast int8 200 = (-56)%Z.
Proof.
  intros h fuel vs rs dt H.
  split; [|split; [apply one_shape_arrays | split; [reflexivity | repeat split]]].
  rewrite restore_dtype_and_merge_eq.
  cbn [is_list py_iter seq_items bind].
  rewrite (mapM_Forall2 _ vs (map VArr rs)) by (apply Forall2_map_r; exact H).
  cbn [bind]. rewrite mapM_get_array. cbn [bind].
  destruct (one_shape (map shape rs)) eqn:E; cbn [bind]; [|destruct rs; reflexivity].
  destruct rs as [|r0 rs]; [discriminate E|]. reflexivity.
Qed.

Lemma restore_dtype_and_merge_stacks_witness :
  Forall2 (fun v r => restore_dtype_and_merge [] 1 v uint8 = Ret (VArr r))
    [VArr (mk_array int32 [2] [1; 300]%Z); VArr (mk_array int32 [2] [(-1); 4]%Z)]
    [mk_array uint8 [2] [1; 44]%Z; mk_array uint8 [2] [255; 4]%Z]
  /\ restore_dtype_and_merge [] 2
       (VList [VArr (mk_array int32 [2] [1; 300]%Z);
               VArr (mk_array int32 [2] [(-1); 4]%Z)]) uint8
     = Ret (VArr (mk_array uint8 [2; 2] [1; 44; 255; 4]%Z)).
Proof.
  assert (H : Forall2 (fun v r => restore_dtype_and_merge [] 1 v uint8 = Ret (VArr r))
    [VArr (mk_array int32 [2] [1; 300]%Z); VArr (mk_array int32 [2] [(-1); 4]%Z)]
    [mk_array uint8 [2] [1; 44]%Z; mk_array uint8 [2] [255; 4]%Z])
    by (repeat constructor).
  split; [exact H|].
  exact (proj1 (restore_dtype_and_merge_stacks [] 1 _ _ uint8 H)).
Defined.

Lemma normalize_images_axes_witness :
  array_ok (mk_array uint8 [2; 2] [1; 2; 3; 4]%Z)
  /\ Forall (fun b => array_ok b /\ (ndim b = 2 \/ ndim b = 3))
       [mk_array uint8 [1; 2] [5; 6]%Z; mk_array uint8 [1; 1; 3] [7; 8; 9]%Z]
  /\ normalize_images [] (VArr (mk_array uint8 [2; 2] [1; 2; 3; 4]%Z))
     = Ret (VArr (mk_array uint8 [1; 2; 2; 1] [1; 2; 3; 4]%Z))
  /\ normalize_images []
       (VList [VArr (mk_array uint8 [1; 2] [5; 6]%Z);
               VArr (mk_array uint8 [1; 1; 3] [7; 8; 9]%Z)])
     = Ret (VList [VArr (mk_array uint8 [1; 2; 1] [5; 6]%Z);
                   VArr (mk_array uint8 [1; 1; 3] [7; 8; 9]%Z)]).
Proof.
  assert (Ha : array_ok (mk_array uint8 [2; 2] [1; 2; 3; 4]%Z)) by reflexivity.
  assert (Hl : Forall (fun b => array_ok b /\ (ndim b = 2 \/ ndim b = 3))
       [mk_array uint8 [1; 2] [5; 6]%Z; mk_array uint8 [1; 1; 3] [7; 8; 9]%Z]).
  { constructor; [split; [reflexivity | left; reflexivity]|].
    constructor; [split; [reflexivity | right; reflexivity]|]. constructor. }
  split; [exact Ha|]. split; [exact Hl|].
  destruct (normalize_images_axes [] _ _ Ha Hl) as (_ & _ & H1 & _ & H2 & _).
  split; [exact H1 | exact H2].
Defined.

(** ** Round trips: shared lemmas *)

Lemma preprocess_shapes_list h ds :
  _preprocess_shapes h (shape_list ds) = Ret (Some (map VTuple ds)).
Proof.
  unfold _preprocess_shapes, shape_list.
  cbn [is_none is_np_array is_list py_assert bind py_iter seq_items].
  rewrite mapM_map. erewrite mapM_ret with (g := VTuple); [reflexivity|].
  intros x _. reflexivity.
Qed.

Lemma estimate_normalization_type_mono h f f' v t :
  estimate_normalization_type h f v = Ret t -> f <= f' ->
  estimate_normalization_type h f' v = Ret t.
Proof.
  unfold estimate_normalization_type. intros H Hle.
  destruct (find_first_nonempty h f v []) as [r | e |] eqn:E; try discriminate H.
  rewrite (find_first_nonempty_mono h f f' v [] _ E) by (discriminate || exact Hle).
  exact H.
Qed.

Lemma find_first_nonempty_mono_ret h f f' v ps r :
  find_first_nonempty h f v ps = Ret r -> f <= f' ->
  find_first_nonempty h f' v ps = Ret r.
Proof.
  intros H Hle. eapply find_first_nonempty_mono; [exact H | discriminate | exact Hle].
Qed.

Lemma chunks_length {A} n sz (l : list A) : length (chunks n sz l) = n.
Proof.
  revert l. induction n as [|n IH]; intros l; cbn; [reflexivity|].
  rewrite IH. reflexivity.
Qed.

Lemma map_fst_combine {A B} (l1 : list A) (l2 : list B) :
  length l1 <= length l2 -> map fst (combine l1 l2) = l1.
Proof.
  revert l2. induction l1 as [|x l1 IH]; intros [|y l2] H; cbn in *;
    try reflexivity; try lia.
  rewrite IH by lia. reflexivity.
Qed.






Lemma restore_dtype_and_merge_list h fuel vs rs dt :
  Forall2 (fun v r => restore_dtype_and_merge h fuel v dt = Ret (VArr r)) vs rs ->
  restore_dtype_and_merge h (S fuel) (VList vs) dt
  = Ret (if one_shape (map shape rs)
         then VArr (mk_array dt
                      (length rs :: shape (hd (mk_array float64 [] []) rs))
                      (map (cast dt) (concat (map data rs))))
         else VList (map VArr rs)).
Proof.
  intros H. rewrite restore_dtype_and_merge_eq.
  cbn [is_list py_iter seq_items bind].
  rewrite (mapM_Forall2 _ vs (map VArr rs)) by (apply Forall2_map_r; exact H).
  cbn [bind]. rewrite mapM_get_array. cbn [bind].
  destruct (one_shape (map shape rs)) eqn:E; cbn [bind]; [|destruct rs; reflexivity].
  destruct rs as [|r0 rs]; [discriminate E|]. reflexivity.
Qed.




Lemma forward_blocks {A} (F : value -> value -> outcome value)
      (G : A -> value -> value) (mk : A -> value) (chs : list A) (ss : list value) :
  (forall blk s, In blk chs -> F (mk blk) s = Ret (G blk s)) ->
  mapM (fun p => F (fst p) (snd p)) (combine (map mk chs) ss)
  = Ret (map (fun p => G (fst p) (snd p)) (combine chs ss)).
Proof.
  revert ss. induction chs as [|blk chs IH]; intros ss H; [reflexivity|].
  destruct ss as [|s ss]; [reflexivity|]. cbn [map combine mapM fst snd].
  rewrite (H blk s) by (left; reflexivity). cbn [bind].
  rewrite IH by (intros b s' Hb; apply H; right; exact Hb). reflexivity.
Qed.


Lemma length_blocks {A} (G : A -> value -> value) (chs : list A) (ss : list value) :
  length chs = length ss ->
  length (map (fun p => G (fst p) (snd p)) (combine chs ss)) = length chs.
Proof. intros H. rewrite length_map, length_combine. lia. Qed.

Lemma assert_exactly_n_shapes_ok (l : list value) n from_ntype to_ntype :
  length l = n -> _assert_exactly_n_shapes (Some l) n from_ntype to_ntype = Ret tt.
Proof.
  intros H. unfold _assert_exactly_n_shapes. rewrite H, Nat.eqb_refl. reflexivity.
Qed.



Lemma size_of_cons n sh : size_of (n :: sh) = n * size_of sh.
Proof. reflexivity. Qed.


Ltac pick_branch :=
  cbn [String.eqb Ascii.eqb Bool.eqb str_in existsb orb andb negb bind append].


(** ** Round trip: heatmaps *)

Lemma zip_shapes_array h dt n m sh d ss :
  zip_shapes h (VArr (mk_array dt (n :: m :: sh) d)) (Some ss)
  = Ret (combine (map (fun blk => VArr (mk_array dt (m :: sh) blk))
                      (chunks n (size_of (m :: sh)) d)) ss).
Proof. reflexivity. Qed.



(** ** Round trip: segmentation maps *)

Lemma estimate_segmaps_norm_type_ok h f v t :
  estimate_normalization_type h f v = Ret t ->
  str_in t segmaps_valid_type_strs = true ->
  estimate_segmaps_norm_type h f v = Ret t.
Proof.
  intros H Hin. unfold estimate_segmaps_norm_type, _assert_is_of_norm_type.
  rewrite H. cbn [bind]. rewrite Hin. reflexivity.
Qed.

Lemma chunks_block_length {A} n sz (l : list A) blk :
  n * sz <= length l -> In blk (chunks n sz l) -> length blk = sz.
Proof.
  revert l. induction n as [|n IH]; intros l Hl Hb; [destruct Hb|].
  cbn [chunks] in Hb. destruct Hb as [<- | Hb].
  - rewrite length_firstn. cbn in Hl. lia.
  - apply (IH (skipn sz l)); [|exact Hb]. rewrite length_skipn. cbn in Hl. lia.
Qed.




(** ** Round trip: keypoints *)

Lemma array_rows_2d h dt k w blk :
  array_rows h (VArr (mk_array dt [k; w] blk))
  = Ret (map (fun row => map (VNum (NpScalar dt)) (firstn w row))
             (chunks k (size_of [w]) blk)).
Proof.
  unfold array_rows. cbn [py_iter subarrays shape dtype_of data bind].
  rewrite mapM_map.
  erewrite mapM_ret with (g := fun row => map (VNum (NpScalar dt)) (firstn w row));
    reflexivity.
Qed.

Lemma from_coords_array_ok h dt k blk s :
  length blk = k * 2 ->
  from_coords_array h (VArr (mk_array dt [k; 2] blk)) s
  = Ret (KeypointsOnImage (VList (map (keypoint_of_row dt) (chunks k 2 blk))) s).
Proof.
  intros Hl. unfold from_coords_array. rewrite array_rows_2d. cbn [bind].
  change (size_of [2]) with 2. rewrite mapM_map.
  erewrite mapM_ret with (g := keypoint_of_row dt); [reflexivity|].
  intros row Hr. apply chunks_block_length in Hr; [|lia].
  destruct row as [|x [|y [|z r]]]; try discriminate Hr. reflexivity.
Qed.

Lemma float32_rows_ok {A} w (f : A -> list value) (zs : A -> list Z) (l : list A) :
  (forall x, In x l -> length (f x) = w /\ mapM num_of (f x) = Ret (zs x)) ->
  float32_rows w (map f l)
  = Ret (VArr (mk_array float32 [length l; w]
                 (map (cast float32) (concat (map zs l))))).
Proof.
  intros Hf. unfold float32_rows. rewrite mapM_map.
  erewrite mapM_ret with (g := zs).
  - cbn [bind]. rewrite length_map. reflexivity.
  - intros x Hx. destruct (Hf x Hx) as [H1 H2]. rewrite H1, Nat.eqb_refl, H2.
    reflexivity.
Qed.

Lemma get_coords_array_ok h dt rows s :
  (forall row, In row rows -> length row = 2) ->
  get_coords_array h (KeypointsOnImage (VList (map (keypoint_of_row dt) rows)) s)
  = Ret (VArr (mk_array float32 [length rows; 2] (map (cast float32) (concat rows)))).
Proof.
  intros Hw. unfold get_coords_array.
  cbn [KeypointsOnImage getattr class_fields String.eqb Ascii.eqb Bool.eqb index_of
       nth_error bind py_iter seq_items].
  rewrite mapM_map.
  erewrite mapM_ret
    with (g := fun row => [VNum (NpScalar dt) (nth 0 row 0%Z);
                           VNum (NpScalar dt) (nth 1 row 0%Z)]) by reflexivity.
  cbn [bind]. rewrite (float32_rows_ok 2 _ (fun row => row)).
  - rewrite map_id. reflexivity.
  - intros row Hr. specialize (Hw row Hr).
    destruct row as [|x [|y [|z r]]]; try discriminate Hw. split; reflexivity.
Qed.



(** A coordinate array survives the round trip through keypoints. *)
Lemma coords_roundtrip h dt k blk s :
  length blk = k * 2 ->
  exists o,
    from_coords_array h (VArr (mk_array dt [k; 2] blk)) s = Ret o
    /\ get_coords_array h o = Ret (VArr (astype float32 (mk_array dt [k; 2] blk))).
Proof.
  intros Hl. eexists. split; [apply from_coords_array_ok; exact Hl|].
  rewrite get_coords_array_ok.
  - rewrite chunks_length, concat_chunks by exact Hl. reflexivity.
  - intros row Hr. apply chunks_block_length in Hr; [exact Hr | lia].
Qed.

Lemma estimate_keypoints_norm_type_ok h f v t :
  estimate_normalization_type h f v = Ret t ->
  str_in t keypoints_valid_type_strs = true ->
  estimate_keypoints_norm_type h f v = Ret t.
Proof.
  intros H Hin. unfold estimate_keypoints_norm_type, _assert_is_of_norm_type.
  rewrite H. cbn [bind]. rewrite Hin. reflexivity.
Qed.



Lemma numeric_kind_tag a :
  numeric_kind a ->
  exists k, kind_name (kind (dtype_of a)) = k
            /\ str_in ("array[" ++ k ++ "]") ["array[float]"; "array[int]"; "array[uint]"]
               = true
            /\ str_in ("iterable-array[" ++ k ++ "]")
                 ["iterable-array[float]"; "iterable-array[int]"; "iterable-array[uint]"]
               = true
            /\ (k = "float" \/ k = "int" \/ k = "uint").
Proof.
  intros [H | [H | H]]; rewrite H; eexists; (split; [reflexivity|]);
    (split; [reflexivity|]); (split; [reflexivity|]); auto.
Qed.








(** ** Round trip: bounding boxes *)

Lemma from_xyxy_array_ok h dt k blk s :
  length blk = k * 4 ->
  from_xyxy_array h (VArr (mk_array dt [k; 4] blk)) s
  = Ret (BoundingBoxesOnImage (VList (map (box_of_row dt) (chunks k 4 blk))) s).
Proof.
  intros Hl. unfold from_xyxy_array. rewrite array_rows_2d. cbn [bind].
  change (size_of [4]) with 4. rewrite mapM_map.
  erewrite mapM_ret with (g := box_of_row dt); [reflexivity|].
  intros row Hr. apply chunks_block_length in Hr; [|lia].
  destruct row as [|x1 [|y1 [|x2 [|y2 [|z r]]]]]; try discriminate Hr. reflexivity.
Qed.


Lemma estimate_bounding_boxes_norm_type_ok h f v t :
  estimate_normalization_type h f v = Ret t ->
  str_in t bounding_boxes_valid_type_strs = true ->
  estimate_bounding_boxes_norm_type h f v = Ret t.
Proof.
  intros H Hin. unfold estimate_bounding_boxes_norm_type, _assert_is_of_norm_type.
  rewrite H. cbn [bind]. rewrite Hin. reflexivity.
Qed.



(** ** Round trip: polygons *)


Lemma polygon_of_array h dt k blk :
  Polygon h (VArr (mk_array dt [k; 2] blk))
  = Ret (VObj "Polygon" [VArr (astype float32 (mk_array dt [k; 2] blk))]).
Proof. reflexivity. Qed.




















(** ** Round trip: all domains *)




(** ** The finder: the ancestor chain *)

(** The loop, run once below the chain [ps] and once below the chain [qs],
    on calls that differ by that change of chain only. *)
Lemma first_nonempty_loop_shift (rec rec' : value -> outcome found)
      (ps qs : list value) l :
  (forall x v s ps', In x l -> rec x = Ret (v, s, ps') ->
     exists e, ps' = ps ++ e /\ rec' x = Ret (v, s, qs ++ e)) ->
  forall dv ds e0 v s ps',
    first_nonempty_loop rec l (dv, ds, ps ++ e0) = Ret (v, s, ps') ->
    exists e, ps' = ps ++ e
              /\ first_nonempty_loop rec' l (dv, ds, qs ++ e0) = Ret (v, s, qs ++ e).
Proof.
  induction l as [|x l IH]; intros Hrec dv ds e0 v s ps' H;
    cbn [first_nonempty_loop] in *.
  - inversion H; subst. exists e0. split; reflexivity.
  - destruct (rec x) as [[[v1 s1] p1]| |] eqn:Ex; cbn [bind] in H; try discriminate H.
    destruct (Hrec x v1 s1 p1 (or_introl eq_refl) Ex) as (e1 & -> & Ex').
    rewrite Ex'. cbn [bind].
    destruct s1.
    + inversion H; subst. exists e1. split; reflexivity.
    + cbn [snd] in *.
      replace (length (qs ++ e0) <? length (qs ++ e1))
        with (length (ps ++ e0) <? length (ps ++ e1)).
      2:{ rewrite !length_app.
          destruct (Nat.ltb_spec (length ps + length e0) (length ps + length e1));
            destruct (Nat.ltb_spec (length qs + length e0) (length qs + length e1));
            try reflexivity; lia. }
      destruct (length (ps ++ e0) <? length (ps ++ e1)).
      * apply (IH (fun x0 v0 s0 p0 Hin => Hrec x0 v0 s0 p0 (or_intror Hin))
                  v1 false e1 v s ps' H).
      * apply (IH (fun x0 v0 s0 p0 Hin => Hrec x0 v0 s0 p0 (or_intror Hin))
                  dv ds e0 v s ps' H).
Qed.

Lemma find_first_nonempty_shift h fuel :
  forall attr ps v s ps',
    find_first_nonempty h fuel attr ps = Ret (v, s, ps') ->
    exists e, ps' = ps ++ e
              /\ forall qs, find_first_nonempty h fuel attr qs = Ret (v, s, qs ++ e).
Proof.
  induction fuel as [|fuel IH]; intros attr ps v s ps' H; [discriminate H|].
  rewrite find_first_nonempty_eq in H.
  destruct (is_none attr || is_np_array attr) eqn:E1.
  { inversion H; subst. exists []. split; [rewrite app_nil_r; reflexivity|].
    intros qs. rewrite find_first_nonempty_eq, E1, app_nil_r. reflexivity. }
  destruct (is_iterable h attr && negb (is_string attr)) eqn:E2.
  2:{ inversion H; subst. exists []. split; [rewrite app_nil_r; reflexivity|].
      intros qs. rewrite find_first_nonempty_eq, E1, E2, app_nil_r. reflexivity. }
  destruct (seq_items h attr) as [[|first rest]|] eqn:E3; try discriminate H.
  { inversion H; subst. exists []. split; [rewrite app_nil_r; reflexivity|].
    intros qs. rewrite find_first_nonempty_eq, E1, E2, E3, app_nil_r. reflexivity. }
  destruct (is_ first attr) eqn:E4.
  { inversion H; subst. exists []. split; [rewrite app_nil_r; reflexivity|].
    intros qs. rewrite find_first_nonempty_eq, E1, E2, E3, E4, app_nil_r. reflexivity. }
  assert (Hshift : forall qs,
    exists e, ps' = ps ++ e
      /\ first_nonempty_loop
           (fun attr_i => find_first_nonempty h fuel attr_i (qs ++ [attr]))
           (first :: rest) (VNone, false, qs ++ []) = Ret (v, s, qs ++ e)).
  { intros qs.
    assert (H' : first_nonempty_loop
                   (fun attr_i => find_first_nonempty h fuel attr_i (ps ++ [attr]))
                   (first :: rest) (VNone, false, ps ++ []) = Ret (v, s, ps'))
      by (rewrite app_nil_r; exact H).
    refine (first_nonempty_loop_shift _ _ ps qs (first :: rest) _ _ _ _ _ _ _ H').
    intros x v0 s0 p0 _ Hx.
    destruct (IH x (ps ++ [attr]) v0 s0 p0 Hx) as (e & -> & He).
    exists ([attr] ++ e). split; [rewrite app_assoc; reflexivity|].
    rewrite app_assoc. apply He. }
  destruct (Hshift ps) as (e & He & _). exists e. split; [exact He|].
  intros qs. destruct (Hshift qs) as (e' & He' & Hq).
  rewrite He in He'. apply app_inv_head in He'. subst e'.
  rewrite find_first_nonempty_eq, E1, E2, E3, E4.
  rewrite app_nil_r in Hq. exact Hq.
Qed.

(** X1.  The ancestor chain [find_first_nonempty] returns is the chain it
    was given followed by the containers it descended through, and that
    extension, the leaf and the found flag do not depend on the chain
    given: the search below any other chain gives the same leaf and flag
    and the same extension. *)
Theorem find_first_nonempty_extends_chain :
  forall h fuel attr parents nonempty success parents_found,
    find_first_nonempty h fuel attr parents = Ret (nonempty, success, parents_found) ->
    exists descended,
      parents_found = parents ++ descended
      /\ forall parents',
           find_first_nonempty h fuel attr parents'
           = Ret (nonempty, success, parents' ++ descended).
Proof.
  intros h fuel attr parents nonempty success parents_found H.
  exact (find_first_nonempty_shift h fuel attr parents nonempty success parents_found H).
Qed.

Lemma find_first_nonempty_extends_chain_witness :
  exists descended,
    [VStr "root"; VList [VList []]] = [VStr "root"] ++ descended
    /\ forall parents',
         find_first_nonempty [] 2 (VList [VList []]) parents'
         = Ret (VNone, false, parents' ++ descended).
Proof.
  apply (find_first_nonempty_extends_chain [] 2 (VList [VList []]) [VStr "root"]).
  reflexivity.
Defined.

Lemma first_nonempty_loop_failure (rec : value -> outcome found) l :
  (forall x v ps', In x l -> rec x = Ret (v, false, ps') -> v = VNone) ->
  forall dp v ps',
    first_nonempty_loop rec l (VNone, false, dp) = Ret (v, false, ps') -> v = VNone.
Proof.
  induction l as [|x l IH]; intros Hrec dp v ps' H; cbn [first_nonempty_loop] in H.
  - inversion H; reflexivity.
  - destruct (rec x) as [[[v1 s1] p1]| |] eqn:Ex; cbn [bind] in H; try discriminate H.
    destruct s1; [discriminate H|].
    pose proof (Hrec x v1 p1 (or_introl eq_refl) Ex) as Hv. subst v1.
    destruct (length (snd (VNone, false, dp)) <? length p1);
      eapply IH; try exact H; intros; eapply Hrec; eauto; right; assumption.
Qed.

(** X2.  Whenever [find_first_nonempty] reports found = false, the leaf it
    returns is [None], and the input was a sequence (a string, an array, a
    number or an object is never reported as empty). *)
Theorem find_first_nonempty_failure_is_none :
  forall h fuel attr parents nonempty parents_found,
    find_first_nonempty h fuel attr parents = Ret (nonempty, false, parents_found) ->
    nonempty = VNone /\ is_sequence h attr = true.
Proof.
  intros h fuel. induction fuel as [|fuel IH];
    intros attr parents nonempty parents_found H; [discriminate H|].
  rewrite find_first_nonempty_eq in H. unfold is_sequence.
  destruct (is_none attr || is_np_array attr); [discriminate H|].
  destruct (is_iterable h attr && negb (is_string attr)); [|discriminate H].
  split; [|reflexivity].
  destruct (seq_items h attr) as [[|first rest]|]; try discriminate H.
  - inversion H; reflexivity.
  - destruct (is_ first attr); [discriminate H|].
    eapply first_nonempty_loop_failure; [|exact H].
    intros x v ps' _ Hx. apply (IH _ _ _ _ Hx).
Qed.

Lemma find_first_nonempty_failure_is_none_witness :
  VNone = VNone /\ is_sequence [] (VList [VList []; VTuple []]) = true.
Proof.
  apply (find_first_nonempty_failure_is_none [] 2 (VList [VList []; VTuple []]) []
           VNone [VList [VList []; VTuple []]]).
  reflexivity.
Defined.

(** The loop stops at the first element that reports found = true; the
    elements after it are not looked at. *)
Lemma first_nonempty_loop_stops_at_hit (rec : value -> outcome found) pre x rest r :
  Forall (fun p => exists rp, rec p = Ret rp /\ success_of rp = false) pre ->
  rec x = Ret r -> success_of r = true ->
  forall d, first_nonempty_loop rec (pre ++ x :: rest) d = Ret r.
Proof.
  intros Hpre Hx Hr. induction Hpre as [|p pre ([[vp sp] pp] & Hp & Hs) _ IH]; intros d.
  - cbn [app first_nonempty_loop]. rewrite Hx. cbn [bind].
    destruct r as [[v s] ps]. unfold success_of in Hr. cbn in Hr. subst s. reflexivity.
  - cbn [app first_nonempty_loop]. rewrite Hp. cbn [bind].
    unfold success_of in Hs. cbn in Hs. subst sp.
    destruct (length (snd d) <? length pp); apply IH.
Qed.

Lemma type_str_outer_list h v ext l l' :
  _nonempty_info_to_type_str h v true (VList l :: ext)
  = _nonempty_info_to_type_str h v true (VList l' :: ext).
Proof.
  unfold _nonempty_info_to_type_str, last_parent.
  destruct ext as [|e ext]; reflexivity.
Qed.

(** X3.  A list is classified by its first element that holds data: when
    the search fails on the elements before [x] (empty sequences, say) and
    finds a leaf in [x], the list is classified as the one-element list
    [[x]] is, whatever follows [x]. *)
Theorem classification_stops_at_first_hit :
  forall h fuel pre x rest nonempty descended,
    Forall (fun p => exists r, find_first_nonempty h fuel p [] = Ret r
                               /\ success_of r = false) pre ->
    find_first_nonempty h fuel x [] = Ret (nonempty, true, descended) ->
    estimate_normalization_type h (S fuel) (VList (pre ++ x :: rest))
    = estimate_normalization_type h (S fuel) (VList [x]).
Proof.
  intros h fuel pre x rest v ext Hpre Hx.
  assert (Hfind : forall l pre' rest',
             l = pre' ++ x :: rest' ->
             Forall (fun p => exists r, find_first_nonempty h fuel p [] = Ret r
                                        /\ success_of r = false) pre' ->
             find_first_nonempty h (S fuel) (VList l) [] = Ret (v, true, VList l :: ext)).
  { intros l pre' rest' Hl Hpre'. rewrite find_first_nonempty_eq.
    cbn [is_none is_np_array is_iterable is_string orb andb negb seq_items].
    destruct l as [|first tl]; [destruct pre'; discriminate Hl|].
    rewrite is_not_inline_list. rewrite Hl.
    apply first_nonempty_loop_stops_at_hit; [| |reflexivity].
    - rewrite <- Hl. clear Hl. induction Hpre' as [|p pre'' ([[vp sp] pp] & Hp & Hs) _ IH];
        constructor; [|exact IH].
      unfold success_of in Hs. cbn in Hs. subst sp.
      destruct (find_first_nonempty_shift h fuel p [] vp false pp Hp) as (e & _ & He).
      eexists. split; [apply He|reflexivity].
    - rewrite <- Hl.
      destruct (find_first_nonempty_shift h fuel x [] v true ext Hx) as (e & He' & He).
      cbn [app] in He'. subst e. apply He. }
  unfold estimate_normalization_type.
  rewrite (Hfind _ pre rest eq_refl Hpre), (Hfind [x] [] [] eq_refl (Forall_nil _)).
  cbn [bind]. apply type_str_outer_list.
Qed.

Lemma classification_stops_at_first_hit_witness :
  estimate_normalization_type [] 2
    (VList ([VList []] ++ VObj "Keypoint" [VNum PyInt 1%Z; VNum PyInt 2%Z]
                       :: [VStr "junk"; VRef 7]))
  = estimate_normalization_type [] 2
      (VList [VObj "Keypoint" [VNum PyInt 1%Z; VNum PyInt 2%Z]]).
Proof.
  apply (classification_stops_at_first_hit [] 1 [VList []]
           (VObj "Keypoint" [VNum PyInt 1%Z; VNum PyInt 2%Z]) [VStr "junk"; VRef 7]
           (VObj "Keypoint" [VNum PyInt 1%Z; VNum PyInt 2%Z]) []).
  - constructor; [|constructor]. exists (VNone, false, []). split; reflexivity.
  - reflexivity.
Defined.

(** ** The classifier: nesting depth, number tuples *)

Lemma find_first_nonempty_nest h cls fields n :
  forall ps,
    exists chain,
      find_first_nonempty h (S n) (nest n (VObj cls fields)) ps
      = Ret (VObj cls fields, true, ps ++ chain)
      /\ length chain = n
      /\ is_tuple h (last_parent chain) = false.
Proof.
  induction n as [|n IH]; intros ps.
  - exists []. rewrite app_nil_r. repeat split; reflexivity.
  - destruct (IH (ps ++ [nest (S n) (VObj cls fields)])) as (chain & Hf & Hlen & Htup).
    exists (nest (S n) (VObj cls fields) :: chain).
    split; [|split].
    + rewrite find_first_nonempty_eq.
      cbn [nest is_none is_np_array is_iterable is_string orb andb negb seq_items].
      rewrite is_not_inline_list. cbn [first_nonempty_loop].
      cbn [nest] in Hf. rewrite Hf. cbn [bind].
      rewrite <- app_assoc. reflexivity.
    + cbn [length]. rewrite Hlen. reflexivity.
    + unfold last_parent in *. destruct chain as [|c chain]; [reflexivity|exact Htup].
Qed.

(** X4.  At most four levels of nesting are classified: an object inside
    [n] nested lists gets [n] times the prefix "iterable-" before its
    class name when [n] is at most 4, and an [AssertionError] when the
    nesting is deeper. *)
Theorem classification_nesting_limit :
  forall h n cls fields,
    estimate_normalization_type h (S n) (nest n (VObj cls fields))
    = if n <=? 4
      then Ret (String.concat "" (repeat "iterable-" n) ++ cls)%string
      else Raise (AssertionError "").
Proof.
  intros h n cls fields.
  destruct (find_first_nonempty_nest h cls fields n []) as (chain & Hf & Hlen & Htup).
  unfold estimate_normalization_type. rewrite Hf. cbn [bind app].
  unfold _nonempty_info_to_type_str. rewrite Hlen, Htup.
  destruct (n <=? 4) eqn:E; cbn [py_assert bind]; [|reflexivity].
  rewrite andb_false_r. cbn [negb].
  apply Nat.leb_le in E.
  destruct n as [|[|[|[|[|n]]]]]; try lia; reflexivity.
Qed.

Lemma lstrip_tuple_name s :
  lstrip "-" (join "-" [""; ("tuple[number,size=" ++ s)%string])
  = ("tuple[number,size=" ++ s)%string.
Proof. reflexivity. Qed.

Lemma find_first_nonempty_number_tuple h fuel x nums ps :
  is_single_number x = true ->
  find_first_nonempty h (S (S fuel)) (VTuple (x :: nums)) ps
  = Ret (x, true, ps ++ [VTuple (x :: nums)]).
Proof.
  intros Hx. destruct x; try discriminate Hx. reflexivity.
Qed.

Lemma estimate_number_tuple h fuel nums :
  nums <> [] -> forallb is_single_number nums = true ->
  estimate_normalization_type h (S (S fuel)) (VTuple nums)
  = Ret ("tuple[number,size=" ++ fmt_d (length nums) ++ "]")%string.
Proof.
  intros Hne Hall. destruct nums as [|x nums]; [congruence|].
  unfold estimate_normalization_type.
  rewrite find_first_nonempty_number_tuple
    by (cbn [forallb] in Hall; apply andb_prop in Hall; apply Hall).
  cbn [bind app]. unfold _nonempty_info_to_type_str, last_parent.
  cbn [length last Nat.leb py_assert bind negb is_tuple seq_items andb Nat.ltb].
  rewrite Hall. cbn [andb Nat.sub repeat]. reflexivity.
Qed.

(** X5.  A non-empty tuple made of plain numbers only is classified by
    its size, as "tuple[number,size=N]", and a list whose first element is
    such a tuple as "iterable-tuple[number,size=N]": a coordinate tuple is
    one leaf, not a sequence of numbers. *)
Theorem number_tuple_classified_by_size :
  forall h fuel nums rest,
    nums <> [] ->
    Forall (fun v => is_single_number v = true) nums ->
    estimate_normalization_type h (S (S fuel)) (VTuple nums)
    = Ret ("tuple[number,size=" ++ fmt_d (length nums) ++ "]")%string
    /\ estimate_normalization_type h (S (S (S fuel))) (VList (VTuple nums :: rest))
       = Ret ("iterable-tuple[number,size=" ++ fmt_d (length nums) ++ "]")%string.
Proof.
  intros h fuel nums rest Hne Hall.
  assert (Hb : forallb is_single_number nums = true)
    by (apply forallb_forall; intros v Hv; rewrite Forall_forall in Hall; auto).
  split; [apply estimate_number_tuple; assumption|].
  destruct nums as [|x nums]; [congruence|].
  unfold estimate_normalization_type. rewrite find_first_nonempty_eq.
  cbn [is_none is_np_array is_iterable is_string orb andb negb seq_items].
  rewrite is_not_inline_list. cbn [first_nonempty_loop].
  rewrite find_first_nonempty_number_tuple
    by (cbn [forallb] in Hb; apply andb_prop in Hb; apply Hb).
  cbn [bind app]. unfold _nonempty_info_to_type_str, last_parent.
  cbn [length last Nat.leb py_assert bind negb is_tuple seq_items andb Nat.ltb].
  rewrite Hb. cbn [andb Nat.sub repeat]. reflexivity.
Qed.

Lemma number_tuple_classified_by_size_witness :
  estimate_normalization_type [] 2 (VTuple [VNum PyInt 3%Z; VNum PyFloat 4%Z; VNum PyInt 5%Z])
  = Ret "tuple[number,size=3]"
  /\ estimate_normalization_type [] 3
       (VList [VTuple [VNum PyInt 3%Z; VNum PyFloat 4%Z; VNum PyInt 5%Z]; VNone])
     = Ret "iterable-tuple[number,size=3]".
Proof.
  apply (number_tuple_classified_by_size [] 0
           [VNum PyInt 3%Z; VNum PyFloat 4%Z; VNum PyInt 5%Z] [VNone]).
  - discriminate.
  - repeat constructor.
Defined.

(** ** Coordinate tuples of the wrong size *)

Lemma fmt_d_is_2 n : (fmt_d n ++ "]")%string = "2]" -> n = 2.
Proof.
  unfold fmt_d. intros H. rewrite <- (Unsigned.of_to n).
  destruct (Nat.to_uint n) as [|d|d|d|d|d|d|d|d|d|d]; cbn in H; try discriminate H.
  destruct d; cbn in H; try discriminate H. reflexivity.
Qed.

Lemma fmt_d_is_4 n : (fmt_d n ++ "]")%string = "4]" -> n = 4.
Proof.
  unfold fmt_d. intros H. rewrite <- (Unsigned.of_to n).
  destruct (Nat.to_uint n) as [|d|d|d|d|d|d|d|d|d|d]; cbn in H; try discriminate H.
  destruct d; cbn in H; try discriminate H. reflexivity.
Qed.

Lemma tuple_size_not_keypoint n :
  n <> 2 ->
  str_in ("tuple[number,size=" ++ fmt_d n ++ "]") keypoints_valid_type_strs = false.
Proof.
  intros Hn. unfold keypoints_valid_type_strs.
  cbn [str_in existsb String.eqb Ascii.eqb Bool.eqb append orb andb].
  destruct (String.eqb (fmt_d n ++ "]") "2]") eqn:E; [|reflexivity].
  apply String.eqb_eq in E. apply fmt_d_is_2 in E. contradiction.
Qed.

Lemma tuple_size_not_bounding_box n :
  n <> 4 ->
  str_in ("tuple[number,size=" ++ fmt_d n ++ "]") bounding_boxes_valid_type_strs = false.
Proof.
  intros Hn. unfold bounding_boxes_valid_type_strs.
  cbn [str_in existsb String.eqb Ascii.eqb Bool.eqb append orb andb].
  destruct (String.eqb (fmt_d n ++ "]") "4]") eqn:E; [|reflexivity].
  apply String.eqb_eq in E. apply fmt_d_is_4 in E. contradiction.
Qed.

(** X6.  A tuple of plain numbers is accepted as one keypoint only when it
    has two elements and as one bounding box only when it has four: for
    any other size [normalize_keypoints], respectively
    [normalize_bounding_boxes], raises the [AssertionError] of
    [_assert_is_of_norm_type], whose message lists the accepted forms and
    ends with the form that was found. *)
Theorem number_tuple_of_wrong_size_is_rejected :
  forall h fuel nums shapes s,
    _preprocess_shapes h shapes = Ret s ->
    nums <> [] ->
    Forall (fun v => is_single_number v = true) nums ->
    (length nums <> 2 ->
     normalize_keypoints h (S (S fuel)) (VTuple nums) shapes
     = Raise (AssertionError
                ("Got an unknown datatype for argument 'keypoints'. "
                 ++ "Expected datatypes were: "
                 ++ join ", " keypoints_valid_type_strs
                 ++ ". Got: " ++ ("tuple[number,size=" ++ fmt_d (length nums) ++ "]")
                 ++ ".")))
    /\ (length nums <> 4 ->
        normalize_bounding_boxes h (S (S fuel)) (VTuple nums) shapes
        = Raise (AssertionError
                   ("Got an unknown datatype for argument 'bounding_boxes'. "
                    ++ "Expected datatypes were: "
                    ++ join ", " bounding_boxes_valid_type_strs
                    ++ ". Got: " ++ ("tuple[number,size=" ++ fmt_d (length nums) ++ "]")
                 ++ "."))).
Proof.
  intros h fuel nums shapes s Hs Hne Hall.
  assert (Hb : forallb is_single_number nums = true)
    by (apply forallb_forall; intros v Hv; rewrite Forall_forall in Hall; auto).
  pose proof (estimate_number_tuple h fuel nums Hne Hb) as He.
  split; intros Hlen.
  - unfold normalize_keypoints, estimate_keypoints_norm_type, _assert_is_of_norm_type.
    rewrite Hs, He. cbn [bind].
    rewrite (tuple_size_not_keypoint _ Hlen). cbn [py_assert bind]. reflexivity.
  - unfold normalize_bounding_boxes, estimate_bounding_boxes_norm_type,
      _assert_is_of_norm_type.
    rewrite Hs, He. cbn [bind].
    rewrite (tuple_size_not_bounding_box _ Hlen). cbn [py_assert bind]. reflexivity.
Qed.

Lemma number_tuple_of_wrong_size_is_rejected_witness :
  normalize_keypoints [] 2 (VTuple [VNum PyInt 1%Z; VNum PyInt 2%Z; VNum PyInt 3%Z]) VNone
  = Raise (AssertionError
             ("Got an unknown datatype for argument 'keypoints'. "
              ++ "Expected datatypes were: "
              ++ join ", " keypoints_valid_type_strs
              ++ ". Got: " ++ ("tuple[number,size=" ++ fmt_d 3 ++ "]") ++ ".")).
Proof.
  apply (number_tuple_of_wrong_size_is_rejected [] 0
           [VNum PyInt 1%Z; VNum PyInt 2%Z; VNum PyInt 3%Z] VNone None).
  - reflexivity.
  - discriminate.
  - repeat constructor.
  - cbn. lia.
Defined.

(** ** Forms outside the whitelist, and forms that need shapes *)

Lemma str_in_In x l : str_in x l = true -> In x l.
Proof.
  unfold str_in. intros H. apply existsb_exists in H.
  destruct H as (y & Hy & E). apply String.eqb_eq in E. subst y. exact Hy.
Qed.

Ltac split_str_in H :=
  unfold str_in in H; cbn [existsb] in H;
  repeat (apply orb_false_elim in H; let E := fresh "E" in destruct H as [E H]).

Ltac use_eqb_false :=
  cbn [str_in existsb];
  repeat match goal with
         | E : String.eqb ?t ?s = false |- context [String.eqb ?t ?s] => rewrite E
         end;
  cbn [orb].

(** X7.  The bounding-box inverse classifies the old input without a
    whitelist: for an old input of a form the bounding-box whitelist does
    not hold, [invert_normalize_bounding_boxes] falls through to its last
    [assert] and raises an [AssertionError] without a message, where
    [normalize_bounding_boxes] raises the one that names the form. *)
Theorem invert_normalize_bounding_boxes_unlisted_form :
  forall h fuel bounding_boxes old shapes s t,
    estimate_normalization_type h fuel old = Ret t ->
    str_in t bounding_boxes_valid_type_strs = false ->
    _preprocess_shapes h shapes = Ret s ->
    invert_normalize_bounding_boxes h fuel bounding_boxes old
    = Raise (AssertionError "")
    /\ normalize_bounding_boxes h fuel old shapes
       = Raise (AssertionError
                  ("Got an unknown datatype for argument 'bounding_boxes'. "
                   ++ "Expected datatypes were: "
                   ++ join ", " bounding_boxes_valid_type_strs
                   ++ ". Got: " ++ t ++ ".")).
Proof.
  intros h fuel bounding_boxes old shapes s t He Hin Hs. split.
  - unfold bounding_boxes_valid_type_strs in Hin. split_str_in Hin.
    unfold invert_normalize_bounding_boxes. rewrite He. cbn [bind].
    use_eqb_false. reflexivity.
  - unfold normalize_bounding_boxes, estimate_bounding_boxes_norm_type,
      _assert_is_of_norm_type.
    rewrite Hs, He. cbn [bind]. rewrite Hin. reflexivity.
Qed.

Lemma invert_normalize_bounding_boxes_unlisted_form_witness :
  invert_normalize_bounding_boxes [] 2 VNone (VTuple [VNum PyInt 1%Z; VNum PyInt 2%Z])
  = Raise (AssertionError "")
  /\ normalize_bounding_boxes [] 2 (VTuple [VNum PyInt 1%Z; VNum PyInt 2%Z]) VNone
     = Raise (AssertionError
                ("Got an unknown datatype for argument 'bounding_boxes'. "
                 ++ "Expected datatypes were: "
                 ++ join ", " bounding_boxes_valid_type_strs
                 ++ ". Got: " ++ "tuple[number,size=2]" ++ ".")).
Proof.
  apply (invert_normalize_bounding_boxes_unlisted_form [] 2 VNone
           (VTuple [VNum PyInt 1%Z; VNum PyInt 2%Z]) VNone None "tuple[number,size=2]");
    reflexivity.
Defined.

(** X8.  Bounding boxes and polygons that are not given as on-image
    containers need the image shapes: for every accepted form other than
    [None], an empty sequence and (sequences of) on-image containers,
    [normalize_bounding_boxes] and [normalize_polygons] called without
    shapes fail their [assert shapes is not None] with an
    [AssertionError] that has no message. *)
Theorem normalize_without_shapes_fails_assertion :
  forall h fuel inputs t,
    estimate_normalization_type h fuel inputs = Ret t ->
    (str_in t bounding_boxes_valid_type_strs = true ->
     str_in t ["None"; "BoundingBoxesOnImage"; "iterable[empty]";
               "iterable-BoundingBoxesOnImage"; "iterable-iterable[empty]"] = false ->
     normalize_bounding_boxes h fuel inputs VNone = Raise (AssertionError ""))
    /\ (str_in t polygons_valid_type_strs = true ->
        str_in t ["None"; "PolygonsOnImage"; "iterable[empty]";
                  "iterable-PolygonsOnImage"; "iterable-iterable[empty]";
                  "iterable-iterable-iterable[empty]"] = false ->
        normalize_polygons h fuel inputs VNone = Raise (AssertionError "")).
Proof.
  intros h fuel inputs t He. split; intros Hin Hout.
  - unfold normalize_bounding_boxes, estimate_bounding_boxes_norm_type,
      _assert_is_of_norm_type.
    rewrite He. cbn [_preprocess_shapes is_none bind]. rewrite Hin.
    cbn [py_assert bind]. apply str_in_In in Hin.
    unfold bounding_boxes_valid_type_strs in Hin. cbn [In] in Hin.
    repeat (destruct Hin as [<- | Hin]); try discriminate Hout;
      try contradiction; reflexivity.
  - unfold normalize_polygons, estimate_polygons_norm_type, _assert_is_of_norm_type.
    rewrite He. cbn [_preprocess_shapes is_none bind]. rewrite Hin.
    cbn [py_assert bind]. apply str_in_In in Hin.
    unfold polygons_valid_type_strs in Hin. cbn [In] in Hin.
    repeat (destruct Hin as [<- | Hin]); try discriminate Hout;
      try contradiction; reflexivity.
Qed.

Lemma normalize_without_shapes_fails_assertion_witness :
  normalize_bounding_boxes [] 1 bounding_boxes_batch VNone = Raise (AssertionError "")
  /\ normalize_polygons [] 2 (VList [VObj "Polygon" []]) VNone
     = Raise (AssertionError "").
Proof.
  split.
  - apply (proj1 (normalize_without_shapes_fails_assertion [] 1 bounding_boxes_batch
                    "array[int]" eq_refl)); reflexivity.
  - apply (proj2 (normalize_without_shapes_fails_assertion [] 2
                    (VList [VObj "Polygon" []]) "iterable-Polygon" eq_refl));
      reflexivity.
Defined.

(** ** Image shapes *)

Lemma map_const_repeat {A B} (c : B) (l : list A) :
  map (fun _ => c) l = repeat c (length l).
Proof. induction l as [|x l IH]; cbn; [reflexivity|]. rewrite IH. reflexivity. Qed.

Lemma preprocess_shapes_array h a :
  _preprocess_shapes h (VArr a)
  = if Nat.eqb (ndim a) 3 || Nat.eqb (ndim a) 4
    then Ret (Some (repeat (shape_tuple (tl (shape a))) (hd 0 (shape a))))
    else Raise (AssertionError "").
Proof.
  destruct a as [dt sh d]. unfold _preprocess_shapes, ndim.
  cbn [is_none is_np_array py_ndim get_array bind shape].
  unfold ndim. cbn [shape].
  destruct (Nat.eqb (length sh) 3 || Nat.eqb (length sh) 4) eqn:E;
    cbn [py_assert bind]; [|reflexivity].
  destruct sh as [|n [|m sh]]; try discriminate E.
  cbn [py_iter subarrays shape dtype_of data bind hd tl].
  rewrite mapM_map.
  rewrite (mapM_ret _ (fun _ => shape_tuple (m :: sh))) by reflexivity.
  cbn [bind]. rewrite map_const_repeat, chunks_length. reflexivity.
Qed.

(** X9.  When the images themselves are passed as [shapes], as one array
    of rank 3 or 4, [_preprocess_shapes] returns one shape per image, each
    the shape of the array without its first axis; an array of any other
    rank fails the [assert shapes.ndim in [3, 4]]. *)
Theorem preprocess_shapes_of_image_array :
  forall h a,
    _preprocess_shapes h (VArr a)
    = if Nat.eqb (ndim a) 3 || Nat.eqb (ndim a) 4
      then Ret (Some (repeat (shape_tuple (tl (shape a))) (hd 0 (shape a))))
      else Raise (AssertionError "").
Proof.
  intros h a. apply preprocess_shapes_array.
Qed.

Lemma mapM_inv {A B} (f : A -> outcome B) l rs :
  mapM f l = Ret rs -> Forall2 (fun x r => f x = Ret r) l rs.
Proof.
  revert rs. induction l as [|x l IH]; intros rs H; cbn [mapM] in H.
  - inversion H. constructor.
  - destruct (f x) as [y| |] eqn:Ex; cbn [bind] in H; try discriminate H.
    destruct (mapM f l) as [ys| |]; cbn [bind] in H; try discriminate H.
    inversion H; subst. constructor; [exact Ex|]. apply IH. reflexivity.
Qed.

Lemma mapM_fixed {A} (f : A -> outcome A) l :
  Forall (fun x => f x = Ret x) l -> mapM f l = Ret l.
Proof.
  induction 1 as [|x l Hx _ IH]; cbn [mapM]; [reflexivity|].
  rewrite Hx. cbn [bind]. rewrite IH. reflexivity.
Qed.

Lemma Forall2_length_eq {A B} (R : A -> B -> Prop) l rs :
  Forall2 R l rs -> length l = length rs.
Proof. induction 1; cbn; congruence. Qed.

Lemma Forall2_right {A B} (R : A -> B -> Prop) (P : B -> Prop) l rs :
  (forall x r, R x r -> P r) -> Forall2 R l rs -> Forall P rs.
Proof. intros HP. induction 1; constructor; eauto. Qed.

Lemma repeat_Forall {A} (P : A -> Prop) c n : P c -> Forall P (repeat c n).
Proof. intros Hc. induction n; cbn; constructor; assumption. Qed.

(** X10.  The list of shapes [_preprocess_shapes] returns holds tuples
    only, one per image passed, and is a fixed point: handing the result
    in as [shapes] gives the same list back. *)
Theorem preprocess_shapes_is_idempotent :
  forall h shapes result,
    _preprocess_shapes h shapes = Ret (Some result) ->
    Forall (fun s => is_tuple h s = true) result
    /\ py_len h shapes = Ret (length result)
    /\ _preprocess_shapes h (VList result) = Ret (Some result).
Proof.
  intros h shapes result H.
  assert (Hfix : Forall (fun s => is_tuple h s = true) result ->
                 _preprocess_shapes h (VList result) = Ret (Some result)).
  { intros Ht. unfold _preprocess_shapes.
    cbn [is_none is_np_array is_list py_assert bind py_iter seq_items].
    rewrite mapM_fixed; [reflexivity|].
    eapply Forall_impl; [|exact Ht]. cbn beta. intros s Hs. rewrite Hs. reflexivity. }
  destruct shapes as [| | | |a|items|items|addr|];
    try (unfold _preprocess_shapes in H; cbn in H; discriminate H).
  - rewrite preprocess_shapes_array in H.
    destruct (Nat.eqb (ndim a) 3 || Nat.eqb (ndim a) 4) eqn:E; [|discriminate H].
    inversion H; subst result. clear H.
    assert (Ht : Forall (fun s => is_tuple h s = true)
                   (repeat (shape_tuple (tl (shape a))) (hd 0 (shape a))))
      by (apply repeat_Forall; reflexivity).
    split; [exact Ht|]. split; [|apply Hfix; exact Ht].
    rewrite repeat_length. destruct a as [dt [|n sh] d]; [discriminate E|reflexivity].
  - unfold _preprocess_shapes in H.
    cbn [is_none is_np_array is_list py_assert bind py_iter seq_items] in H.
    destruct (mapM _ items) as [r| |] eqn:Em; cbn [bind] in H; try discriminate H.
    inversion H; subst r. clear H. apply mapM_inv in Em.
    assert (Ht : Forall (fun s => is_tuple h s = true) result).
    { eapply Forall2_right; [|exact Em]. cbn beta. intros x r Hx.
      destruct (is_tuple h x) eqn:Et; [inversion Hx; subst; exact Et|].
      destruct x; cbn in Hx; try discriminate Hx. inversion Hx. reflexivity. }
    split; [exact Ht|]. split; [|apply Hfix; exact Ht].
    cbn [py_len seq_items]. rewrite (Forall2_length_eq _ _ _ Em). reflexivity.
  - unfold _preprocess_shapes in H.
    cbn [is_none is_np_array bind] in H.
    destruct (is_list h (VRef addr)) eqn:El; cbn [py_assert bind] in H;
      [|discriminate H].
    cbn [py_iter py_len] in *.
    destruct (seq_items h (VRef addr)) as [items|] eqn:Es; cbn [bind] in H;
      [|discriminate H].
    destruct (mapM _ items) as [r| |] eqn:Em; cbn [bind] in H; try discriminate H.
    inversion H; subst r. clear H. apply mapM_inv in Em.
    assert (Ht : Forall (fun s => is_tuple h s = true) result).
    { eapply Forall2_right; [|exact Em]. cbn beta. intros x r Hx.
      destruct (is_tuple h x) eqn:Et; [inversion Hx; subst; exact Et|].
      destruct x; cbn in Hx; try discriminate Hx. inversion Hx. reflexivity. }
    split; [exact Ht|]. split; [|apply Hfix; exact Ht].
    rewrite (Forall2_length_eq _ _ _ Em). reflexivity.
Qed.

Lemma preprocess_shapes_is_idempotent_witness :
  Forall (fun s => is_tuple [] s = true)
         [VTuple [VNum PyInt 4%Z; VNum PyInt 6%Z]; shape_tuple [2; 3; 1]]
  /\ py_len [] (VList [VTuple [VNum PyInt 4%Z; VNum PyInt 6%Z];
                       VArr (mk_array uint8 [2; 3; 1] [1; 2; 3; 4; 5; 6]%Z)])
     = Ret 2
  /\ _preprocess_shapes []
       (VList [VTuple [VNum PyInt 4%Z; VNum PyInt 6%Z]; shape_tuple [2; 3; 1]])
     = Ret (Some [VTuple [VNum PyInt 4%Z; VNum PyInt 6%Z]; shape_tuple [2; 3; 1]]).
Proof.
  apply (preprocess_shapes_is_idempotent []
           (VList [VTuple [VNum PyInt 4%Z; VNum PyInt 6%Z];
                   VArr (mk_array uint8 [2; 3; 1] [1; 2; 3; 4; 5; 6]%Z)])).
  reflexivity.
Defined.

(** ** Nothing to normalize, and containers handed in as they are *)

(** X11.  In all five forward maps, [None], the empty list and the empty
    tuple are normalized to [None], with any well-formed [shapes]
    argument: the number of shapes is not checked when there is nothing
    to normalize. *)
Theorem normalize_nothing_gives_none :
  forall d h fuel shapes s,
    _preprocess_shapes h shapes = Ret s ->
    normalize d h (S fuel) VNone shapes = Ret VNone
    /\ normalize d h (S fuel) (VList []) shapes = Ret VNone
    /\ normalize d h (S fuel) (VTuple []) shapes = Ret VNone.
Proof.
  intros d h fuel shapes s Hs.
  destruct d; unfold normalize, normalize_heatmaps, normalize_segmentation_maps,
    normalize_keypoints, normalize_bounding_boxes, normalize_polygons;
    rewrite Hs; repeat split; reflexivity.
Qed.

Lemma normalize_nothing_gives_none_witness :
  normalize Keypoints [] 1 VNone (VList [image_shape; image_shape]) = Ret VNone
  /\ normalize Keypoints [] 1 (VList []) (VList [image_shape; image_shape]) = Ret VNone
  /\ normalize Keypoints [] 1 (VTuple []) (VList [image_shape; image_shape]) = Ret VNone.
Proof.
  apply (normalize_nothing_gives_none Keypoints [] 0 (VList [image_shape; image_shape])
           (Some [image_shape; image_shape])).
  reflexivity.
Defined.

(** X12.  In all five forward maps, one on-image container is wrapped in a
    one-element list, and a list that starts with an on-image container
    is returned as it is; in both cases the shapes passed are neither
    required nor counted, and the elements after the first are not
    looked at. *)
Theorem normalize_containers_pass_through :
  forall d h fuel fields rest shapes s,
    _preprocess_shapes h shapes = Ret s ->
    normalize d h (S fuel) (VObj (container_class d) fields) shapes
    = Ret (VList [VObj (container_class d) fields])
    /\ normalize d h (S (S fuel)) (VList (VObj (container_class d) fields :: rest)) shapes
       = Ret (VList (VObj (container_class d) fields :: rest)).
Proof.
  intros d h fuel fields rest shapes s Hs.
  destruct d; unfold normalize, normalize_heatmaps, normalize_segmentation_maps,
    normalize_keypoints, normalize_bounding_boxes, normalize_polygons;
    rewrite Hs; split; reflexivity.
Qed.

Lemma normalize_containers_pass_through_witness :
  normalize Polygons [] 1 (VObj (container_class Polygons) [VList []; image_shape]) VNone
  = Ret (VList [VObj (container_class Polygons) [VList []; image_shape]])
  /\ normalize Polygons [] 2
       (VList (VObj (container_class Polygons) [VList []; image_shape] :: [VNone])) VNone
     = Ret (VList (VObj (container_class Polygons) [VList []; image_shape] :: [VNone])).
Proof.
  apply (normalize_containers_pass_through Polygons [] 0 [VList []; image_shape]
           [VNone] VNone None).
  reflexivity.
Defined.

(** ** The inverse maps: what is asserted of the normalized data *)

(** X13.  In all five inverse maps, when the old input was [None] the
    normalized data must be [None] and [None] is returned; when the old
    input was an empty list the normalized data must be [None] and a new
    empty list is returned; normalized data other than [None] fails the
    [assert]. *)
Theorem invert_normalize_nothing :
  forall d h fuel canonical,
    invert_normalize d h (S fuel) canonical VNone
    = (if is_none canonical then Ret VNone else Raise (AssertionError ""))
    /\ invert_normalize d h (S fuel) canonical (VList [])
       = (if is_none canonical then Ret (VList []) else Raise (AssertionError "")).
Proof.
  intros d h fuel canonical.
  destruct d; split; destruct canonical; reflexivity.
Qed.

(** X14.  In all five inverse maps, when the old input was one on-image
    container, the normalized data must be a list of exactly one element,
    and that element is what is returned: the result is the (augmented)
    normalized container, nothing of the old one. *)
Theorem invert_normalize_single_container :
  forall d h fuel items fields,
    invert_normalize d h (S fuel) (VList items) (VObj (container_class d) fields)
    = match items with
      | [x] => Ret x
      | _ => Raise (AssertionError "")
      end.
Proof.
  intros d h fuel items fields.
  destruct d; destruct items as [|x [|y items]]; reflexivity.
Qed.

(** X15.  For an old input that was one array of heatmaps or of
    segmentation maps, the inverse asserts that there are as many
    normalized containers as the old array had entries along its first
    axis; any other number fails the [assert]. *)
Theorem invert_normalize_maps_count_mismatch :
  forall h fuel a n sh items,
    shape a = n :: sh ->
    length items <> n ->
    (kind (dtype_of a) = "f" ->
     invert_normalize_heatmaps h (S fuel) (VList items) (VArr a)
     = Raise (AssertionError ""))
    /\ (kind (dtype_of a) = "i" \/ kind (dtype_of a) = "u" \/ kind (dtype_of a) = "b" ->
        invert_normalize_segmentation_maps h (S fuel) (VList items) (VArr a)
        = Raise (AssertionError "")).
Proof.
  intros h fuel [[k sz] sh0 dat] n sh items Hsh Hlen. cbn [shape dtype_of kind] in *.
  subst sh0. apply Nat.eqb_neq in Hlen.
  split.
  - intros ->. unfold invert_normalize_heatmaps, estimate_heatmaps_norm_type,
      estimate_normalization_type.
    cbn. rewrite Hlen. reflexivity.
  - intros [-> | [-> | ->]];
      unfold invert_normalize_segmentation_maps, estimate_segmaps_norm_type,
        estimate_normalization_type; cbn; rewrite Hlen; reflexivity.
Qed.

Lemma invert_normalize_maps_count_mismatch_witness :
  invert_normalize_heatmaps [] 1 (VList [VNone]) heatmaps_batch
  = Raise (AssertionError "").
Proof.
  apply (proj1 (invert_normalize_maps_count_mismatch [] 0
                  (mk_array float32 [2; 1; 2; 1] [0; 1; 1; 0]%Z) 2 [1; 2; 1] [VNone]
                  eq_refl ltac:(cbn; lia))).
  reflexivity.
Defined.

(** X16.  For an old input classified as "iterable-iterable-iterable[empty]"
    the polygon inverse returns a copy of the old input whatever the
    normalized data is; for "iterable-iterable[empty]" it first asserts
    that the normalized data is [None]. *)
Theorem invert_normalize_polygons_nested_empty :
  forall h fuel polygons old,
    (estimate_normalization_type h fuel old = Ret "iterable-iterable-iterable[empty]" ->
     invert_normalize_polygons h fuel polygons old = py_copy h old)
    /\ (estimate_normalization_type h fuel old = Ret "iterable-iterable[empty]" ->
        invert_normalize_polygons h fuel polygons old
        = if is_none polygons then py_copy h old else Raise (AssertionError "")).
Proof.
  intros h fuel polygons old. split; intros He;
    unfold invert_normalize_polygons, estimate_polygons_norm_type;
    rewrite He; [reflexivity|].
  destruct polygons; reflexivity.
Qed.

Lemma invert_normalize_polygons_nested_empty_witness :
  invert_normalize_polygons [] 3 (VStr "anything") (VList [VList [VList []]])
  = Ret (VList [VList [VList []]])
  /\ invert_normalize_polygons [] 3 (VStr "anything") (VList [VList []])
     = Raise (AssertionError "").
Proof.
  split.
  - apply (proj1 (invert_normalize_polygons_nested_empty [] 3 (VStr "anything")
                    (VList [VList [VList []]]))).
    reflexivity.
  - apply (proj2 (invert_normalize_polygons_nested_empty [] 3 (VStr "anything")
                    (VList [VList []]))).
    reflexivity.
Defined.

(** ** Restoring dtypes: what comes back *)

Lemma mapM_get_array_fails pre x post :
  get_array x = Raise AttributeError ->
  mapM get_array (pre ++ x :: post) = Raise AttributeError.
Proof.
  intros Hx. induction pre as [|p pre IH]; cbn [app mapM].
  - rewrite Hx. reflexivity.
  - destruct p; cbn [get_array bind]; try reflexivity. rewrite IH. reflexivity.
Qed.

(** X17.  A list is merged only if each of its members restores to an
    array.  A member that is itself a list and stays one, because its own
    members differ in shape or because it is empty, has no shape: once all
    members are restored, reading the shapes fails with an
    [AttributeError]. *)
Theorem restore_dtype_and_merge_ragged_member :
  forall h fuel pre inner post dt rs outs,
    Forall2 (fun v r => restore_dtype_and_merge h fuel v dt = Ret (VArr r)) inner rs ->
    one_shape (map shape rs) = false ->
    Forall2 (fun v r => restore_dtype_and_merge h (S fuel) v dt = Ret r)
            (pre ++ post) outs ->
    restore_dtype_and_merge h (S (S fuel)) (VList (pre ++ VList inner :: post)) dt
    = Raise AttributeError.
Proof.
  intros h fuel pre inner post dt rs outs Hin Hshape Hout.
  apply Forall2_app_inv_l in Hout.
  destruct Hout as (opre & opost & Hpre & Hpost & ->).
  pose proof (restore_dtype_and_merge_list h fuel inner rs dt Hin) as Hinner.
  rewrite Hshape in Hinner.
  rewrite restore_dtype_and_merge_eq.
  cbn [is_list py_iter seq_items bind].
  rewrite (mapM_Forall2 _ _ (opre ++ VList (map VArr rs) :: opost)).
  2:{ apply Forall2_app; [exact Hpre|]. constructor; [exact Hinner|exact Hpost]. }
  cbn [bind]. rewrite mapM_get_array_fails by reflexivity. reflexivity.
Qed.

Lemma restore_dtype_and_merge_ragged_member_witness :
  restore_dtype_and_merge [] 3
    (VList ([VList [VArr (mk_array float32 [2] [1; 2]%Z)]]
            ++ VList [VArr (mk_array float32 [2] [1; 2]%Z);
                      VArr (mk_array float32 [3] [1; 2; 3]%Z)]
            :: [])) uint8
  = Raise AttributeError.
Proof.
  apply (restore_dtype_and_merge_ragged_member [] 1
           [VList [VArr (mk_array float32 [2] [1; 2]%Z)]]
           [VArr (mk_array float32 [2] [1; 2]%Z); VArr (mk_array float32 [3] [1; 2; 3]%Z)]
           [] uint8
           [mk_array uint8 [2] [1; 2]%Z; mk_array uint8 [3] [1; 2; 3]%Z]
           [VArr (mk_array uint8 [1; 2] [1; 2]%Z)]).
  - repeat constructor.
  - reflexivity.
  - repeat constructor.
Defined.




(** ** Images: normalizing twice, uneven lists, wrong ranks *)

Lemma length_add_last_axis a : ndim (add_last_axis a) = S (ndim a).
Proof. unfold ndim, add_last_axis. cbn [shape]. rewrite length_app. cbn. lia. Qed.

(** X19.  [normalize_images] is idempotent: whatever it returns is
    returned unchanged when it is normalized again. *)
Theorem normalize_images_is_idempotent :
  forall h images normalized,
    normalize_images h images = Ret normalized ->
    normalize_images h normalized = Ret normalized.
Proof.
  intros h images normalized H. unfold normalize_images in H.
  destruct (is_none images) eqn:En.
  { inversion H. reflexivity. }
  destruct (is_np_array images) eqn:Ea.
  { destruct images as [| | | |a| | | |]; try discriminate Ea.
    cbn [get_array bind] in H.
    destruct (Nat.eqb (ndim a) 2) eqn:E2.
    - inversion H. apply Nat.eqb_eq in E2.
      unfold normalize_images. cbn [is_none is_np_array get_array bind].
      unfold ndim, add_outer_axes in *. cbn [shape length] in *.
      rewrite length_app, E2. reflexivity.
    - destruct (Nat.eqb (ndim a) 3) eqn:E3.
      + inversion H. apply Nat.eqb_eq in E3.
        unfold normalize_images. cbn [is_none is_np_array get_array bind].
        rewrite length_add_last_axis, E3. reflexivity.
      + inversion H; subst. unfold normalize_images.
        cbn [is_none is_np_array get_array bind]. rewrite E2, E3. reflexivity. }
  destruct (is_iterable h images); [|discriminate H].
  destruct (py_iter h images) as [l| |]; cbn [bind] in H; try discriminate H.
  destruct (mapM _ l) as [result| |] eqn:Em; cbn [bind] in H; try discriminate H.
  inversion H; subst normalized. clear H. apply mapM_inv in Em.
  unfold normalize_images. cbn [is_none is_np_array is_iterable py_iter seq_items bind].
  rewrite mapM_fixed; [reflexivity|].
  eapply Forall2_right; [|exact Em]. cbn beta. intros image r Hr.
  destruct image as [| | | |a| | | |]; try discriminate Hr.
  cbn [py_ndim get_array bind] in Hr.
  destruct (Nat.eqb (ndim a) 2) eqn:E2.
  - inversion Hr. apply Nat.eqb_eq in E2. cbn [py_ndim get_array bind].
    rewrite length_add_last_axis, E2. reflexivity.
  - destruct (Nat.eqb (ndim a) 3) eqn:E3; cbn [py_assert bind] in Hr;
      [|discriminate Hr].
    inversion Hr; subst. cbn [py_ndim get_array bind]. rewrite E2, E3. reflexivity.
Qed.

Lemma normalize_images_is_idempotent_witness :
  normalize_images [] (VArr (mk_array uint8 [1; 2; 2; 1] [1; 2; 3; 4]%Z))
  = Ret (VArr (mk_array uint8 [1; 2; 2; 1] [1; 2; 3; 4]%Z)).
Proof.
  apply (normalize_images_is_idempotent []
           (VArr (mk_array uint8 [2; 2] [1; 2; 3; 4]%Z))).
  reflexivity.
Defined.

Lemma map_fst_combine_firstn {A B} (l : list A) (l' : list B) :
  map fst (combine l l') = firstn (length l') l.
Proof.
  revert l'. induction l as [|x l IH]; intros [|y l']; cbn; try reflexivity.
  rewrite IH. reflexivity.
Qed.

(** X20.  For lists of images the inverse pairs the normalized images
    with the old ones by [zip] and does not compare the two lengths: with
    rank-3 images on both sides it returns the normalized images that
    have a partner, and silently drops the rest. *)
Theorem invert_normalize_images_uneven_lists :
  forall h images images_old,
    Forall (fun a => ndim a = 3) images ->
    Forall (fun a => ndim a = 3) images_old ->
    invert_normalize_images h (VList (map VArr images)) (VList (map VArr images_old))
    = Ret (VList (map VArr (firstn (length images_old) images))).
Proof.
  intros h images images_old Hi Ho. unfold invert_normalize_images.
  cbn [is_none is_np_array is_iterable py_iter seq_items bind].
  rewrite (mapM_ret _ fst).
  - cbn [bind]. rewrite <- (length_map VArr images_old), <- firstn_map.
    rewrite map_fst_combine_firstn. reflexivity.
  - intros [image image_old] Hin.
    pose proof (in_combine_l _ _ _ _ Hin) as H1.
    pose proof (in_combine_r _ _ _ _ Hin) as H2.
    apply in_map_iff in H1. destruct H1 as (a & <- & Ha).
    apply in_map_iff in H2. destruct H2 as (b & <- & Hb).
    rewrite Forall_forall in Hi, Ho.
    cbn [py_ndim get_array bind fst]. rewrite (Hi _ Ha), (Ho _ Hb). reflexivity.
Qed.

Lemma invert_normalize_images_uneven_lists_witness :
  invert_normalize_images []
    (VList (map VArr [mk_array uint8 [1; 1; 1] [1]%Z; mk_array uint8 [1; 1; 1] [2]%Z]))
    (VList (map VArr [mk_array uint8 [1; 1; 1] [9]%Z]))
  = Ret (VList (map VArr (firstn (length [mk_array uint8 [1; 1; 1] [9]%Z])
                                 [mk_array uint8 [1; 1; 1] [1]%Z;
                                  mk_array uint8 [1; 1; 1] [2]%Z]))).
Proof.
  apply (invert_normalize_images_uneven_lists []
           [mk_array uint8 [1; 1; 1] [1]%Z; mk_array uint8 [1; 1; 1] [2]%Z]
           [mk_array uint8 [1; 1; 1] [9]%Z]); repeat constructor.
Defined.

(** X21.  In a list of images every member must have rank 2 or 3: at the
    first member of another rank [normalize_images] fails its [assert],
    without looking at the members after it.  An input that is neither
    [None], an array nor iterable raises the [ValueError] that names its
    type. *)
Theorem normalize_images_rejects :
  forall h pre b post x,
    Forall (fun a => ndim a = 2 \/ ndim a = 3) pre ->
    ndim b <> 2 -> ndim b <> 3 ->
    is_none x = false -> is_np_array x = false -> is_iterable h x = false ->
    normalize_images h (VList (map VArr pre ++ VArr b :: post))
    = Raise (AssertionError "")
    /\ normalize_images h x
       = Raise (ValueError
                  ("Expected argument 'images' to be any of the following: "
                   ++ "None or array or iterable of array. Got type: "
                   ++ type_repr h x ++ ".")).
Proof.
  intros h pre b post x Hpre H2 H3 Hn Ha Hi. split.
  - unfold normalize_images.
    cbn [is_none is_np_array is_iterable py_iter seq_items bind].
    match goal with |- bind ?m _ = _ => assert (Hm : m = Raise (AssertionError "")) end.
    { induction Hpre as [|a pre Hnd _ IH]; cbn [map app mapM].
      - cbn [py_ndim get_array bind].
        apply Nat.eqb_neq in H2. apply Nat.eqb_neq in H3. rewrite H2, H3. reflexivity.
      - cbn [py_ndim get_array bind].
        destruct Hnd as [E | E]; rewrite E; cbn [Nat.eqb py_assert bind];
          rewrite IH; reflexivity. }
    rewrite Hm. reflexivity.
  - unfold normalize_images. rewrite Hn, Ha, Hi. reflexivity.
Qed.

Lemma normalize_images_rejects_witness :
  normalize_images []
    (VList (map VArr [mk_array uint8 [1; 1] [5]%Z]
            ++ VArr (mk_array uint8 [1; 1; 1; 1] [5]%Z) :: [VStr "not looked at"]))
  = Raise (AssertionError "")
  /\ normalize_images [] (VNum PyInt 3%Z)
     = Raise (ValueError
                ("Expected argument 'images' to be any of the following: "
                 ++ "None or array or iterable of array. Got type: "
                 ++ type_repr [] (VNum PyInt 3%Z) ++ ".")).
Proof.
  apply (normalize_images_rejects [] [mk_array uint8 [1; 1] [5]%Z]
           (mk_array uint8 [1; 1; 1; 1] [5]%Z) [VStr "not looked at"] (VNum PyInt 3%Z));
    try reflexivity; try discriminate.
  repeat constructor.
Defined.

(** ** Coordinates: pairs in, pairs out *)

(** X22.  A list of [(x, y)] pairs handed to [normalize_keypoints] is read
    as the keypoints of one image, not as one keypoint per image: with
    exactly one shape the result is one container that holds one keypoint
    per pair, in order and with the coordinates as given; with any other
    number of shapes the call raises the shape-count [ValueError], whose
    message asks for exactly 1 shape. *)
Theorem keypoint_pairs_are_one_image :
  forall h fuel p pts ds,
    (length ds = 1 ->
     normalize_keypoints h (S (S (S fuel))) (VList (map tuple2 (p :: pts))) (shape_list ds)
     = Ret (VList [KeypointsOnImage (VList (map keypoint2 (p :: pts)))
                                    (VTuple (hd [] ds))]))
    /\ (length ds <> 1 ->
        exists msg,
          normalize_keypoints h (S (S (S fuel))) (VList (map tuple2 (p :: pts)))
                              (shape_list ds)
          = Raise (ValueError msg)
          /\ contains ("This required exactly 1 corresponding image shapes, "
                       ++ "but instead") msg
             = true).
Proof.
  intros h fuel p pts ds.
  assert (Hn :
    normalize_keypoints h (S (S (S fuel))) (VList (map tuple2 (p :: pts))) (shape_list ds)
    = (_assert_exactly_n_shapes (Some (map VTuple ds)) 1
         "iterable-tuple[number,size=2]" "List[KeypointsOnImage]" ;;;
       shape <- first_shape (Some (map VTuple ds)) ;;
       Ret (VList [KeypointsOnImage (VList (map keypoint2 (p :: pts))) shape]))).
  { unfold normalize_keypoints.
    rewrite preprocess_shapes_list. cbn [bind].
    replace (estimate_keypoints_norm_type h (S (S (S fuel)))
               (VList (map tuple2 (p :: pts))))
      with (@Ret string "iterable-tuple[number,size=2]") by reflexivity.
    cbn [bind]. pick_branch.
    destruct (_assert_exactly_n_shapes _ _ _ _); cbn [bind]; try reflexivity.
    cbn [py_iter seq_items bind]. rewrite mapM_map.
    rewrite (mapM_ret _ keypoint2) by reflexivity. cbn [bind]. reflexivity. }
  split; intros Hlen; rewrite Hn.
  - destruct ds as [|s [|s' ds]]; try discriminate Hlen. reflexivity.
  - unfold _assert_exactly_n_shapes. rewrite length_map.
    apply Nat.eqb_neq in Hlen. rewrite Hlen. cbn [negb bind].
    eexists. split; [reflexivity|]. vm_compute. reflexivity.
Qed.

Lemma keypoint_pairs_are_one_image_witness :
  normalize_keypoints [] 3
    (VList (map tuple2 [((PyInt, 1%Z), (PyInt, 2%Z)); ((PyInt, 3%Z), (PyInt, 4%Z))]))
    (shape_list [[VNum PyInt 8%Z; VNum PyInt 8%Z]])
  = Ret (VList [KeypointsOnImage
                  (VList (map keypoint2 [((PyInt, 1%Z), (PyInt, 2%Z));
                                         ((PyInt, 3%Z), (PyInt, 4%Z))]))
                  (VTuple (hd [] [[VNum PyInt 8%Z; VNum PyInt 8%Z]]))])
  /\ exists msg,
       normalize_keypoints [] 3
         (VList (map tuple2 [((PyInt, 1%Z), (PyInt, 2%Z)); ((PyInt, 3%Z), (PyInt, 4%Z))]))
         (shape_list [[VNum PyInt 8%Z; VNum PyInt 8%Z]; [VNum PyInt 8%Z; VNum PyInt 8%Z]])
       = Raise (ValueError msg)
       /\ contains ("This required exactly 1 corresponding image shapes, "
                    ++ "but instead") msg
          = true.
Proof.
  split.
  - apply (proj1 (keypoint_pairs_are_one_image [] 0 ((PyInt, 1%Z), (PyInt, 2%Z))
                    [((PyInt, 3%Z), (PyInt, 4%Z))] [[VNum PyInt 8%Z; VNum PyInt 8%Z]])).
    reflexivity.
  - apply (proj2 (keypoint_pairs_are_one_image [] 0 ((PyInt, 1%Z), (PyInt, 2%Z))
                    [((PyInt, 3%Z), (PyInt, 4%Z))]
                    [[VNum PyInt 8%Z; VNum PyInt 8%Z]; [VNum PyInt 8%Z; VNum PyInt 8%Z]])).
    cbn. lia.
Defined.

(** X23.  When the old input was one coordinate tuple, the inverse hands
    back the coordinates of the normalized data as a tuple: for an [(x, y)]
    tuple the keypoint of the one container, for an [(x1, y1, x2, y2)]
    tuple the box of the one container.  A container that holds no or
    several of them (an augmenter removed or added one) fails the
    [assert]. *)
Theorem invert_normalize_coordinate_tuple :
  forall h fuel x y x1 y1 x2 y2 shape (kps : list (value * value))
         (bbs : list (value * value * value * value)),
    is_single_number x = true -> is_single_number y = true ->
    is_single_number x1 = true -> is_single_number y1 = true ->
    is_single_number x2 = true -> is_single_number y2 = true ->
    invert_normalize_keypoints h (S (S fuel))
      (VList [KeypointsOnImage
                (VList (map (fun p => Keypoint (fst p) (snd p)) kps)) shape])
      (VTuple [x; y])
    = match kps with
      | [(kx, ky)] => Ret (VTuple [kx; ky])
      | _ => Raise (AssertionError "")
      end
    /\ invert_normalize_bounding_boxes h (S (S fuel))
         (VList [BoundingBoxesOnImage
                   (VList (map (fun q => let '(a, b, c, d) := q in BoundingBox a b c d)
                               bbs)) shape])
         (VTuple [x1; y1; x2; y2])
       = match bbs with
         | [(a, b, c, d)] => Ret (VTuple [a; b; c; d])
         | _ => Raise (AssertionError "")
         end.
Proof.
  intros h fuel x y x1 y1 x2 y2 shape kps bbs Hx Hy Hx1 Hy1 Hx2 Hy2.
  destruct x; try discriminate Hx. destruct y; try discriminate Hy.
  destruct x1; try discriminate Hx1. destruct y1; try discriminate Hy1.
  destruct x2; try discriminate Hx2. destruct y2; try discriminate Hy2.
  split.
  - destruct kps as [|[kx ky] [|kp_more kps]]; reflexivity.
  - destruct bbs as [|[[[a b] c] d] [|bb_more bbs]]; reflexivity.
Qed.

Lemma invert_normalize_coordinate_tuple_witness :
  invert_normalize_keypoints [] 2
    (VList [KeypointsOnImage
              (VList (map (fun p => Keypoint (fst p) (snd p))
                          [(VNum PyFloat 11%Z, VNum PyFloat 12%Z)])) image_shape])
    (VTuple [VNum PyInt 1%Z; VNum PyInt 2%Z])
  = Ret (VTuple [VNum PyFloat 11%Z; VNum PyFloat 12%Z])
  /\ invert_normalize_bounding_boxes [] 2
       (VList [BoundingBoxesOnImage
                 (VList (map (fun q : value * value * value * value =>
                                let '(a, b, c, d) := q in BoundingBox a b c d) []))
                 image_shape])
       (VTuple [VNum PyInt 1%Z; VNum PyInt 2%Z; VNum PyInt 3%Z; VNum PyInt 4%Z])
     = Raise (AssertionError "").
Proof.
  apply (invert_normalize_coordinate_tuple [] 0
           (VNum PyInt 1%Z) (VNum PyInt 2%Z)
           (VNum PyInt 1%Z) (VNum PyInt 2%Z) (VNum PyInt 3%Z) (VNum PyInt 4%Z)
           image_shape [(VNum PyFloat 11%Z, VNum PyFloat 12%Z)] []); reflexivity.
Defined.

(** ** The dtype kind decides which map accepts an array *)

(** X24.  The dtype kind of an array decides which forward map takes it:
    [normalize_heatmaps] rejects integer, unsigned and boolean arrays,
    [normalize_segmentation_maps] rejects float arrays, and the maps for
    keypoints, bounding boxes and polygons reject boolean arrays.  The
    rejection is the whitelist [assert], with the message that ends with
    the form found; it does not depend on the shape of the array or on
    the shapes passed. *)
Theorem array_kind_decides_acceptance :
  forall h fuel a shapes s,
    _preprocess_shapes h shapes = Ret s ->
    let rejected arg valid :=
      @Raise value
        (AssertionError
           ("Got an unknown datatype for argument '" ++ arg
            ++ "'. Expected datatypes were: " ++ join ", " valid
            ++ ". Got: " ++ ("array[" ++ kind_name (kind (dtype_of a)) ++ "]")
            ++ ".")) in
    (kind (dtype_of a) = "i" \/ kind (dtype_of a) = "u" \/ kind (dtype_of a) = "b" ->
     normalize_heatmaps h (S fuel) (VArr a) shapes
     = rejected "heatmaps" heatmaps_valid_type_strs)
    /\ (kind (dtype_of a) = "f" ->
        normalize_segmentation_maps h (S fuel) (VArr a) shapes
        = rejected "segmentation_maps" segmaps_valid_type_strs)
    /\ (kind (dtype_of a) = "b" ->
        normalize_keypoints h (S fuel) (VArr a) shapes
        = rejected "keypoints" keypoints_valid_type_strs
        /\ normalize_bounding_boxes h (S fuel) (VArr a) shapes
           = rejected "bounding_boxes" bounding_boxes_valid_type_strs
        /\ normalize_polygons h (S fuel) (VArr a) shapes
           = rejected "polygons" polygons_valid_type_strs).
Proof.
  intros h fuel [[k sz] sh dat] shapes s Hs rejected.
  cbn [dtype_of kind] in *. subst rejected. cbn beta.
  unfold normalize_heatmaps, normalize_segmentation_maps, normalize_keypoints,
    normalize_bounding_boxes, normalize_polygons.
  rewrite Hs. cbn [bind].
  split; [|split].
  - intros [-> | [-> | ->]]; reflexivity.
  - intros ->. reflexivity.
  - intros ->. repeat split; reflexivity.
Qed.

Lemma array_kind_decides_acceptance_witness :
  normalize_heatmaps [] 1 keypoints_batch VNone
  = Raise (AssertionError
             ("Got an unknown datatype for argument '" ++ "heatmaps"
              ++ "'. Expected datatypes were: " ++ join ", " heatmaps_valid_type_strs
              ++ ". Got: " ++ ("array[" ++ kind_name "i" ++ "]") ++ "."))
  /\ normalize_segmentation_maps [] 1 heatmaps_batch VNone
     = Raise (AssertionError
                ("Got an unknown datatype for argument '" ++ "segmentation_maps"
                 ++ "'. Expected datatypes were: " ++ join ", " segmaps_valid_type_strs
                 ++ ". Got: " ++ ("array[" ++ kind_name "f" ++ "]") ++ ".")).
Proof.
  split.
  - apply (proj1 (array_kind_decides_acceptance [] 0
                    (mk_array int32 [2; 1; 2] [1; 2; 3; 4]%Z) VNone None eq_refl)).
    left. reflexivity.
  - apply (proj1 (proj2 (array_kind_decides_acceptance [] 0
                           (mk_array float32 [2; 1; 2; 1] [0; 1; 1; 0]%Z) VNone None
                           eq_refl))).
    reflexivity.
Defined.

(** ** One container per image *)

(** X25.  A batch array of keypoints of shape (N, K, 2), with N shapes,
    is split along its first axis: the result holds N containers, the
    i-th made of the K coordinate rows of the i-th image, in order, and
    carrying the i-th shape.  A batch array of bounding boxes of shape
    (N, B, 4) is split the same way, four coordinates per box. *)
Theorem normalize_coordinate_batch :
  forall h fuel a b n k nb ds,
    numeric_kind a -> array_ok a -> shape a = [n; k; 2] ->
    numeric_kind b -> array_ok b -> shape b = [n; nb; 4] ->
    length ds = n ->
    normalize_keypoints h (S fuel) (VArr a) (shape_list ds)
    = Ret (VList (map (fun p => KeypointsOnImage
                                  (VList (map (keypoint_of_row (dtype_of a))
                                              (chunks k 2 (fst p))))
                                  (snd p))
                      (combine (chunks n (k * 2) (data a)) (map VTuple ds))))
    /\ normalize_bounding_boxes h (S fuel) (VArr b) (shape_list ds)
       = Ret (VList (map (fun p => BoundingBoxesOnImage
                                     (VList (map (box_of_row (dtype_of b))
                                                 (chunks nb 4 (fst p))))
                                     (snd p))
                         (combine (chunks n (nb * 4) (data b)) (map VTuple ds)))).
Proof.
  intros h fuel [dta sha da] [dtb shb db] n k nb ds Hka Hoka Hsa Hkb Hokb Hsb Hlen.
  unfold array_ok in *. cbn [shape data dtype_of] in *. subst sha shb.
  rewrite size_of_cons in Hoka, Hokb.
  assert (Hsz2 : size_of [k; 2] = k * 2) by (unfold size_of; cbn; lia).
  assert (Hsz4 : size_of [nb; 4] = nb * 4) by (unfold size_of; cbn; lia).
  split.
  - destruct (numeric_kind_tag _ Hka) as (kn & Hkn & Hin & _ & Hcases).
    cbn [dtype_of] in Hkn.
    assert (Htag : estimate_normalization_type h (S fuel)
                     (VArr (mk_array dta [n; k; 2] da)) = Ret ("array[" ++ kn ++ "]")%string)
      by (rewrite <- Hkn; reflexivity).
    assert (Hnone : String.eqb ("array[" ++ kn ++ "]") "None" = false) by reflexivity.
    unfold normalize_keypoints. rewrite preprocess_shapes_list. cbn [bind].
    rewrite (estimate_keypoints_norm_type_ok h _ _ _ Htag)
      by (destruct Hcases as [-> | [-> | ->]]; reflexivity).
    cbn [bind]. rewrite Hnone, Hin. cbn [py_len shape bind].
    rewrite assert_exactly_n_shapes_ok by (rewrite length_map; exact Hlen).
    cbn [bind py_ndim get_array ndim shape length Nat.eqb py_assert py_shape_at
         nth_error].
    rewrite zip_shapes_array. cbn [bind].
    set (G := fun (blk : list Z) (s : value) =>
                KeypointsOnImage (VList (map (keypoint_of_row dta) (chunks k 2 blk))) s).
    rewrite (forward_blocks (from_coords_array h) G).
    + cbn [bind]. rewrite Hsz2. reflexivity.
    + intros blk s Hb. apply from_coords_array_ok. rewrite <- Hsz2.
      eapply chunks_block_length; [|exact Hb]. lia.
  - destruct (numeric_kind_tag _ Hkb) as (kn & Hkn & Hin & _ & Hcases).
    cbn [dtype_of] in Hkn.
    assert (Htag : estimate_normalization_type h (S fuel)
                     (VArr (mk_array dtb [n; nb; 4] db)) = Ret ("array[" ++ kn ++ "]")%string)
      by (rewrite <- Hkn; reflexivity).
    assert (Hnone : String.eqb ("array[" ++ kn ++ "]") "None" = false) by reflexivity.
    unfold normalize_bounding_boxes. rewrite preprocess_shapes_list. cbn [bind].
    rewrite (estimate_bounding_boxes_norm_type_ok h _ _ _ Htag)
      by (destruct Hcases as [-> | [-> | ->]]; reflexivity).
    cbn [bind]. rewrite Hnone, Hin.
    cbn [assert_shapes_given bind py_ndim get_array ndim shape length Nat.eqb
         py_assert py_shape_at nth_error py_len].
    rewrite length_map, Hlen, Nat.eqb_refl. cbn [py_assert bind].
    rewrite zip_shapes_array. cbn [bind].
    set (G := fun (blk : list Z) (s : value) =>
                BoundingBoxesOnImage (VList (map (box_of_row dtb) (chunks nb 4 blk))) s).
    rewrite (forward_blocks (from_xyxy_array h) G).
    + cbn [bind]. rewrite Hsz4. reflexivity.
    + intros blk s Hb. apply from_xyxy_array_ok. rewrite <- Hsz4.
      eapply chunks_block_length; [|exact Hb]. lia.
Qed.

Lemma normalize_coordinate_batch_witness :
  normalize_keypoints [] 1 keypoints_batch (shape_list [[VNum PyInt 8%Z]; [VNum PyInt 9%Z]])
  = Ret (VList (map (fun p => KeypointsOnImage
                                (VList (map (keypoint_of_row int32) (chunks 1 2 (fst p))))
                                (snd p))
                    (combine (chunks 2 (1 * 2) [1; 2; 3; 4]%Z)
                             (map VTuple [[VNum PyInt 8%Z]; [VNum PyInt 9%Z]]))))
  /\ normalize_bounding_boxes [] 1 bounding_boxes_batch
       (shape_list [[VNum PyInt 8%Z]; [VNum PyInt 9%Z]])
     = Ret (VList (map (fun p => BoundingBoxesOnImage
                                   (VList (map (box_of_row int32) (chunks 1 4 (fst p))))
                                   (snd p))
                       (combine (chunks 2 (1 * 4) [1; 2; 3; 4; 5; 6; 7; 8]%Z)
                                (map VTuple [[VNum PyInt 8%Z]; [VNum PyInt 9%Z]])))).
Proof.
  apply (normalize_coordinate_batch [] 0
           (mk_array int32 [2; 1; 2] [1; 2; 3; 4]%Z)
           (mk_array int32 [2; 1; 4] [1; 2; 3; 4; 5; 6; 7; 8]%Z)
           2 1 1 [[VNum PyInt 8%Z]; [VNum PyInt 9%Z]]);
    try reflexivity; right; left; reflexivity.
Defined.



(** X27.  Integer and unsigned segmentation maps need a largest label: a
    batch of maps without pixels makes the [np.max] in
    [normalize_segmentation_maps] raise numpy's [ValueError], while the same
    batch with a boolean dtype, for which no maximum is taken, is
    normalized. *)
Theorem normalize_segmentation_maps_without_pixels :
  forall h fuel a n hh w s ds,
    shape a = [S n; hh; w] -> hh * w = 0 -> length ds = n ->
    (kind (dtype_of a) = "i" \/ kind (dtype_of a) = "u" ->
     normalize_segmentation_maps h (S fuel) (VArr a) (shape_list (s :: ds))
     = Raise (ValueError
                "zero-size array to reduction operation maximum which has no identity"))
    /\ (kind (dtype_of a) = "b" ->
        exists r,
          normalize_segmentation_maps h (S fuel) (VArr a) (shape_list (s :: ds))
          = Ret (VList r)
          /\ length r = S n).
Proof.
  intros h fuel [[k sz] sh d] n hh w s ds Hsh Hzero Hlen.
  cbn [shape data dtype_of kind] in *. subst sh.
  assert (Hsz : size_of [hh; w] = 0) by (unfold size_of; cbn; lia).
  split.
  - intros Hk.
    assert (Ht : exists t,
               estimate_segmaps_norm_type h (S fuel)
                 (VArr (mk_array (mk_dtype k sz) [S n; hh; w] d)) = Ret t
               /\ str_in t ["array[int]"; "array[uint]"; "array[bool]"] = true
               /\ String.eqb t "None" = false
               /\ String.eqb t "array[bool]" = false).
    { destruct Hk as [-> | ->]; eexists; repeat split; reflexivity. }
    destruct Ht as (t & Ht & Hin & Hnone & Hbool).
    unfold normalize_segmentation_maps. rewrite preprocess_shapes_list. cbn [bind].
    rewrite Ht. cbn [bind]. rewrite Hnone, Hin. cbn [py_len shape bind].
    rewrite assert_exactly_n_shapes_ok by (rewrite length_map; cbn [length]; lia).
    cbn [bind py_ndim get_array ndim shape length Nat.eqb py_assert].
    rewrite zip_shapes_array. cbn [bind]. unfold segmaps_of. rewrite Hbool.
    rewrite Hsz. cbn [chunks firstn map combine mapM fst snd].
    unfold nb_classes_of, np_max. cbn [get_array bind data]. reflexivity.
  - intros ->.
    unfold normalize_segmentation_maps. rewrite preprocess_shapes_list. cbn [bind].
    rewrite (estimate_segmaps_norm_type_ok h _ _ "array[bool]") by reflexivity.
    pick_branch. cbn [py_len shape bind].
    rewrite assert_exactly_n_shapes_ok by (rewrite length_map; cbn [length]; lia).
    cbn [bind py_ndim get_array ndim shape length Nat.eqb py_assert].
    rewrite zip_shapes_array. cbn [bind]. unfold segmaps_of. pick_branch.
    set (G := fun (blk : list Z) (s : value) =>
                segmap_of false (mk_array (mk_dtype "b" sz) [hh; w] blk) s).
    rewrite (forward_blocks (fun x s => SegmentationMapOnImage x s VNone) G)
      by reflexivity.
    cbn [bind]. eexists. split; [reflexivity|].
    rewrite length_blocks; rewrite chunks_length; [reflexivity|].
    rewrite length_map. cbn [length]. lia.
Qed.

Lemma normalize_segmentation_maps_without_pixels_witness :
  normalize_segmentation_maps [] 1 (VArr (mk_array int32 [1; 0; 4] []))
    (shape_list ([VNum PyInt 8%Z] :: []))
  = Raise (ValueError
             "zero-size array to reduction operation maximum which has no identity")
  /\ exists r,
       normalize_segmentation_maps [] 1 (VArr (mk_array bool_ [1; 0; 4] []))
         (shape_list ([VNum PyInt 8%Z] :: []))
       = Ret (VList r)
       /\ length r = 1.
Proof.
  split.
  - apply (proj1 (normalize_segmentation_maps_without_pixels [] 0
                    (mk_array int32 [1; 0; 4] []) 0 0 4 [VNum PyInt 8%Z] []
                    eq_refl eq_refl eq_refl)).
    left. reflexivity.
  - apply (proj2 (normalize_segmentation_maps_without_pixels [] 0
                    (mk_array bool_ [1; 0; 4] []) 0 0 4 [VNum PyInt 8%Z] []
                    eq_refl eq_refl eq_refl)).
    reflexivity.
Defined.
